(** * KanbanFlow backend: the position-maintenance logic of cards and lists

    A shallow embedding of the Mongoose models [Card], [List] and [Board]
    (their [moveToList] / [moveToPosition] methods and their [deleteOne]
    hooks), of the request validation and of the controllers that create,
    move and delete cards and lists, followed by the properties of the
    sibling positions that these operations maintain.

    Where the code is.
    - [cardSchema] (model Card): src/utils/testAuth.js, second document.
    - [listSchema] (model List): src/unnamed/part_001, first document.
    - [boardSchema] (model Board): src/models/Board.js.
    - [cardController]: src/controllers/cardController.js.
    - [boardController], [listController]: src/controllers/boardController.js.
    - [validation] (utils/validation): src/unnamed/part_000, second document.
    - [routes]: src/routes/cards.js, src/routes/lists.js.

    Modelling choices.
    - A collection is the list of its documents; [_id] is unique in a
      collection (MongoDB's index on [_id]): inserting a document whose
      [_id] is already present fails with error 11000. An ObjectId is
      written as [toString()] writes it; the ids of a request are taken to
      be written that way, except the [listId] of a card move, the one
      place where the code compares the string of the request itself:
      there the model keeps the string and casts it where Mongoose does
      ([castObjectId]).
    - A document keeps the fields that the position logic reads or writes,
      and of a card also [dueDate], whose validator depends on the time of
      the save. Positions and card limits are integers ([Z]); counts are
      converted with [Z.of_nat]. The validation of the requests and the
      schemas accept fractions too: the model covers the stores and the
      requests whose positions and limits are integers.
    - An [async] function is a function of the database that returns a
      value or a thrown exception together with the database as it is at
      that point: nothing is rolled back when an exception is thrown.
      Requests run one after the other.
    - Left out: the socket notifications, [populate], logging, and
      [validationResult(req)], for which these routes register no check.
      The [pre('save')] hooks that compute a missing position are not
      reached: both creating handlers always supply [position]. *)

From Stdlib Require Import String DecimalString ZArith List Bool Lia Permutation.
Import ListNotations.
Local Open Scope string_scope.
Local Open Scope Z_scope.

(** ** Documents *)

Definition ObjectId := string.

(** Mongoose casts a string given where an ObjectId is expected to the
    ObjectId that it spells. The hex digits are read in either letter
    case and [toString()] writes them in lower case, so that
    [castObjectId (id.toString())] is [id] for a stored id, and a string
    with an upper-case digit spells the same id as its lower-case form.
    A string that spells no ObjectId is refused by the cast; the model
    keeps the strings that spell one, and writes the ids of its examples
    short, by their last characters. *)
Definition lowerHexDigit (a : Ascii.ascii) : Ascii.ascii :=
  let n := Ascii.nat_of_ascii a in
  if ((65 <=? n)%nat && (n <=? 70)%nat)%bool then Ascii.ascii_of_nat (n + 32) else a.

Fixpoint castObjectId (s : string) : ObjectId :=
  match s with
  | EmptyString => EmptyString
  | String a rest => String (lowerHexDigit a) (castObjectId rest)
  end.

Module BoardDoc.
Record t := mk {
  _id : ObjectId;
  ownerId : ObjectId;
  members : list ObjectId
}.
End BoardDoc.

Module ListDoc.
Record t := mk {
  _id : ObjectId;
  boardId : ObjectId;
  position : Z;
  archived : bool;
  cardLimit : option Z
}.
Definition setPosition (p : Z) (l : t) : t :=
  mk (_id l) (boardId l) p (archived l) (cardLimit l).
Definition setArchived (a : bool) (l : t) : t :=
  mk (_id l) (boardId l) (position l) a (cardLimit l).
(** [{ $inc: { position: d } }] *)
Definition inc (d : Z) (l : t) : t := setPosition (position l + d) l.
End ListDoc.

Module CardDoc.
(** [dueDate] is a date in milliseconds, or [null]. *)
Record t := mk {
  _id : ObjectId;
  listId : ObjectId;
  boardId : ObjectId;
  position : Z;
  archived : bool;
  dueDate : option Z
}.
Definition setPosition (p : Z) (c : t) : t :=
  mk (_id c) (listId c) (boardId c) p (archived c) (dueDate c).
Definition setListId (l : ObjectId) (c : t) : t :=
  mk (_id c) l (boardId c) (position c) (archived c) (dueDate c).
(** [{ $inc: { position: d } }] *)
Definition inc (d : Z) (c : t) : t := setPosition (position c + d) c.
End CardDoc.

Record DB := mkDB {
  boards : list BoardDoc.t;
  lists : list ListDoc.t;
  cards : list CardDoc.t
}.

Definition setLists (ls : list ListDoc.t) (db : DB) : DB :=
  mkDB (boards db) ls (cards db).
Definition setCards (cs : list CardDoc.t) (db : DB) : DB :=
  mkDB (boards db) (lists db) cs.
Definition setBoards (bs : list BoardDoc.t) (db : DB) : DB :=
  mkDB bs (lists db) (cards db).

(** ** Asynchronous code: state and exceptions *)

Inductive Exn :=
| ValidationError (msg : string)
| Error (msg : string)
| MongoServerError (code : Z)
| DocumentNotFoundError.

Definition Async (A : Type) : Type := DB -> (Exn + A) * DB.

Definition ret {A} (a : A) : Async A := fun db => (inr a, db).
Definition throw {A} (e : Exn) : Async A := fun db => (inl e, db).
Definition bind {A B} (m : Async A) (k : A -> Async B) : Async B :=
  fun db =>
    match m db with
    | (inr a, db') => k a db'
    | (inl e, db') => (inl e, db')
    end.
(** [try { await m } catch (error) { }] of the post hooks: the error is
    logged and dropped. *)
Definition swallow (m : Async unit) : Async unit :=
  fun db => (inr tt, snd (m db)).

Declare Scope async_scope.
Delimit Scope async_scope with async.
Notation "x <- m ;; k" := (bind m (fun x => k))
  (at level 61, m at next level, right associativity) : async_scope.
Notation "m ;;; k" := (bind m (fun _ => k))
  (at level 61, right associativity) : async_scope.
Local Open Scope async_scope.

(** ** Queries on a collection *)

Module Query.
Section Collection.
Context {A : Type}.
Variable docId : A -> ObjectId.

Definition countDocuments (q : A -> bool) (coll : list A) : Z :=
  Z.of_nat (length (filter q coll)).

Definition updateMany (q : A -> bool) (u : A -> A) (coll : list A) : list A :=
  map (fun d => if q d then u d else d) coll.

Definition deleteMany (q : A -> bool) (coll : list A) : list A :=
  filter (fun d => negb (q d)) coll.

Definition findById (id : ObjectId) (coll : list A) : option A :=
  find (fun d => docId d =? id)%string coll.

Definition hasId (id : ObjectId) (coll : list A) : bool :=
  existsb (fun d => docId d =? id)%string coll.
End Collection.
End Query.

(** ** Strings: [trim] *)

Module Text.
(** White space, for the characters of the ASCII range. *)
Definition isSpace (a : Ascii.ascii) : bool :=
  let n := Ascii.nat_of_ascii a in
  ((9 <=? n)%nat && (n <=? 13)%nat) || (n =? 32)%nat.

Fixpoint trimStart (s : string) : string :=
  match s with
  | EmptyString => EmptyString
  | String a rest => if isSpace a then trimStart rest else s
  end.

Fixpoint rev (s acc : string) : string :=
  match s with
  | EmptyString => acc
  | String a rest => rev rest (String a acc)
  end.

Definition trim (s : string) : string :=
  rev (trimStart (rev (trimStart s) EmptyString)) EmptyString.
End Text.

(** ** The models: statics bound to their collection *)

Module BoardModel.
Definition findById (id : ObjectId) : Async (option BoardDoc.t) :=
  fun db => (inr (Query.findById BoardDoc._id id (boards db)), db).

(** [board.deleteOne()] at the collection: [deleteOne({ _id })]. *)
Definition removeDoc (this : BoardDoc.t) : Async unit :=
  fun db => (inr tt,
    setBoards
      (Query.deleteMany (fun b => BoardDoc._id b =? BoardDoc._id this)%string
         (boards db)) db).
End BoardModel.

Module ListModel.
Definition findById (id : ObjectId) : Async (option ListDoc.t) :=
  fun db => (inr (Query.findById ListDoc._id id (lists db)), db).
Definition countDocuments (q : ListDoc.t -> bool) : Async Z :=
  fun db => (inr (Query.countDocuments q (lists db)), db).
Definition updateMany (q : ListDoc.t -> bool) (u : ListDoc.t -> ListDoc.t) : Async unit :=
  fun db => (inr tt, setLists (Query.updateMany q u (lists db)) db).
Definition deleteMany (q : ListDoc.t -> bool) : Async unit :=
  fun db => (inr tt, setLists (Query.deleteMany q (lists db)) db).
Definition removeDoc (this : ListDoc.t) : Async unit :=
  deleteMany (fun l => ListDoc._id l =? ListDoc._id this)%string.

(** Schema validation run by [save]. Of the validators of a list the model
    keeps the one on the path that the moves assign, [position: { min: 0 }];
    the other stored paths have validators that do not depend on the time
    and passed them when they were stored (the updates run the
    validators). *)
Definition validate (l : ListDoc.t) : Async unit :=
  if ListDoc.position l <? 0
  then throw (ValidationError "Position cannot be negative")
  else ret tt.

(** Schema validation of the name of a new list: [required], [trim],
    [minlength: 1], [maxlength: 100]. *)
Definition nameError (name : option string) : option string :=
  match name with
  | None => Some "List name is required"
  | Some name =>
      if (String.length (Text.trim name) =? 0)%nat
      then Some "List name is required"
      else if (100 <? String.length (Text.trim name))%nat
      then Some "List name cannot exceed 100 characters"
      else None
  end.

Definition validateName (name : option string) : Async unit :=
  match nameError name with
  | Some msg => throw (ValidationError msg)
  | None => ret tt
  end.

(** [save()] of a new document: validation, then [insertOne]. *)
Definition insert (name : option string) (l : ListDoc.t) : Async ListDoc.t :=
  validateName name ;;;
  validate l ;;;
  fun db =>
    if Query.hasId ListDoc._id (ListDoc._id l) (lists db)
    then (inl (MongoServerError 11000), db)
    else (inr l, setLists (lists db ++ [l]) db).

(** [save()] of a loaded document whose [position] was assigned:
    validation, then [updateOne({ _id }, { $set: { position } })]. *)
Definition savePosition (this : ListDoc.t) : Async ListDoc.t :=
  validate this ;;;
  fun db =>
    if Query.hasId ListDoc._id (ListDoc._id this) (lists db)
    then (inr this,
          setLists (Query.updateMany (fun l => ListDoc._id l =? ListDoc._id this)%string
                      (ListDoc.setPosition (ListDoc.position this)) (lists db)) db)
    else (inl DocumentNotFoundError, db).

(** [save()] of a loaded document whose [archived] was assigned. *)
Definition saveArchived (this : ListDoc.t) : Async ListDoc.t :=
  validate this ;;;
  fun db =>
    if Query.hasId ListDoc._id (ListDoc._id this) (lists db)
    then (inr this,
          setLists (Query.updateMany (fun l => ListDoc._id l =? ListDoc._id this)%string
                      (ListDoc.setArchived (ListDoc.archived this)) (lists db)) db)
    else (inl DocumentNotFoundError, db).
End ListModel.

Module CardModel.
Definition findById (id : ObjectId) : Async (option CardDoc.t) :=
  fun db => (inr (Query.findById CardDoc._id id (cards db)), db).
Definition countDocuments (q : CardDoc.t -> bool) : Async Z :=
  fun db => (inr (Query.countDocuments q (cards db)), db).
Definition updateMany (q : CardDoc.t -> bool) (u : CardDoc.t -> CardDoc.t) : Async unit :=
  fun db => (inr tt, setCards (Query.updateMany q u (cards db)) db).
Definition deleteMany (q : CardDoc.t -> bool) : Async unit :=
  fun db => (inr tt, setCards (Query.deleteMany q (cards db)) db).
Definition removeDoc (this : CardDoc.t) : Async unit :=
  deleteMany (fun c => CardDoc._id c =? CardDoc._id this)%string.

(** Schema validation run by [save]: the validators of the paths of the
    document, the loaded ones as well as the assigned ones. The model
    keeps [position: { min: 0 }] and the validator of [dueDate],
    [!v || v > new Date()], [now] being the time of the save; the other
    stored paths have validators that do not depend on the time and
    passed them when they were stored. *)
Definition positionError (c : CardDoc.t) : option string :=
  if CardDoc.position c <? 0 then Some "Position cannot be negative" else None.

Definition dueDateError (now : Z) (c : CardDoc.t) : option string :=
  match CardDoc.dueDate c with
  | Some v => if now <? v then None else Some "Due date must be in the future"
  | None => None
  end.

Definition validate (now : Z) (c : CardDoc.t) : Async unit :=
  match positionError c, dueDateError now c with
  | Some msg, _ => throw (ValidationError msg)
  | None, Some msg => throw (ValidationError msg)
  | None, None => ret tt
  end.

(** Schema validation of the title of a new card: [required], [trim],
    [minlength: 1], [maxlength: 200]. *)
Definition titleError (title : option string) : option string :=
  match title with
  | None => Some "Card title is required"
  | Some title =>
      if (String.length (Text.trim title) =? 0)%nat
      then Some "Card title is required"
      else if (200 <? String.length (Text.trim title))%nat
      then Some "Card title cannot exceed 200 characters"
      else None
  end.

Definition validateTitle (title : option string) : Async unit :=
  match titleError title with
  | Some msg => throw (ValidationError msg)
  | None => ret tt
  end.

(** [save()] of a new document: validation, then [insertOne]. The new
    card has the [dueDate] [null] ([createCard] passes none; a card gets
    its due date from a later update), which the validator accepts at any
    time. *)
Definition insert (title : option string) (c : CardDoc.t) : Async CardDoc.t :=
  validateTitle title ;;;
  match positionError c with
  | Some msg => throw (ValidationError msg)
  | None => ret tt
  end ;;;
  fun db =>
    if Query.hasId CardDoc._id (CardDoc._id c) (cards db)
    then (inl (MongoServerError 11000), db)
    else (inr c, setCards (cards db ++ [c]) db).

(** [save()] of the document [this], loaded as [loaded], after [listId]
    and [position] were assigned: validation, then
    [updateOne({ _id }, { $set: ... })] of those of the two paths whose
    value is no longer the loaded one. *)
Definition modified (loaded this : CardDoc.t) (c : CardDoc.t) : CardDoc.t :=
  let c := if (CardDoc.listId loaded =? CardDoc.listId this)%string then c
           else CardDoc.setListId (CardDoc.listId this) c in
  if CardDoc.position loaded =? CardDoc.position this then c
  else CardDoc.setPosition (CardDoc.position this) c.

Definition saveListIdPosition (now : Z) (loaded this : CardDoc.t) : Async CardDoc.t :=
  validate now this ;;;
  fun db =>
    if Query.hasId CardDoc._id (CardDoc._id this) (cards db)
    then (inr this,
          setCards (Query.updateMany (fun c => CardDoc._id c =? CardDoc._id this)%string
                      (modified loaded this) (cards db)) db)
    else (inl DocumentNotFoundError, db).
End CardModel.

(** ** Schema methods and hooks *)

Module boardSchema.
Import BoardDoc.

Definition isOwner (this : t) (userId : ObjectId) : bool :=
  (ownerId this =? userId)%string.

Definition isMember (this : t) (userId : ObjectId) : bool :=
  (ownerId this =? userId)%string
  || existsb (fun memberId => memberId =? userId)%string (members this).

(** [pre('deleteOne')]: cascade to the lists and the cards of the board. *)
Definition pre_deleteOne (this : t) : Async unit :=
  ListModel.deleteMany (fun l => ListDoc.boardId l =? _id this)%string ;;;
  CardModel.deleteMany (fun c => CardDoc.boardId c =? _id this)%string.

(** [board.deleteOne()] *)
Definition deleteOne (this : t) : Async unit :=
  pre_deleteOne this ;;;
  BoardModel.removeDoc this.
End boardSchema.

Module listSchema.
Import ListDoc.

Definition moveToPosition (this : t) (newPosition : Z) : Async t :=
  if newPosition <? 0 then throw (Error "Position cannot be negative")
  else
    let oldPosition := position this in
    if oldPosition =? newPosition then ret this
    else
      (if oldPosition <? newPosition
       then
         (* Moving down *)
         ListModel.updateMany
           (fun l => (boardId l =? boardId this)%string
                     && ((oldPosition <? position l) && (position l <=? newPosition))
                     && negb (_id l =? _id this)%string)
           (inc (-1))
       else
         (* Moving up *)
         ListModel.updateMany
           (fun l => (boardId l =? boardId this)%string
                     && ((newPosition <=? position l) && (position l <? oldPosition))
                     && negb (_id l =? _id this)%string)
           (inc 1)) ;;;
      ListModel.savePosition (setPosition newPosition this).

Definition isCardLimitExceeded (this : t) : Async bool :=
  match cardLimit this with
  | None => ret false
  | Some limit =>
      if limit =? 0 then ret false
      else
        cardCount <- CardModel.countDocuments
                       (fun c => (CardDoc.listId c =? _id this)%string
                                 && negb (CardDoc.archived c)) ;;
        ret (limit <=? cardCount)
  end.

(** [pre('deleteOne')]: cascade to the cards of the list. *)
Definition pre_deleteOne (this : t) : Async unit :=
  CardModel.deleteMany (fun c => CardDoc.listId c =? _id this)%string.

(** [post('deleteOne')]: close the gap among the lists of the board. *)
Definition post_deleteOne (doc : t) : Async unit :=
  swallow
    (ListModel.updateMany
       (fun l => (boardId l =? boardId doc)%string && (position doc <? position l))
       (inc (-1))).

(** [list.deleteOne()] *)
Definition deleteOne (this : t) : Async unit :=
  pre_deleteOne this ;;;
  ListModel.removeDoc this ;;;
  post_deleteOne this.
End listSchema.

Module cardSchema.
Import CardDoc.

(** [newListId] is the string that the caller gives and [now] the time of
    the call. The two tests compare [oldListId.toString()] with the
    string; the queries and the assignment [this.listId = newListId] cast
    the string. In the branch of the same list the string is
    [oldListId.toString()], which casts to [oldListId]. *)
Definition moveToList (now : Z) (this : t) (newListId : string)
           (newPosition : option Z) : Async t :=
  let oldListId := listId this in
  let oldPosition := position this in
  let finish (newListId : ObjectId) (newPosition : Z) :=
    CardModel.saveListIdPosition now this
      (setPosition newPosition (setListId newListId this)) in
  match (oldListId =? newListId)%string, newPosition with
  | true, None =>
      (* same list and no position specified: do nothing *)
      ret this
  | false, _ =>
      (* moving to a different list *)
      CardModel.updateMany
        (fun c => (listId c =? oldListId)%string && (oldPosition <? position c))
        (inc (-1)) ;;;
      newPosition <- match newPosition with
                     | None => CardModel.countDocuments
                                 (fun c => listId c =? castObjectId newListId)%string
                     | Some p => ret p
                     end ;;
      CardModel.updateMany
        (fun c => (listId c =? castObjectId newListId)%string
                  && (newPosition <=? position c))
        (inc 1) ;;;
      finish (castObjectId newListId) newPosition
  | true, Some newPosition =>
      (* moving within the same list *)
      if newPosition =? oldPosition then ret this
      else
        (if oldPosition <? newPosition
         then
           (* Moving down *)
           CardModel.updateMany
             (fun c => (listId c =? oldListId)%string
                       && ((oldPosition <? position c) && (position c <=? newPosition))
                       && negb (_id c =? _id this)%string)
             (inc (-1))
         else
           (* Moving up *)
           CardModel.updateMany
             (fun c => (listId c =? oldListId)%string
                       && ((newPosition <=? position c) && (position c <? oldPosition))
                       && negb (_id c =? _id this)%string)
             (inc 1)) ;;;
        finish oldListId newPosition
  end.

(** [post('deleteOne')]: close the gap among the non-archived cards. *)
Definition post_deleteOne (doc : t) : Async unit :=
  swallow
    (CardModel.updateMany
       (fun c => (listId c =? listId doc)%string
                 && (position doc <? position c)
                 && negb (archived c))
       (inc (-1))).

(** [card.deleteOne()] *)
Definition deleteOne (this : t) : Async unit :=
  CardModel.removeDoc this ;;;
  post_deleteOne this.
End cardSchema.

(** ** Responses and request handlers *)

Inductive Data :=
| NoData
| CardData (c : CardDoc.t)
| ListData (l : ListDoc.t).

Record Response := json {
  status : Z;
  message : string;
  data : Data
}.

Definition Handler := DB -> Response * DB.

(** [try { ... } catch (error) { res.status(500).json(...) }] *)
Definition try_catch (body : Async Response) (on_error : Response) : Handler :=
  fun db =>
    match body db with
    | (inr r, db') => (r, db')
    | (inl _, db') => (on_error, db')
    end.

Module cardController.

(** [newId] is the [_id] that [new Card(...)] generates; [title] is
    [req.body.title], absent or a string. *)
Definition createCard (userId newId : ObjectId) (title : option string)
           (listId boardId : ObjectId) : Handler :=
  try_catch
    (board <- BoardModel.findById boardId ;;
     match board with
     | None => ret (json 403 "Access denied" NoData)
     | Some board =>
         if negb (boardSchema.isMember board userId)
         then ret (json 403 "Access denied" NoData)
         else
           cardCount <- CardModel.countDocuments
                          (fun c => CardDoc.listId c =? listId)%string ;;
           newCard <- CardModel.insert title
                        (CardDoc.mk newId listId boardId cardCount false None) ;;
           ret (json 201 "Card created successfully" (CardData newCard))
     end)
    (json 500 "Failed to create card" NoData).

Definition deleteCard (userId cardId : ObjectId) : Handler :=
  try_catch
    (card <- CardModel.findById cardId ;;
     match card with
     | None => ret (json 404 "Card not found" NoData)
     | Some card =>
         board <- BoardModel.findById (CardDoc.boardId card) ;;
         match board with
         | None => ret (json 403 "Access denied to this board" NoData)
         | Some board =>
             if negb (boardSchema.isMember board userId)
             then ret (json 403 "Access denied to this board" NoData)
             else
               cardSchema.deleteOne card ;;;
               ret (json 200 "Card deleted successfully" NoData)
         end
     end)
    (json 500 "Failed to delete card" NoData).

(** The checks on the target list of a move to a different list: the
    response that ends the request, if any. [listId] is the string of the
    request: it is compared with [card.listId.toString()], and
    [List.findById] casts it. *)
Definition checkTargetList (card : CardDoc.t) (listId : string)
  : Async (option Response) :=
  if negb (listId =? CardDoc.listId card)%string
  then
    targetList <- ListModel.findById (castObjectId listId) ;;
    match targetList with
    | None => ret (Some (json 404 "Target list not found" NoData))
    | Some targetList =>
        if negb (ListDoc.boardId targetList =? CardDoc.boardId card)%string
        then ret (Some (json 400 "Cannot move card to list in different board" NoData))
        else
          exceeded <- listSchema.isCardLimitExceeded targetList ;;
          if exceeded
          then ret (Some (json 400 "Target list has reached its card limit" NoData))
          else ret None
    end
  else ret None.

(** [now] is the time of the request. *)
Definition moveCard (now : Z) (userId cardId : ObjectId) (listId : string)
           (position : option Z) : Handler :=
  try_catch
    (card <- CardModel.findById cardId ;;
     match card with
     | None => ret (json 404 "Card not found" NoData)
     | Some card =>
         board <- BoardModel.findById (CardDoc.boardId card) ;;
         match board with
         | None => ret (json 403 "Access denied to this board" NoData)
         | Some board =>
             if negb (boardSchema.isMember board userId)
             then ret (json 403 "Access denied to this board" NoData)
             else
               rejected <- checkTargetList card listId ;;
               match rejected with
               | Some response => ret response
               | None =>
                   card <- cardSchema.moveToList now card listId position ;;
                   ret (json 200 "Card moved successfully" (CardData card))
               end
         end
     end)
    (json 500 "Failed to move card" NoData).
End cardController.

Module listController.

(** [newId] is the [_id] that [new List(...)] generates; [name] is
    [req.body.name], absent or a string. *)
Definition createList (userId newId : ObjectId) (name : option string)
           (boardId : ObjectId) : Handler :=
  try_catch
    (match name with
     | None =>
         ret (json 400 "List name must be a non-empty string and is required" NoData)
     | Some name =>
         if (Text.trim name =? "")%string
         then ret (json 400 "List name must be a non-empty string and is required"
                     NoData)
         else
           board <- BoardModel.findById boardId ;;
           match board with
           | None => ret (json 404 "Board not found" NoData)
           | Some board =>
               if negb (boardSchema.isMember board userId)
               then ret (json 403 "Access denied to this board" NoData)
               else
                 listCount <- ListModel.countDocuments
                                (fun l => ListDoc.boardId l =? BoardDoc._id board)%string ;;
                 list <- ListModel.insert (Some (Text.trim name))
                           (ListDoc.mk newId boardId listCount false None) ;;
                 ret (json 201 "List created successfully" (ListData list))
           end
     end)
    (json 500 "Failed to create list" NoData).

Definition deleteList (userId listId : ObjectId) : Handler :=
  try_catch
    (list <- ListModel.findById listId ;;
     match list with
     | None => ret (json 404 "List not found" NoData)
     | Some list =>
         board <- BoardModel.findById (ListDoc.boardId list) ;;
         match board with
         | None => ret (json 403 "Access denied to this board" NoData)
         | Some board =>
             if negb (boardSchema.isMember board userId)
             then ret (json 403 "Access denied to this board" NoData)
             else
               cardCount <- CardModel.countDocuments
                              (fun c => (CardDoc.listId c =? listId)%string
                                        && negb (CardDoc.archived c)) ;;
               if 0 <? cardCount
               then ret (json 400
                           ("Cannot delete list with "
                              ++ NilZero.string_of_int (Z.to_int cardCount)
                              ++ " cards. Please move or delete the cards first.")
                           NoData)
               else
                 listSchema.deleteOne list ;;;
                 ret (json 200 "List deleted successfully" NoData)
         end
     end)
    (json 500 "Failed to delete list" NoData).

Definition reorderList (userId listId : ObjectId) (position : Z) : Handler :=
  try_catch
    (list <- ListModel.findById listId ;;
     match list with
     | None => ret (json 404 "List not found" NoData)
     | Some list =>
         board <- BoardModel.findById (ListDoc.boardId list) ;;
         match board with
         | None => ret (json 403 "Access denied to this board" NoData)
         | Some board =>
             if negb (boardSchema.isMember board userId)
             then ret (json 403 "Access denied to this board" NoData)
             else
               list <- listSchema.moveToPosition list position ;;
               ret (json 200 "List reordered successfully" (ListData list))
         end
     end)
    (json 500 "Failed to reorder list" NoData).

Definition archiveList (userId listId : ObjectId) (archived : bool) : Handler :=
  try_catch
    (list <- ListModel.findById listId ;;
     match list with
     | None => ret (json 404 "List not found" NoData)
     | Some list =>
         board <- BoardModel.findById (ListDoc.boardId list) ;;
         match board with
         | None => ret (json 403 "Access denied to this board" NoData)
         | Some board =>
             if negb (boardSchema.isMember board userId)
             then ret (json 403 "Access denied to this board" NoData)
             else
               list <- ListModel.saveArchived (ListDoc.setArchived archived list) ;;
               ret (json 200 (if archived then "List archived successfully"
                              else "List unarchived successfully") (ListData list))
         end
     end)
    (json 500 "Failed to archive list" NoData).
End listController.

Module boardController.
Definition deleteBoard (userId boardId : ObjectId) : Handler :=
  try_catch
    (board <- BoardModel.findById boardId ;;
     match board with
     | None => ret (json 404 "Board not found" NoData)
     | Some board =>
         if negb (boardSchema.isOwner board userId)
         then ret (json 403 "Only board owner can delete the board" NoData)
         else
           boardSchema.deleteOne board ;;;
           ret (json 200 "Board deleted successfully" NoData)
     end)
    (json 500 "Failed to delete board" NoData).
End boardController.

(** ** Request validation and routes *)

Module validation.
(** Request bodies; [None] is an absent field. *)
Record MoveBody := { move_listId : option string; move_position : option Z }.
Record ReorderBody := { reorder_position : option Z }.

(** [joi.number()] refuses a number beyond [Number.MAX_SAFE_INTEGER]. *)
Definition maxSafeInteger : Z := 9007199254740991.

(** [cardValidationSchemas.move]: [listId] required, [position] a
    required number with [min(0)]. *)
Definition cardValidationSchemas_move (body : MoveBody) : bool :=
  match move_listId body, move_position body with
  | Some _, Some p => (0 <=? p) && (p <=? maxSafeInteger)
  | _, _ => false
  end.

(** [listValidationSchemas.reorder]: [position] a required number with
    [min(0)]. *)
Definition listValidationSchemas_reorder (body : ReorderBody) : bool :=
  match reorder_position body with
  | Some p => (0 <=? p) && (p <=? maxSafeInteger)
  | None => false
  end.

Definition validationFailed : Response := json 400 "Validation failed" NoData.
End validation.

Module routes.
Import validation.

(** [PUT /api/cards/:id/position], received at the time [now] *)
Definition put_card_position (now : Z) (userId id : ObjectId) (body : MoveBody)
  : Handler :=
  if cardValidationSchemas_move body
  then
    match move_listId body with
    | Some listId => cardController.moveCard now userId id listId (move_position body)
    | None => fun db => (validationFailed, db)
    end
  else fun db => (validationFailed, db).

(** [PUT /api/lists/:id/position] *)
Definition put_list_position (userId id : ObjectId) (body : ReorderBody) : Handler :=
  if listValidationSchemas_reorder body
  then
    match reorder_position body with
    | Some position => listController.reorderList userId id position
    | None => fun db => (validationFailed, db)
    end
  else fun db => (validationFailed, db).
End routes.

(** ** Sibling sets, positions and the invariant I1 *)

Module Positions.
(** The positions are exactly {0, ..., n-1}, n their number: no
    duplicates, no gaps. *)
Definition dense (ps : list Z) : Prop :=
  NoDup ps /\ forall z, In z ps <-> 0 <= z < Z.of_nat (length ps).

(** What is enough to check: no duplicates, all within 0..n-1. *)
Definition bounded (ps : list Z) : Prop :=
  NoDup ps /\ forall z, In z ps -> 0 <= z < Z.of_nat (length ps).

(** The effect on a position of moving the item at [old] to [t] within
    its parent. *)
Definition rotate (old t p : Z) : Z :=
  if p =? old then t
  else if (old <? p) && (p <=? t) then p - 1
  else if (t <=? p) && (p <? old) then p + 1
  else p.

(** Closing the gap left at [old]. *)
Definition close (old p : Z) : Z := if old <? p then p - 1 else p.

(** Opening a slot at [t]. *)
Definition open (t p : Z) : Z := if t <=? p then p + 1 else p.
End Positions.

Definition inList (P : ObjectId) (c : CardDoc.t) : bool :=
  (CardDoc.listId c =? P)%string.
Definition liveInList (P : ObjectId) (c : CardDoc.t) : bool :=
  inList P c && negb (CardDoc.archived c).
Definition inBoard (B : ObjectId) (l : ListDoc.t) : bool :=
  (ListDoc.boardId l =? B)%string.
Definition liveInBoard (B : ObjectId) (l : ListDoc.t) : bool :=
  inBoard B l && negb (ListDoc.archived l).

(** [siblingCount(parentId)]: the number of non-archived items of the parent. *)
Definition cardSiblingCount (P : ObjectId) (db : DB) : Z :=
  Query.countDocuments (liveInList P) (cards db).
Definition listSiblingCount (B : ObjectId) (db : DB) : Z :=
  Query.countDocuments (liveInBoard B) (lists db).

(** The positions of the non-archived items of a parent. *)
Definition cardPositions (P : ObjectId) (db : DB) : list Z :=
  map CardDoc.position (filter (liveInList P) (cards db)).
Definition listPositions (B : ObjectId) (db : DB) : list Z :=
  map ListDoc.position (filter (liveInBoard B) (lists db)).

(** The positions of all the items of a parent, archived ones included. *)
Definition allCardPositions (P : ObjectId) (db : DB) : list Z :=
  map CardDoc.position (filter (inList P) (cards db)).
Definition allListPositions (B : ObjectId) (db : DB) : list Z :=
  map ListDoc.position (filter (inBoard B) (lists db)).

Definition I1_cards (P : ObjectId) (db : DB) : Prop :=
  Positions.dense (cardPositions P db).
Definition I1_lists (B : ObjectId) (db : DB) : Prop :=
  Positions.dense (listPositions B db).

Definition noArchivedCard (P : ObjectId) (db : DB) : Prop :=
  forall c, In c (cards db) -> CardDoc.listId c = P -> CardDoc.archived c = false.

Definition uniqueIds (db : DB) : Prop :=
  NoDup (map CardDoc._id (cards db)) /\ NoDup (map ListDoc._id (lists db)).

(** The non-archived cards of a list as a client reads them: sorted by
    position ([match: { archived: false }], [sort: { position: 1 }]). *)
Fixpoint insertByPosition (c : CardDoc.t) (sorted : list CardDoc.t) : list CardDoc.t :=
  match sorted with
  | [] => [c]
  | d :: rest =>
      if CardDoc.position c <=? CardDoc.position d then c :: d :: rest
      else d :: insertByPosition c rest
  end.
Definition sortByPosition (cs : list CardDoc.t) : list CardDoc.t :=
  fold_right insertByPosition [] cs.

(** ** Sequences of operations *)

Inductive Op :=
| InsertCard (userId newId : ObjectId) (title : option string) (listId boardId : ObjectId)
| MoveCard (now : Z) (cardId : ObjectId) (newListId : string) (newPosition : option Z)
| DeleteCard (cardId : ObjectId)
| InsertList (userId newId : ObjectId) (name : option string) (boardId : ObjectId)
| MoveList (listId : ObjectId) (newPosition : Z)
| DeleteList (listId : ObjectId).

(** One operation: the creating handler, or the document found by its id
    and its method called. *)
Definition step (op : Op) (db : DB) : DB :=
  match op with
  | InsertCard userId newId title listId boardId =>
      snd (cardController.createCard userId newId title listId boardId db)
  | MoveCard now cardId newListId newPosition =>
      match Query.findById CardDoc._id cardId (cards db) with
      | Some card => snd (cardSchema.moveToList now card newListId newPosition db)
      | None => db
      end
  | DeleteCard cardId =>
      match Query.findById CardDoc._id cardId (cards db) with
      | Some card => snd (cardSchema.deleteOne card db)
      | None => db
      end
  | InsertList userId newId name boardId =>
      snd (listController.createList userId newId name boardId db)
  | MoveList listId newPosition =>
      match Query.findById ListDoc._id listId (lists db) with
      | Some list => snd (listSchema.moveToPosition list newPosition db)
      | None => db
      end
  | DeleteList listId =>
      match Query.findById ListDoc._id listId (lists db) with
      | Some list => snd (listSchema.deleteOne list db)
      | None => db
      end
  end.

(** The databases after each operation of a sequence. *)
Fixpoint trace (ops : list Op) (db : DB) : list DB :=
  match ops with
  | [] => []
  | op :: rest => step op db :: trace rest (step op db)
  end.

(** The preconditions of the moves: the moved item is not archived; the
    due date of a moved card, if it has one, has not passed; a
    destination that is not written as the id of the card's list is
    another list, not another spelling of that id; a target within the
    parent is below the sibling count; a target in another parent is
    absent or at most the sibling count there. *)
Definition admissible (db : DB) (op : Op) : bool :=
  match op with
  | MoveCard now cardId newListId newPosition =>
      match Query.findById CardDoc._id cardId (cards db) with
      | Some card =>
          negb (CardDoc.archived card)
          && match CardModel.dueDateError now card with
             | None => true
             | Some _ => false
             end
          && ((CardDoc.listId card =? newListId)%string
              || negb (CardDoc.listId card =? castObjectId newListId)%string)
          && match newPosition with
             | None => true
             | Some p =>
                 (0 <=? p)
                 && if (CardDoc.listId card =? newListId)%string
                    then p <? cardSiblingCount (CardDoc.listId card) db
                    else p <=? cardSiblingCount (castObjectId newListId) db
             end
      | None => true
      end
  | MoveList listId newPosition =>
      match Query.findById ListDoc._id listId (lists db) with
      | Some list =>
          (0 <=? newPosition)
          && (newPosition <? listSiblingCount (ListDoc.boardId list) db)
      | None => true
      end
  | _ => true
  end.

Fixpoint admissibleSeq (db : DB) (ops : list Op) : bool :=
  match ops with
  | [] => true
  | op :: rest => admissible db op && admissibleSeq (step op db) rest
  end.

(** ** The effect of the moves on a stored document *)

(** The stored card [c] after [this.moveToList(this.listId, t)], [t] not
    the position of [this]: the range shift, then the save. *)
Definition movedWithin (this : CardDoc.t) (t : Z) (c : CardDoc.t) : CardDoc.t :=
  if (CardDoc._id c =? CardDoc._id this)%string
  then CardDoc.setPosition t (CardDoc.setListId (CardDoc.listId this) c)
  else if inList (CardDoc.listId this) c
          && ((CardDoc.position this <? CardDoc.position c) && (CardDoc.position c <=? t))
  then CardDoc.inc (-1) c
  else if inList (CardDoc.listId this) c
          && ((t <=? CardDoc.position c) && (CardDoc.position c <? CardDoc.position this))
  then CardDoc.inc 1 c
  else c.

(** The stored card [c] after [this.moveToList(newListId, t)] to another
    list: the two range shifts, then the save. *)
Definition movedAcross (this : CardDoc.t) (newListId : ObjectId) (t : Z)
           (c : CardDoc.t) : CardDoc.t :=
  if (CardDoc._id c =? CardDoc._id this)%string
  then CardDoc.setPosition t (CardDoc.setListId newListId c)
  else if inList (CardDoc.listId this) c && (CardDoc.position this <? CardDoc.position c)
  then CardDoc.inc (-1) c
  else if inList newListId c && (t <=? CardDoc.position c)
  then CardDoc.inc 1 c
  else c.

(** The stored list [l] after [this.moveToPosition(t)], [t] not the
    position of [this]. *)
Definition reordered (this : ListDoc.t) (t : Z) (l : ListDoc.t) : ListDoc.t :=
  if (ListDoc._id l =? ListDoc._id this)%string
  then ListDoc.setPosition t l
  else if inBoard (ListDoc.boardId this) l
          && ((ListDoc.position this <? ListDoc.position l) && (ListDoc.position l <=? t))
  then ListDoc.inc (-1) l
  else if inBoard (ListDoc.boardId this) l
          && ((t <=? ListDoc.position l) && (ListDoc.position l <? ListDoc.position this))
  then ListDoc.inc 1 l
  else l.

(** The target of a move to another list: the given position, or the
    number of documents of the destination. *)
Definition resolvePosition (newListId : ObjectId) (newPosition : option Z) (db : DB) : Z :=
  match newPosition with
  | Some p => p
  | None => Query.countDocuments (inList newListId) (cards db)
  end.

(** The list that the card [this] is in after [this.moveToList(newListId)]:
    its own when the string is the one that [toString()] gives for it,
    else the list that the string spells. *)
Definition destination (this : CardDoc.t) (newListId : string) : ObjectId :=
  if (CardDoc.listId this =? newListId)%string then CardDoc.listId this
  else castObjectId newListId.

(** What a move of the card [this] to the list [L] can do to a stored
    card [c], whether the move succeeds or fails: [c'] is [c] with another
    position at most, and in the list [L] when it is the moved card; only
    the moved card and the cards of the two lists can change. *)
Definition touchedByMove (this : CardDoc.t) (L : ObjectId) (c c' : CardDoc.t) : Prop :=
  CardDoc._id c' = CardDoc._id c
  /\ CardDoc.boardId c' = CardDoc.boardId c
  /\ CardDoc.archived c' = CardDoc.archived c
  /\ CardDoc.dueDate c' = CardDoc.dueDate c
  /\ (CardDoc.listId c' = CardDoc.listId c
      \/ (CardDoc._id c = CardDoc._id this /\ CardDoc.listId c' = L))
  /\ (c' = c \/ CardDoc.listId c = CardDoc.listId this \/ CardDoc.listId c = L
      \/ CardDoc._id c = CardDoc._id this).

(** ** What the operations keep true of a parent that started empty *)

Definition noArchivedList (B : ObjectId) (db : DB) : Prop :=
  forall l, In l (lists db) -> ListDoc.boardId l = B -> ListDoc.archived l = false.

(** No card of the list is archived, and the positions of its cards are
    distinct and below their number. *)
Definition cardsInv (P : ObjectId) (db : DB) : Prop :=
  noArchivedCard P db /\ Positions.bounded (allCardPositions P db).

Definition listsInv (B : ObjectId) (db : DB) : Prop :=
  noArchivedList B db /\ Positions.bounded (allListPositions B db).

(** ** Sample databases

    The lists A, B, C and D have the ids la, lb, lc and ld. *)

Module Samples.
Definition board1 : BoardDoc.t := BoardDoc.mk "board1" "alice" ["bob"].

(** A board whose only list is archived. *)
Definition dbArchivedList : DB :=
  mkDB [board1] [ListDoc.mk "l0" "board1" 0 true None] [].

(** Lists A (two cards) and B (no card). *)
Definition dbTwoLists : DB :=
  mkDB [board1]
       [ListDoc.mk "la" "board1" 0 false None; ListDoc.mk "lb" "board1" 1 false None]
       [CardDoc.mk "a0" "la" "board1" 0 false None;
        CardDoc.mk "a1" "la" "board1" 1 false None].

(** List A holds an archived card, list B no card. *)
Definition dbArchivedCard : DB :=
  mkDB [board1]
       [ListDoc.mk "la" "board1" 0 false None; ListDoc.mk "lb" "board1" 1 false None]
       [CardDoc.mk "x" "la" "board1" 0 true None].

(** A board without lists. *)
Definition dbEmptyBoard : DB := mkDB [board1] [] [].

(** Parent A with items a0@0, a1@1, a2@2, a3@3. *)
Definition a0 : CardDoc.t := CardDoc.mk "a0" "la" "board1" 0 false None.
Definition dbFourCards : DB :=
  mkDB [board1] [ListDoc.mk "la" "board1" 0 false None]
       [a0; CardDoc.mk "a1" "la" "board1" 1 false None;
        CardDoc.mk "a2" "la" "board1" 2 false None;
        CardDoc.mk "a3" "la" "board1" 3 false None].

(** List A holds a0@0; list B holds only an archived card. *)
Definition dbArchivedDest : DB :=
  mkDB [board1]
       [ListDoc.mk "la" "board1" 0 false None; ListDoc.mk "lb" "board1" 1 false None]
       [a0; CardDoc.mk "z" "lb" "board1" 0 true None].

(** List A holds an archived card x@0 and the cards a@0, b@1; list B is
    empty. *)
Definition x : CardDoc.t := CardDoc.mk "x" "la" "board1" 0 true None.
Definition dbArchivedSource : DB :=
  mkDB [board1]
       [ListDoc.mk "la" "board1" 0 false None; ListDoc.mk "lb" "board1" 1 false None]
       [x; CardDoc.mk "a" "la" "board1" 0 false None;
        CardDoc.mk "b" "la" "board1" 1 false None].

(** A board with lists K0@0, K1@1 (archived), K2@2, and a list A with
    cards c0@0, c1@1 (archived), c2@2. *)
Definition K0 : ListDoc.t := ListDoc.mk "K0" "board1" 0 false None.
Definition K1 : ListDoc.t := ListDoc.mk "K1" "board1" 1 true None.
Definition c0 : CardDoc.t := CardDoc.mk "c0" "la" "board1" 0 false None.
Definition c1 : CardDoc.t := CardDoc.mk "c1" "la" "board1" 1 true None.
Definition dbArchivedMiddle : DB :=
  mkDB [board1]
       [K0; K1; ListDoc.mk "K2" "board1" 2 false None]
       [c0; c1; CardDoc.mk "c2" "la" "board1" 2 false None].

(** List A holds a0@0; list B has a card limit of 1 and holds b0@0. *)
Definition listB : ListDoc.t := ListDoc.mk "lb" "board1" 1 false (Some 1).
Definition dbFullList : DB :=
  mkDB [board1]
       [ListDoc.mk "la" "board1" 0 false None; listB]
       [a0; CardDoc.mk "b0" "lb" "board1" 0 false None].

(** Parent A with items a0@0, a1@1, a2@2, a3@3, where a0 has a due date,
    the time 100. *)
Definition a0due : CardDoc.t := CardDoc.mk "a0" "la" "board1" 0 false (Some 100).
Definition dbDueCard : DB :=
  mkDB [board1] [ListDoc.mk "la" "board1" 0 false None]
       [a0due; CardDoc.mk "a1" "la" "board1" 1 false None;
        CardDoc.mk "a2" "la" "board1" 2 false None;
        CardDoc.mk "a3" "la" "board1" 3 false None].

(** Lists A (a0, due at the time 100, and a1) and B (no card). *)
Definition dbTwoListsDue : DB :=
  mkDB [board1]
       [ListDoc.mk "la" "board1" 0 false None; ListDoc.mk "lb" "board1" 1 false None]
       [a0due; CardDoc.mk "a1" "la" "board1" 1 false None].

(** A board with lists L0@0, L1@1, L2@2, L3@3. *)
Definition L0 : ListDoc.t := ListDoc.mk "L0" "board1" 0 false None.
Definition dbFourLists : DB :=
  mkDB [board1]
       [L0; ListDoc.mk "L1" "board1" 1 false None;
        ListDoc.mk "L2" "board1" 2 false None; ListDoc.mk "L3" "board1" 3 false None]
       [].
End Samples.

(** ** The array shift of a move within a parent, as the specification states it *)

(** [after] is [before] where the card [this] has position [t], the other
    cards of its list with a position in (position this, t] have one less,
    those with a position in [t, position this) have one more, and every
    other card is as it was. *)
Definition CardsShiftedWithin (this : CardDoc.t) (t : Z)
           (before after : list CardDoc.t) : Prop :=
  exists F : CardDoc.t -> CardDoc.t,
    after = map F before
    /\ F this = CardDoc.setPosition t this
    /\ forall c, In c before -> CardDoc._id c <> CardDoc._id this ->
         (CardDoc.listId c = CardDoc.listId this ->
          CardDoc.position this < CardDoc.position c <= t ->
          F c = CardDoc.inc (-1) c)
         /\ (CardDoc.listId c = CardDoc.listId this ->
             t <= CardDoc.position c < CardDoc.position this ->
             F c = CardDoc.inc 1 c)
         /\ (~ (CardDoc.listId c = CardDoc.listId this
                /\ (CardDoc.position this < CardDoc.position c <= t
                    \/ t <= CardDoc.position c < CardDoc.position this)) ->
             F c = c).

Definition ListsShiftedWithin (this : ListDoc.t) (t : Z)
           (before after : list ListDoc.t) : Prop :=
  exists F : ListDoc.t -> ListDoc.t,
    after = map F before
    /\ F this = ListDoc.setPosition t this
    /\ forall l, In l before -> ListDoc._id l <> ListDoc._id this ->
         (ListDoc.boardId l = ListDoc.boardId this ->
          ListDoc.position this < ListDoc.position l <= t ->
          F l = ListDoc.inc (-1) l)
         /\ (ListDoc.boardId l = ListDoc.boardId this ->
             t <= ListDoc.position l < ListDoc.position this ->
             F l = ListDoc.inc 1 l)
         /\ (~ (ListDoc.boardId l = ListDoc.boardId this
                /\ (ListDoc.position this < ListDoc.position l <= t
                    \/ t <= ListDoc.position l < ListDoc.position this)) ->
             F l = l).


(** ** The requests that change lists and cards *)

Module api.
Inductive Request :=
| PostCard (userId newId : ObjectId) (title : option string) (listId boardId : ObjectId)
| PutCardPosition (now : Z) (userId id : ObjectId) (body : validation.MoveBody)
| DeleteCardById (userId id : ObjectId)
| PostList (userId newId : ObjectId) (name : option string) (boardId : ObjectId)
| PutListPosition (userId id : ObjectId) (body : validation.ReorderBody)
| PutListArchive (userId id : ObjectId) (archived : bool)
| DeleteListById (userId id : ObjectId)
| DeleteBoardById (userId id : ObjectId).

(** The handler that the route of a request reaches, for the
    authenticated user [userId]. *)
Definition handle (r : Request) : Handler :=
  match r with
  | PostCard userId newId title listId boardId =>
      cardController.createCard userId newId title listId boardId
  | PutCardPosition now userId id body => routes.put_card_position now userId id body
  | DeleteCardById userId id => cardController.deleteCard userId id
  | PostList userId newId name boardId =>
      listController.createList userId newId name boardId
  | PutListPosition userId id body => routes.put_list_position userId id body
  | PutListArchive userId id archived => listController.archiveList userId id archived
  | DeleteListById userId id => listController.deleteList userId id
  | DeleteBoardById userId id => boardController.deleteBoard userId id
  end.

(** The database after a sequence of requests. *)
Fixpoint run (rs : list Request) (db : DB) : DB :=
  match rs with
  | [] => db
  | r :: rest => run rest (snd (handle r db))
  end.

(** [P] holds of each request of a sequence, in the database that the
    request meets. *)
Fixpoint eachRequest (P : DB -> Request -> Prop) (rs : list Request) (db : DB) : Prop :=
  match rs with
  | [] => True
  | r :: rest => P db r /\ eachRequest P rest (snd (handle r db))
  end.

(** [req.user._id] *)
Definition user (r : Request) : ObjectId :=
  match r with
  | PostCard userId _ _ _ _ | PutCardPosition _ userId _ _ | DeleteCardById userId _
  | PostList userId _ _ _ | PutListPosition userId _ _ | PutListArchive userId _ _
  | DeleteListById userId _ | DeleteBoardById userId _ => userId
  end.

(** The board that a request is about: the one it names, or the one of
    the card or list that it names. *)
Definition boardOf (r : Request) (db : DB) : option ObjectId :=
  match r with
  | PostCard _ _ _ _ boardId | PostList _ _ _ boardId => Some boardId
  | PutCardPosition _ _ id _ | DeleteCardById _ id =>
      option_map CardDoc.boardId (Query.findById CardDoc._id id (cards db))
  | PutListPosition _ id _ | PutListArchive _ id _ | DeleteListById _ id =>
      option_map ListDoc.boardId (Query.findById ListDoc._id id (lists db))
  | DeleteBoardById _ id => Some id
  end.
End api.

(** What a request does to the database: nothing, or the write of its
    handler, with what the handler has checked before it. *)
Inductive Effect (db : DB) : api.Request -> DB -> Prop :=
| Unchanged r : Effect db r db
| CardCreated userId newId title listId boardId board :
    Query.findById BoardDoc._id boardId (boards db) = Some board ->
    boardSchema.isMember board userId = true ->
    Query.hasId CardDoc._id newId (cards db) = false ->
    Effect db (api.PostCard userId newId title listId boardId)
      (setCards
         (cards db
          ++ [CardDoc.mk newId listId boardId
                (Query.countDocuments (inList listId) (cards db)) false None]) db)
| CardMoved now userId id listId p card board :
    Query.findById CardDoc._id id (cards db) = Some card ->
    Query.findById BoardDoc._id (CardDoc.boardId card) (boards db) = Some board ->
    boardSchema.isMember board userId = true ->
    0 <= p ->
    (listId <> CardDoc.listId card ->
     exists target,
       Query.findById ListDoc._id (castObjectId listId) (lists db) = Some target
       /\ ListDoc.boardId target = CardDoc.boardId card
       /\ listSchema.isCardLimitExceeded target db = (inr false, db)) ->
    Effect db
      (api.PutCardPosition now userId id
         {| validation.move_listId := Some listId; validation.move_position := Some p |})
      (snd (cardSchema.moveToList now card listId (Some p) db))
| CardDeleted userId id card board :
    Query.findById CardDoc._id id (cards db) = Some card ->
    Query.findById BoardDoc._id (CardDoc.boardId card) (boards db) = Some board ->
    boardSchema.isMember board userId = true ->
    Effect db (api.DeleteCardById userId id) (snd (cardSchema.deleteOne card db))
| ListCreated userId newId name boardId board :
    Query.findById BoardDoc._id boardId (boards db) = Some board ->
    boardSchema.isMember board userId = true ->
    Query.hasId ListDoc._id newId (lists db) = false ->
    Effect db (api.PostList userId newId name boardId)
      (setLists
         (lists db
          ++ [ListDoc.mk newId boardId
                (Query.countDocuments (inBoard boardId) (lists db)) false None]) db)
| ListMoved userId id p list board :
    Query.findById ListDoc._id id (lists db) = Some list ->
    Query.findById BoardDoc._id (ListDoc.boardId list) (boards db) = Some board ->
    boardSchema.isMember board userId = true ->
    0 <= p ->
    Effect db
      (api.PutListPosition userId id {| validation.reorder_position := Some p |})
      (snd (listSchema.moveToPosition list p db))
| ListArchived userId id archived list board :
    Query.findById ListDoc._id id (lists db) = Some list ->
    Query.findById BoardDoc._id (ListDoc.boardId list) (boards db) = Some board ->
    boardSchema.isMember board userId = true ->
    Effect db (api.PutListArchive userId id archived)
      (setLists
         (Query.updateMany (fun l => ListDoc._id l =? id)%string
            (ListDoc.setArchived archived) (lists db)) db)
| ListDeleted userId id list board :
    Query.findById ListDoc._id id (lists db) = Some list ->
    Query.findById BoardDoc._id (ListDoc.boardId list) (boards db) = Some board ->
    boardSchema.isMember board userId = true ->
    cardSiblingCount id db = 0 ->
    Effect db (api.DeleteListById userId id) (snd (listSchema.deleteOne list db))
| BoardDeleted userId id board :
    Query.findById BoardDoc._id id (boards db) = Some board ->
    boardSchema.isOwner board userId = true ->
    Effect db (api.DeleteBoardById userId id) (snd (boardSchema.deleteOne board db)).

(** ** The invariant I2, and the boards of the lists and cards *)

(** I2: the list of a card is a stored list of the card's board. *)
Definition I2 (db : DB) : Prop :=
  forall c, In c (cards db) ->
    exists l, In l (lists db) /\ ListDoc._id l = CardDoc.listId c
              /\ ListDoc.boardId l = CardDoc.boardId c.

(** Every list and every card belongs to a stored board. *)
Definition boardsExist (db : DB) : Prop :=
  (forall l, In l (lists db) ->
     Query.hasId BoardDoc._id (ListDoc.boardId l) (boards db) = true)
  /\ (forall c, In c (cards db) ->
        Query.hasId BoardDoc._id (CardDoc.boardId c) (boards db) = true).

(** The positions of all the lists of a board, archived lists included,
    are exactly 0..n-1. *)
Definition listsDense (B : ObjectId) (db : DB) : Prop :=
  Positions.dense (allListPositions B db).

(** A card is created in a stored list of the board it names. *)
Definition createsInList (db : DB) (r : api.Request) : Prop :=
  match r with
  | api.PostCard _ _ _ listId boardId =>
      exists l, In l (lists db) /\ ListDoc._id l = listId /\ ListDoc.boardId l = boardId
  | _ => True
  end.

(** ** More sample databases *)

Module MoreSamples.
(** Two boards: board1 (owner alice, member bob) with list A (cards a0@0,
    a1@1) and list B (no card); board2 (owner carol) with list C (card
    c0@0). *)
Definition board2 : BoardDoc.t := BoardDoc.mk "board2" "carol" [].
Definition dbTwoBoards : DB :=
  mkDB [Samples.board1; board2]
       [ListDoc.mk "la" "board1" 0 false None; ListDoc.mk "lb" "board1" 1 false None;
        ListDoc.mk "lc" "board2" 0 false None]
       [CardDoc.mk "a0" "la" "board1" 0 false None;
        CardDoc.mk "a1" "la" "board1" 1 false None;
        CardDoc.mk "c0" "lc" "board2" 0 false None].

(** Create list D in board1, move it to the front, archive it, create a
    card in list B. *)
Definition listRequests : list api.Request :=
  [api.PostList "alice" "ld" (Some "Done") "board1";
   api.PutListPosition "bob" "ld" {| validation.reorder_position := Some 0 |};
   api.PutListArchive "alice" "ld" true;
   api.PostCard "bob" "b0" (Some "Write tests") "lb" "board1"].
End MoreSamples.

(** ** Board membership

    The member methods and the [pre('save')] hook of the Board model
    (src/models/Board.js), and the handlers [addMember] and
    [removeMember] of src/controllers/boardController.js. The users are
    not part of the modelled database: [addMember] takes the outcome of
    its user lookup as an argument. *)

Module boardMethods.
Import BoardDoc.

Definition setMembers (ms : list ObjectId) (this : t) : t :=
  mk (_id this) (ownerId this) ms.

(** virtual [memberCount] *)
Definition memberCount (this : t) : Z := Z.of_nat (length (members this)) + 1.

(** [pre('save')]: the owner is not kept in [members]. *)
Definition pre_save (this : t) : t :=
  if (0 <? length (members this))%nat
  then setMembers
         (filter (fun memberId => negb (memberId =? ownerId this)%string)
            (members this)) this
  else this.

Definition addMember (this : t) (userId : ObjectId) : t :=
  if (ownerId this =? userId)%string then this
  else if existsb (fun memberId => memberId =? userId)%string (members this)
  then this
  else setMembers (members this ++ [userId]) this.

Definition removeMember (this : t) (userId : ObjectId) : t :=
  setMembers
    (filter (fun memberId => negb (memberId =? userId)%string) (members this)) this.

Definition getAllMembers (this : t) : list ObjectId :=
  ownerId this :: members this.

(** [board.save()] of a loaded document whose [members] was assigned:
    the [pre('save')] hook, then
    [updateOne({ _id }, { $set: { members } })]. The other stored paths
    are taken to pass their validators. *)
Definition save (this : t) : Async t :=
  let this := pre_save this in
  fun db =>
    if Query.hasId _id (_id this) (boards db)
    then (inr this,
          setBoards (Query.updateMany (fun b => _id b =? _id this)%string
                       (setMembers (members this)) (boards db)) db)
    else (inl DocumentNotFoundError, db).
End boardMethods.

Module memberController.

(** The response of a member handler: [board] is the board sent in
    [data], if any. *)
Record BoardResponse := boardJson {
  boardStatus : Z;
  boardMessage : string;
  boardData : option BoardDoc.t
}.

Definition BoardHandler := DB -> BoardResponse * DB.

Definition try_catch (body : Async BoardResponse) (on_error : BoardResponse)
  : BoardHandler :=
  fun db =>
    match body db with
    | (inr r, db') => (r, db')
    | (inl _, db') => (on_error, db')
    end.

(** [userToAdd] is the [_id] of the user that
    [User.findOne({ email: email.toLowerCase() })] finds, if any. *)
Definition addMember (userId boardId : ObjectId) (userToAdd : option ObjectId)
  : BoardHandler :=
  try_catch
    (board <- BoardModel.findById boardId ;;
     match board with
     | None => ret (boardJson 404 "Board not found" None)
     | Some board =>
         if negb (boardSchema.isOwner board userId)
         then ret (boardJson 403 "Only board owner can add members" None)
         else
           match userToAdd with
           | None => ret (boardJson 404 "User not found with this email address" None)
           | Some userToAdd =>
               if boardSchema.isMember board userToAdd
               then ret (boardJson 400 "User is already a member of this board" None)
               else
                 board <- boardMethods.save (boardMethods.addMember board userToAdd) ;;
                 ret (boardJson 200 "Member added successfully" (Some board))
           end
     end)
    (boardJson 500 "Failed to add member" None).

Definition removeMember (userId boardId memberIdToRemove : ObjectId) : BoardHandler :=
  try_catch
    (board <- BoardModel.findById boardId ;;
     match board with
     | None => ret (boardJson 404 "Board not found" None)
     | Some board =>
         let isOwner := boardSchema.isOwner board userId in
         let isSelfRemoval := (userId =? memberIdToRemove)%string in
         if negb isOwner && negb isSelfRemoval
         then ret (boardJson 403
                     "Only board owner can remove members, or members can remove themselves"
                     None)
         else if boardSchema.isOwner board memberIdToRemove
         then ret (boardJson 400 "Cannot remove board owner" None)
         else
           boardMethods.save (boardMethods.removeMember board memberIdToRemove) ;;;
           ret (boardJson 200 "Member removed successfully" None)
     end)
    (boardJson 500 "Failed to remove member" None).
End memberController.

(** The members of a stored board are distinct, and the owner is not
    among them. *)
Definition membersDistinct (db : DB) : Prop :=
  forall b, In b (boards db) -> NoDup (boardMethods.getAllMembers b).

(** ** Reading and reordering the lists of a board

    The statics [reorderInBoard] and [getWithCards] of the List model
    (src/unnamed/part_001) and the virtual [cards] that [getWithCards]
    and [getListWithCards] populate. *)

From Stdlib Require Import Sorted.

Module PositionSort.
Section ByPosition.
Context {A : Type}.
Variable pos : A -> Z.

(** [sort({ position: 1 })] *)
Fixpoint insertBy (x : A) (sorted : list A) : list A :=
  match sorted with
  | [] => [x]
  | y :: rest => if pos x <=? pos y then x :: y :: rest else y :: insertBy x rest
  end.

Definition sortBy (l : list A) : list A := fold_right insertBy [] l.
End ByPosition.

(** 0, 1, ..., n-1 *)
Definition countUp (n : nat) : list Z := map Z.of_nat (seq 0 n).
End PositionSort.

Module listStatics.

(** [updateOne]: the first document that matches is updated. *)
Fixpoint updateOne {A} (q : A -> bool) (u : A -> A) (coll : list A) : list A :=
  match coll with
  | [] => []
  | d :: rest => if q d then u d :: rest else d :: updateOne q u rest
  end.

Record UpdateOne := {
  op_filter : ListDoc.t -> bool;
  op_update : ListDoc.t -> ListDoc.t
}.

(** [listOrder.map((listId, index) => ({ updateOne: { filter: { _id:
    listId, boardId }, update: { position: index } } }))], the indices
    counted from [index]. *)
Fixpoint bulkOps (boardId : ObjectId) (index : Z) (listOrder : list ObjectId)
  : list UpdateOne :=
  match listOrder with
  | [] => []
  | listId :: rest =>
      {| op_filter := fun l => (ListDoc._id l =? listId)%string
                               && (ListDoc.boardId l =? boardId)%string;
         op_update := ListDoc.setPosition index |}
      :: bulkOps boardId (index + 1) rest
  end.

(** [bulkWrite(ops)]: the operations one after the other. *)
Definition bulkWrite (ops : list UpdateOne) : Async unit :=
  fun db =>
    (inr tt,
     setLists
       (fold_left (fun coll op => updateOne (op_filter op) (op_update op) coll)
          ops (lists db)) db).

Definition reorderInBoard (boardId : ObjectId) (listOrder : list ObjectId)
  : Async unit :=
  bulkWrite (bulkOps boardId 0 listOrder).

(** The virtual [cards] of a list, populated with
    [match: { archived: false }] and [sort: { position: 1 }]. *)
Definition populateCards (l : ListDoc.t) (db : DB) : list CardDoc.t :=
  sortByPosition (filter (liveInList (ListDoc._id l)) (cards db)).

(** [find({ boardId, archived: false }).sort({ position: 1 })
    .populate('cards')] *)
Definition getWithCards (boardId : ObjectId) (db : DB)
  : list (ListDoc.t * list CardDoc.t) :=
  map (fun l => (l, populateCards l db))
      (PositionSort.sortBy ListDoc.position
         (filter (liveInBoard boardId) (lists db))).

(** The place of a list id in [listOrder], counted from [index]. *)
Fixpoint indexOf (id : ObjectId) (listOrder : list ObjectId) (index : Z) : option Z :=
  match listOrder with
  | [] => None
  | listId :: rest =>
      if (listId =? id)%string then Some index else indexOf id rest (index + 1)
  end.

(** The stored list [l] after [reorderInBoard(boardId, listOrder)]. *)
Definition renumbered (boardId : ObjectId) (listOrder : list ObjectId) (l : ListDoc.t)
  : ListDoc.t :=
  if inBoard boardId l
  then match indexOf (ListDoc._id l) listOrder 0 with
       | Some index => ListDoc.setPosition index l
       | None => l
       end
  else l.
End listStatics.

(** ** Login attempts and the account lock

    The lock logic of the User model (src/unnamed/part_001, second
    document) and the [login] handler of
    src/controllers/authController.js. [toLowerCase] stands for
    [String.prototype.toLowerCase], [compare candidate hash] for the
    outcome of [bcrypt.compare], and [now] for [Date.now()], taken to be
    the same at every reading during one call. *)

Module UserDoc.
Record t := mk {
  _id : ObjectId;
  email : string;
  password : string;
  isActive : bool;
  loginAttempts : Z;
  lockUntil : option Z;
  lastLogin : option Z
}.
Definition setLoginAttempts (n : Z) (u : t) : t :=
  mk (_id u) (email u) (password u) (isActive u) n (lockUntil u) (lastLogin u).
Definition setLockUntil (l : option Z) (u : t) : t :=
  mk (_id u) (email u) (password u) (isActive u) (loginAttempts u) l (lastLogin u).
Definition setLastLogin (d : option Z) (u : t) : t :=
  mk (_id u) (email u) (password u) (isActive u) (loginAttempts u) (lockUntil u) d.
End UserDoc.

Module userSchema.
Import UserDoc.

(** What an [async] function of the User model does to the users: the
    value or the exception thrown, and the collection afterwards. *)
Definition Result (A : Type) : Type := ((Exn + A) * list t)%type.

Definition maxAttempts : Z := 5.
Definition lockTime : Z := 30 * 60 * 1000.

Section Login.
Variable toLowerCase : string -> string.
Variable compare : string -> string -> bool.
Variable now : Z.

(** virtual [isLocked] *)
Definition isLocked (this : t) : bool :=
  match lockUntil this with
  | Some l => now <? l
  | None => false
  end.

(** [this.updateOne(update)]: the update of the stored document. *)
Definition updateOne (this : t) (update : t -> t) (users : list t) : list t :=
  Query.updateMany (fun u => _id u =? _id this)%string update users.

Definition incLoginAttempts (this : t) (users : list t) : list t :=
  let expired := match lockUntil this with
                 | Some l => l <? now
                 | None => false
                 end in
  if expired
  then updateOne this (fun u => setLockUntil None (setLoginAttempts 1 u)) users
  else if (maxAttempts <=? loginAttempts this + 1) && negb (isLocked this)
  then updateOne this
         (fun u => setLockUntil (Some (now + lockTime))
                     (setLoginAttempts (loginAttempts u + 1) u)) users
  else updateOne this (fun u => setLoginAttempts (loginAttempts u + 1) u) users.

(** [updateLastLogin]: the fields assigned, then [save]. *)
Definition updateLastLogin (this : t) (users : list t) : t * list t :=
  let this := setLockUntil None (setLoginAttempts 0 (setLastLogin (Some now) this)) in
  (this,
   updateOne this
     (fun u => setLockUntil None (setLoginAttempts 0 (setLastLogin (Some now) u)))
     users).

Definition comparePassword (this : t) (candidatePassword : string) : bool :=
  if (candidatePassword =? "")%string then false
  else compare candidatePassword (password this).

Definition findByCredentials (email password : string) (users : list t) : Result t :=
  if (email =? "")%string || (password =? "")%string
  then (inl (Error "Email and password are required"), users)
  else
    match find (fun u => UserDoc.email u =? toLowerCase email)%string users with
    | None => (inl (Error "Invalid login credentials"), users)
    | Some user =>
        if isLocked user
        then (inl (Error "Account temporarily locked due to too many failed login attempts"),
              users)
        else if negb (isActive user)
        then (inl (Error "Account has been deactivated"), users)
        else if negb (comparePassword user password)
        then (inl (Error "Invalid login credentials"), incLoginAttempts user users)
        else
          let (user, users) := updateLastLogin user users in
          (inr user, users)
    end.

(** [authController.login]: the status and message of the answer, for a
    body whose [email] and [password] are strings. The route checks the
    body with joi before the handler and runs no express-validator
    chain, so [validationResult(req)] is empty; [generateAuthToken] is
    taken to sign the token (JWT_SECRET set), and the [save] of
    [updateLastLogin] to pass validation. *)
Definition login (email password : string) (users : list t) : (Z * string) * list t :=
  match findByCredentials email password users with
  | (inr _, users) => ((200, "Login successful"), users)
  | (inl _, users) => ((401, "Invalid login credentials"), users)
  end.
End Login.

(** An account carries a lock date exactly when it has five or more
    failed attempts on record. *)
Definition lockMatchesAttempts (u : t) : Prop :=
  0 <= loginAttempts u
  /\ (maxAttempts <= loginAttempts u <-> lockUntil u <> None).
End userSchema.

(** ** The checklist and the assignees of a card

    The methods of the Card model that assign [checklist] and
    [assignedTo] (src/utils/testAuth.js, second document). Each ends in
    [this.save()]: the result is the document as it is saved, or the
    validation error of the path that the call changed. The stored
    items and the other paths of the card are taken to be valid (the
    card has no due date, or one that has not passed), so only
    [addChecklistItem], which stores a new text, can be refused. *)

Module ChecklistItem.
Record t := mk {
  _id : ObjectId;
  text : string;
  completed : bool;
  position : Z
}.
Definition setCompleted (b : bool) (i : t) : t := mk (_id i) (text i) b (position i).
End ChecklistItem.

Module CardContent.
Record t := mk {
  assignedTo : list ObjectId;
  checklist : list ChecklistItem.t
}.
Definition setAssignedTo (us : list ObjectId) (c : t) : t := mk us (checklist c).
Definition setChecklist (items : list ChecklistItem.t) (c : t) : t :=
  mk (assignedTo c) items.
End CardContent.

Module cardMethods.
Import CardContent.

(** [checklistItemSchema]: [text] is required and at most 200 characters
    long, [position] is at least 0. *)
Definition itemError (i : ChecklistItem.t) : option string :=
  if (String.length (ChecklistItem.text i) =? 0)%nat
  then Some "Path `text` is required."
  else if (200 <? String.length (ChecklistItem.text i))%nat
  then Some "Checklist item cannot exceed 200 characters"
  else if ChecklistItem.position i <? 0
  then Some ("Path `position` ("
             ++ NilZero.string_of_int (Z.to_int (ChecklistItem.position i))
             ++ ") is less than minimum allowed value (0).")
  else None.

(** [newId] is the [_id] that the checklist array gives the new item. *)
Definition addChecklistItem (this : t) (newId : ObjectId) (text : string) : Exn + t :=
  let position := Z.of_nat (length (checklist this)) in
  let item := ChecklistItem.mk newId (Text.trim text) false position in
  match itemError item with
  | Some msg => inl (ValidationError msg)
  | None => inr (setChecklist (checklist this ++ [item]) this)
  end.

(** [this.checklist.id(itemId)], then [item.completed = !item.completed]:
    the first item with that id. *)
Fixpoint toggleFirst (itemId : ObjectId) (items : list ChecklistItem.t)
  : list ChecklistItem.t :=
  match items with
  | [] => []
  | i :: rest =>
      if (ChecklistItem._id i =? itemId)%string
      then ChecklistItem.setCompleted (negb (ChecklistItem.completed i)) i :: rest
      else i :: toggleFirst itemId rest
  end.

Definition toggleChecklistItem (this : t) (itemId : ObjectId) : t :=
  setChecklist (toggleFirst itemId (checklist this)) this.

Definition assignUser (this : t) (userId : ObjectId) : t :=
  if negb (existsb (fun id => id =? userId)%string (assignedTo this))
  then setAssignedTo (assignedTo this ++ [userId]) this
  else this.

Definition unassignUser (this : t) (userId : ObjectId) : t :=
  setAssignedTo (filter (fun id => negb (id =? userId)%string) (assignedTo this)) this.

(** A call of one of the two checklist methods. *)
Inductive ChecklistCall :=
| AddChecklistItem (newId : ObjectId) (text : string)
| ToggleChecklistItem (itemId : ObjectId).

(** The saved document after a sequence of calls; a call that throws
    saves nothing. *)
Fixpoint afterCalls (calls : list ChecklistCall) (this : t) : t :=
  match calls with
  | [] => this
  | AddChecklistItem newId text :: rest =>
      match addChecklistItem this newId text with
      | inr this' => afterCalls rest this'
      | inl _ => afterCalls rest this
      end
  | ToggleChecklistItem itemId :: rest =>
      afterCalls rest (toggleChecklistItem this itemId)
  end.

(** The positions of the checklist are the indices 0, 1, ..., n-1. *)
Definition indexed (this : t) : Prop :=
  map ChecklistItem.position (checklist this)
  = PositionSort.countUp (length (checklist this)).
End cardMethods.

(** ** The board middleware

    [isBoardOwner] and [isBoardMember] of middleware/auth
    (src/unnamed/part_002) and the route [DELETE /api/boards/:id] of
    src/routes/boards.js. A middleware answers, or calls [next()]
    ([None]). *)

Module middleware.
Definition orError (body : Async (option Response)) (on_error : Response)
  : DB -> option Response :=
  fun db =>
    match body db with
    | (inr r, _) => r
    | (inl _, _) => Some on_error
    end.

Definition isBoardOwner (userId boardId : ObjectId) : DB -> option Response :=
  orError
    (board <- BoardModel.findById boardId ;;
     match board with
     | None => ret (Some (json 404 "Board not found" NoData))
     | Some board =>
         if negb (BoardDoc.ownerId board =? userId)%string
         then ret (Some (json 403
                           "Access denied. Only board owner can perform this action."
                           NoData))
         else ret None
     end)
    (json 500 "Error checking board ownership" NoData).

Definition isBoardMember (userId boardId : ObjectId) : DB -> option Response :=
  orError
    (board <- BoardModel.findById boardId ;;
     match board with
     | None => ret (Some (json 404 "Board not found" NoData))
     | Some board =>
         let isOwner := (BoardDoc.ownerId board =? userId)%string in
         let isMember :=
           existsb (fun memberId => memberId =? userId)%string (BoardDoc.members board) in
         if negb isOwner && negb isMember
         then ret (Some (json 403 "Access denied. You are not a member of this board."
                           NoData))
         else ret None
     end)
    (json 500 "Error checking board membership" NoData).

(** [router.delete('/:id', auth, isBoardOwner, deleteBoard)], for the
    authenticated user [userId]. *)
Definition delete_board (userId id : ObjectId) : Handler :=
  fun db =>
    match isBoardOwner userId id db with
    | Some response => (response, db)
    | None => boardController.deleteBoard userId id db
    end.
End middleware.

(** * Properties *)

(** ** Positions as lists of integers *)

Ltac zbool :=
  repeat match goal with
    | |- context [?a <? ?b] => destruct (Z.ltb_spec a b)
    | |- context [?a <=? ?b] => destruct (Z.leb_spec a b)
    | |- context [?a =? ?b] => destruct (Z.eqb_spec a b)
    | H : context [?a <? ?b] |- _ => destruct (Z.ltb_spec a b)
    | H : context [?a <=? ?b] |- _ => destruct (Z.leb_spec a b)
    | H : context [?a =? ?b] |- _ => destruct (Z.eqb_spec a b)
    end.

Module PositionsFacts.
Import Positions.

Lemma dense_bounded ps : dense ps -> bounded ps.
Proof. intros [N H]. split; [exact N | intros z Hz; now apply H]. Qed.

Lemma bounded_dense ps : bounded ps -> dense ps.
Proof.
  intros [N B]. split; [exact N|]. intros z; split; [apply B|]. intros Hz.
  set (s := map Z.of_nat (seq 0 (length ps))).
  assert (P : Permutation ps s).
  { apply NoDup_Permutation_bis; [exact N | |].
    - unfold s. rewrite length_map, length_seq. apply le_n.
    - intros x Hx. apply B in Hx. unfold s. apply in_map_iff.
      exists (Z.to_nat x). split; [lia|]. apply in_seq. lia. }
  apply Permutation_sym in P. apply (Permutation_in _ P).
  unfold s. apply in_map_iff. exists (Z.to_nat z). split; [lia|].
  apply in_seq. lia.
Qed.

Lemma bounded_perm ps ps' : Permutation ps ps' -> bounded ps -> bounded ps'.
Proof.
  intros P [N B]. split.
  - now apply (Permutation_NoDup P).
  - intros z Hz. rewrite <- (Permutation_length P). apply B.
    now apply (Permutation_in _ (Permutation_sym P)).
Qed.

Lemma rotate_inj old t p q : rotate old t p = rotate old t q -> p = q.
Proof. unfold rotate. zbool; simpl; lia. Qed.

Lemma bounded_rotate old t ps :
  bounded ps -> In old ps -> 0 <= t < Z.of_nat (length ps) ->
  bounded (map (rotate old t) ps).
Proof.
  intros [N B] Hold Ht. split.
  - apply Finite.Injective_map_NoDup; [|exact N].
    intros p q. apply rotate_inj.
  - intros z Hz. rewrite length_map. apply in_map_iff in Hz.
    destruct Hz as (p & <- & Hp). apply B in Hp. apply B in Hold.
    unfold rotate. zbool; simpl; lia.
Qed.

Lemma length_filter_neq x ps :
  NoDup ps -> In x ps ->
  S (length (filter (fun p => negb (p =? x)) ps)) = length ps.
Proof.
  induction 1 as [|p ps Hp N IH]; simpl; [tauto|]. intros [->|Hx].
  - rewrite Z.eqb_refl. simpl. f_equal.
    assert (E : filter (fun p => negb (p =? x)) ps = ps); [|now rewrite E].
    clear IH N. induction ps as [|q ps IH]; simpl; [reflexivity|].
    destruct (Z.eqb_spec q x) as [->|]; simpl.
    + exfalso. apply Hp. now left.
    + f_equal. apply IH. intros H. apply Hp. now right.
  - destruct (Z.eqb_spec p x) as [->|]; simpl; [contradiction|].
    f_equal. now apply IH.
Qed.

Lemma bounded_close old ps :
  bounded ps -> In old ps ->
  bounded (map (close old) (filter (fun p => negb (p =? old)) ps)).
Proof.
  intros [N B] Hold. pose proof (length_filter_neq old ps N Hold) as L. split.
  - apply Finite.Injective_map_NoDup_in; [|now apply NoDup_filter].
    intros p q Hp Hq. apply filter_In in Hp, Hq.
    destruct Hp as [_ Hp], Hq as [_ Hq]. revert Hp Hq.
    unfold close. zbool; simpl; intros; try discriminate; lia.
  - intros z Hz. rewrite length_map. apply in_map_iff in Hz.
    destruct Hz as (p & <- & Hp). apply filter_In in Hp.
    destruct Hp as [Hp Hne]. apply B in Hp. apply B in Hold. revert Hne.
    unfold close. zbool; simpl; intros; try discriminate; lia.
Qed.

Lemma bounded_open t ps :
  bounded ps -> 0 <= t <= Z.of_nat (length ps) ->
  bounded (t :: map (open t) ps).
Proof.
  intros [N B] Ht. split.
  - constructor.
    + rewrite in_map_iff. intros (p & E & _). revert E.
      unfold open. zbool; lia.
    + apply Finite.Injective_map_NoDup; [|exact N].
      intros p q. unfold open. zbool; lia.
  - intros z [<-|Hz]; simpl; rewrite length_map; [lia|].
    apply in_map_iff in Hz. destruct Hz as (p & <- & Hp). apply B in Hp.
    unfold open. zbool; lia.
Qed.

Lemma bounded_append ps :
  bounded ps -> bounded (ps ++ [Z.of_nat (length ps)]).
Proof.
  intros [N B]. split.
  - apply NoDup_app; repeat split.
    + exact N.
    + constructor; [simpl; tauto | constructor].
    + intros z Hz [<-|[]]. apply B in Hz. lia.
  - intros z Hz. rewrite length_app. simpl. apply in_app_iff in Hz.
    destruct Hz as [Hz|[<-|[]]]; [apply B in Hz|]; lia.
Qed.

Lemma bounded_nil : bounded [].
Proof. split; [constructor | intros z []]. Qed.
End PositionsFacts.

(** ** Sibling sets of documents *)

Section Documents.
Context {A : Type}.
Variable docId : A -> ObjectId.

Lemma findById_some id l c :
  Query.findById docId id l = Some c -> In c l /\ docId c = id.
Proof.
  unfold Query.findById. intros H. apply find_some in H.
  destruct H as [H E]. split; [exact H | now apply String.eqb_eq].
Qed.

Lemma findById_none id l c :
  Query.findById docId id l = None -> In c l -> docId c <> id.
Proof.
  unfold Query.findById. intros H Hc E.
  apply (find_none _ _ H) in Hc. apply String.eqb_neq in Hc. contradiction.
Qed.

Lemma hasId_in c l : In c l -> Query.hasId docId (docId c) l = true.
Proof.
  intros H. unfold Query.hasId. apply existsb_exists.
  exists c. split; [exact H | apply String.eqb_refl].
Qed.

Lemma hasId_false id l c :
  Query.hasId docId id l = false -> In c l -> docId c <> id.
Proof.
  unfold Query.hasId. intros H Hc E.
  assert (T : existsb (fun d => (docId d =? id)%string) l = true).
  { apply existsb_exists. exists c. split; [exact Hc | now apply String.eqb_eq]. }
  congruence.
Qed.

Lemma same_id_same_doc l x y :
  NoDup (map docId l) -> In x l -> In y l -> docId x = docId y -> x = y.
Proof.
  induction l as [|d l IH]; simpl; [tauto|]. intros N Hx Hy E.
  inversion N as [|? ? Hd N']; subst.
  destruct Hx as [->|Hx], Hy as [->|Hy]; auto.
  - exfalso. apply Hd. rewrite E. now apply in_map.
  - exfalso. apply Hd. rewrite <- E. now apply in_map.
Qed.

Lemma count_same (q : A -> bool) (F : A -> A) l :
  (forall c, In c l -> q (F c) = q c) ->
  length (filter q (map F l)) = length (filter q l).
Proof.
  induction l as [|d l IH]; simpl; [reflexivity|]. intros H.
  rewrite (H d) by auto. destruct (q d); simpl; [f_equal|]; apply IH; auto.
Qed.

Lemma count_move (q : A -> bool) (F : A -> A) l this :
  NoDup (map docId l) -> In this l ->
  (forall c, In c l -> docId c <> docId this -> q (F c) = q c) ->
  (length (filter q (map F l)) + (if q this then 1 else 0)
   = length (filter q l) + (if q (F this) then 1 else 0))%nat.
Proof.
  induction l as [|d l IH]; simpl; [tauto|]. intros N Hthis Hne.
  inversion N as [|? ? Hd N']; subst. destruct Hthis as [->|Hthis].
  - assert (E : length (filter q (map F l)) = length (filter q l)).
    { apply count_same. intros c Hc. apply Hne; [auto|].
      intros Ec. apply Hd. rewrite <- Ec. now apply in_map. }
    destruct (q (F this)), (q this); simpl; lia.
  - assert (Hd' : docId d <> docId this).
    { intros E. apply Hd. rewrite E. now apply in_map. }
    rewrite (Hne d) by auto.
    assert (IH' := IH N' Hthis (fun c Hc => Hne c (or_intror Hc))).
    destruct (q d); simpl; lia.
Qed.

Lemma NoDup_ids_map (F : A -> A) l :
  (forall c, docId (F c) = docId c) ->
  NoDup (map docId l) -> NoDup (map docId (map F l)).
Proof.
  intros H N. rewrite map_map.
  rewrite (map_ext _ docId H). exact N.
Qed.

Lemma NoDup_ids_filter (q : A -> bool) l :
  NoDup (map docId l) -> NoDup (map docId (filter q l)).
Proof.
  induction l as [|d l IH]; simpl; [auto|]. intros N.
  inversion N as [|? ? Hd N']; subst. destruct (q d); simpl; auto.
  constructor; auto. intros H. apply Hd.
  apply in_map_iff in H. destruct H as (x & E & Hx).
  apply filter_In in Hx. rewrite <- E. apply in_map. tauto.
Qed.

Lemma NoDup_ids_insert d l :
  Query.hasId docId (docId d) l = false ->
  NoDup (map docId l) -> NoDup (map docId (l ++ [d])).
Proof.
  intros H N. rewrite map_app. apply NoDup_app; repeat split.
  - exact N.
  - constructor; [simpl; tauto | constructor].
  - intros x Hx [<-|[]]. apply in_map_iff in Hx.
    destruct Hx as (c & E & Hc). exact (hasId_false _ _ c H Hc E).
Qed.
End Documents.

Section Siblings.
Context {A : Type}.
Variable docId : A -> ObjectId.
Variable pos : A -> Z.

Lemma positions_map (inP inQ : A -> bool) (F : A -> A) (g : Z -> Z) l :
  (forall c, In c l -> inP (F c) = inQ c) ->
  (forall c, In c l -> inQ c = true -> pos (F c) = g (pos c)) ->
  map pos (filter inP (map F l)) = map g (map pos (filter inQ l)).
Proof.
  induction l as [|d l IH]; simpl; [reflexivity|]. intros HP Hg.
  rewrite (HP d) by now left.
  destruct (inQ d) eqn:Q; simpl.
  - rewrite (Hg d) by auto. f_equal. apply IH; auto.
  - apply IH; auto.
Qed.

Lemma positions_unchanged (inP : A -> bool) (F : A -> A) l :
  (forall c, In c l -> inP (F c) = inP c) ->
  (forall c, In c l -> inP c = true -> pos (F c) = pos c) ->
  map pos (filter inP (map F l)) = map pos (filter inP l).
Proof.
  intros HP Hg.
  rewrite (positions_map inP inP F (fun p => p) l HP Hg). apply map_id.
Qed.

Lemma positions_without (inP : A -> bool) id old l :
  (forall c, In c l -> inP c = true ->
             (docId c =? id)%string = (pos c =? old)) ->
  map pos (filter (fun c => inP c && negb (docId c =? id)%string) l)
  = filter (fun p => negb (p =? old)) (map pos (filter inP l)).
Proof.
  induction l as [|d l IH]; simpl; [reflexivity|]. intros H.
  destruct (inP d) eqn:P; simpl.
  - rewrite (H d) by auto. destruct (pos d =? old); simpl.
    + apply IH; auto.
    + f_equal. apply IH; auto.
  - apply IH; auto.
Qed.

Lemma filter_without (inP : A -> bool) id l :
  filter inP (filter (fun c => negb (docId c =? id)%string) l)
  = filter (fun c => inP c && negb (docId c =? id)%string) l.
Proof.
  induction l as [|d l IH]; simpl; [reflexivity|].
  destruct (docId d =? id)%string; simpl.
  - rewrite andb_false_r. exact IH.
  - rewrite andb_true_r. destruct (inP d); [f_equal|]; exact IH.
Qed.

Lemma id_iff_position (inP : A -> bool) l this :
  NoDup (map docId l) -> NoDup (map pos (filter inP l)) ->
  In this l -> inP this = true ->
  forall c, In c l -> inP c = true ->
            (docId c =? docId this)%string = (pos c =? pos this).
Proof.
  intros Nid Npos Hthis Pthis c Hc Pc.
  destruct (String.eqb_spec (docId c) (docId this)) as [E|E].
  - rewrite (same_id_same_doc docId l c this Nid Hc Hthis E). symmetry. apply Z.eqb_refl.
  - symmetry. apply Z.eqb_neq. intros Epos. apply E. f_equal.
    assert (Hc' : In c (filter inP l)) by (apply filter_In; auto).
    assert (Ht' : In this (filter inP l)) by (apply filter_In; auto).
    revert Npos Hc' Ht' Epos. generalize (filter inP l) as k.
    induction k as [|d k IH]; simpl; [tauto|]. intros N Hc' Ht' Epos.
    inversion N as [|? ? Hd N']; subst.
    destruct Hc' as [->|Hc'], Ht' as [->|Ht']; auto.
    + exfalso. apply Hd. rewrite Epos. now apply in_map.
    + exfalso. apply Hd. rewrite <- Epos. now apply in_map.
Qed.

Lemma positions_with (inP : A -> bool) id t (g : Z -> Z) (F : A -> A) l :
  NoDup (map docId l) ->
  (exists c, In c l /\ docId c = id) ->
  (forall c, In c l -> docId c = id ->
             inP c = false /\ inP (F c) = true /\ pos (F c) = t) ->
  (forall c, In c l -> docId c <> id -> inP (F c) = inP c) ->
  (forall c, In c l -> inP c = true -> pos (F c) = g (pos c)) ->
  Permutation (map pos (filter inP (map F l)))
              (t :: map g (map pos (filter inP l))).
Proof.
  induction l as [|d l IH]; simpl; intros N (c & Hc & Ec) Hid Hne Hg; [tauto|].
  inversion N as [|? ? Hd N']; subst.
  destruct (String.eqb_spec (docId d) (docId c)) as [E|E].
  - destruct (Hid d (or_introl eq_refl) E) as (P0 & P1 & Pt).
    rewrite P1, P0. simpl. rewrite Pt. apply perm_skip.
    rewrite (positions_map inP inP F g l); [reflexivity| |auto].
    intros x Hx. apply Hne; [auto|]. intros Ex. apply Hd.
    rewrite E, <- Ex. now apply in_map.
  - assert (Hc' : In c l) by (destruct Hc as [->|]; [contradiction|assumption]).
    rewrite (Hne d) by auto.
    assert (IH' : Permutation (map pos (filter inP (map F l)))
                    (t :: map g (map pos (filter inP l)))).
    { apply IH; auto. exists c. auto. }
    destruct (inP d) eqn:P; simpl; [|exact IH'].
    rewrite (Hg d) by auto.
    eapply perm_trans; [apply perm_skip, IH' | apply perm_swap].
Qed.

(** *** Preservation of dense numbering, by the shape of the update *)

Import Positions PositionsFacts.

Section OneDocument.
Variable inP : A -> bool.
Variable l : list A.
Variable this : A.
Hypothesis Nid : NoDup (map docId l).
Hypothesis Hthis : In this l.

Lemma others_differ c : In c l -> docId c = docId this -> c = this.
Proof. intros Hc E. exact (same_id_same_doc docId l c this Nid Hc Hthis E). Qed.

Lemma bounded_within (F : A -> A) t :
  bounded (map pos (filter inP l)) ->
  inP this = true ->
  0 <= t < Z.of_nat (length (filter inP l)) ->
  inP (F this) = true -> pos (F this) = t ->
  (forall c, In c l -> docId c <> docId this ->
             inP (F c) = inP c
             /\ (inP c = true -> pos c <> pos this ->
                 pos (F c) = rotate (pos this) t (pos c))) ->
  bounded (map pos (filter inP (map F l))).
Proof.
  intros B Pthis Ht PF Et Hoth.
  rewrite (positions_map inP inP F (rotate (pos this) t) l).
  - apply bounded_rotate; [exact B | | now rewrite length_map].
    apply in_map. apply filter_In. auto.
  - intros c Hc. destruct (String.eqb_spec (docId c) (docId this)) as [E|E].
    + rewrite (others_differ c Hc E). congruence.
    + apply Hoth; auto.
  - intros c Hc Pc.
    pose proof (id_iff_position inP l this Nid (proj1 B) Hthis Pthis c Hc Pc) as I.
    destruct (String.eqb_spec (docId c) (docId this)) as [E|E].
    + rewrite (others_differ c Hc E). rewrite Et. unfold rotate.
      now rewrite Z.eqb_refl.
    + symmetry in I. apply Z.eqb_neq in I.
      apply (proj2 (Hoth c Hc E)); auto.
Qed.

Lemma bounded_removed (F : A -> A) :
  bounded (map pos (filter inP l)) ->
  inP this = true -> inP (F this) = false ->
  (forall c, In c l -> docId c <> docId this ->
             inP (F c) = inP c
             /\ (inP c = true -> pos (F c) = close (pos this) (pos c))) ->
  bounded (map pos (filter inP (map F l))).
Proof.
  intros B Pthis PF Hoth.
  rewrite (positions_map inP
             (fun c => inP c && negb (docId c =? docId this)%string)
             F (close (pos this)) l).
  - rewrite (positions_without inP (docId this) (pos this) l).
    + apply bounded_close; [exact B|].
      apply in_map. apply filter_In. auto.
    + intros c Hc Pc. exact (id_iff_position inP l this Nid (proj1 B) Hthis Pthis c Hc Pc).
  - intros c Hc. destruct (String.eqb_spec (docId c) (docId this)) as [E|E].
    + rewrite (others_differ c Hc E), PF, Pthis. reflexivity.
    + rewrite (proj1 (Hoth c Hc E)). simpl. now rewrite andb_true_r.
  - intros c Hc Pc. apply andb_prop in Pc. destruct Pc as [Pc Ne].
    destruct (String.eqb_spec (docId c) (docId this)) as [E|E]; [discriminate|].
    apply (proj2 (Hoth c Hc E)); auto.
Qed.

Lemma bounded_deleted (U : A -> A) :
  bounded (map pos (filter inP l)) ->
  inP this = true ->
  (forall c, In c l -> docId c <> docId this ->
             inP (U c) = inP c
             /\ (inP c = true -> pos (U c) = close (pos this) (pos c))) ->
  bounded (map pos (filter inP
             (map U (filter (fun c => negb (docId c =? docId this)%string) l)))).
Proof.
  intros B Pthis Hoth.
  rewrite (positions_map inP inP U (close (pos this))).
  - rewrite filter_without.
    rewrite (positions_without inP (docId this) (pos this) l).
    + apply bounded_close; [exact B|].
      apply in_map. apply filter_In. auto.
    + intros c Hc Pc. exact (id_iff_position inP l this Nid (proj1 B) Hthis Pthis c Hc Pc).
  - intros c Hc. apply filter_In in Hc. destruct Hc as [Hc Ne].
    destruct (String.eqb_spec (docId c) (docId this)) as [E|E]; [discriminate|].
    apply Hoth; auto.
  - intros c Hc Pc. apply filter_In in Hc. destruct Hc as [Hc Ne].
    destruct (String.eqb_spec (docId c) (docId this)) as [E|E]; [discriminate|].
    apply (proj2 (Hoth c Hc E)); auto.
Qed.

Lemma bounded_added (F : A -> A) t :
  bounded (map pos (filter inP l)) ->
  inP this = false ->
  0 <= t <= Z.of_nat (length (filter inP l)) ->
  inP (F this) = true -> pos (F this) = t ->
  (forall c, In c l -> docId c <> docId this ->
             inP (F c) = inP c
             /\ (inP c = true -> pos (F c) = open t (pos c))) ->
  bounded (map pos (filter inP (map F l))).
Proof.
  intros B Pthis Ht PF Et Hoth.
  apply (bounded_perm (t :: map (open t) (map pos (filter inP l)))).
  - apply Permutation_sym.
    apply (positions_with inP (docId this) t (open t) F l Nid).
    + exists this. auto.
    + intros c Hc E. rewrite (others_differ c Hc E). auto.
    + intros c Hc E. apply Hoth; auto.
    + intros c Hc Pc.
      destruct (String.eqb_spec (docId c) (docId this)) as [E|E].
      * rewrite (others_differ c Hc E) in Pc. congruence.
      * apply (proj2 (Hoth c Hc E)); auto.
  - apply bounded_open; [exact B | now rewrite length_map].
Qed.

Lemma positions_moved_elsewhere (F : A -> A) :
  inP this = false -> inP (F this) = false ->
  (forall c, In c l -> docId c <> docId this ->
             inP (F c) = inP c /\ (inP c = true -> pos (F c) = pos c)) ->
  map pos (filter inP (map F l)) = map pos (filter inP l).
Proof.
  intros Pthis PF Hoth. apply positions_unchanged.
  - intros c Hc. destruct (String.eqb_spec (docId c) (docId this)) as [E|E].
    + rewrite (others_differ c Hc E). congruence.
    + apply Hoth; auto.
  - intros c Hc Pc. destruct (String.eqb_spec (docId c) (docId this)) as [E|E].
    + rewrite (others_differ c Hc E) in Pc. congruence.
    + apply (proj2 (Hoth c Hc E)); auto.
Qed.

Lemma positions_deleted_elsewhere (U : A -> A) :
  inP this = false ->
  (forall c, In c l -> docId c <> docId this ->
             inP (U c) = inP c /\ (inP c = true -> pos (U c) = pos c)) ->
  map pos (filter inP
             (map U (filter (fun c => negb (docId c =? docId this)%string) l)))
  = map pos (filter inP l).
Proof.
  intros Pthis Hoth. rewrite positions_unchanged.
  - rewrite filter_without. f_equal. apply filter_ext_in. intros c Hc.
    destruct (String.eqb_spec (docId c) (docId this)) as [E|E]; simpl.
    + rewrite (others_differ c Hc E), Pthis. reflexivity.
    + apply andb_true_r.
  - intros c Hc. apply filter_In in Hc. destruct Hc as [Hc Ne].
    destruct (String.eqb_spec (docId c) (docId this)) as [E|E]; [discriminate|].
    apply Hoth; auto.
  - intros c Hc Pc. apply filter_In in Hc. destruct Hc as [Hc Ne].
    destruct (String.eqb_spec (docId c) (docId this)) as [E|E]; [discriminate|].
    apply (proj2 (Hoth c Hc E)); auto.
Qed.
End OneDocument.

Lemma bounded_appended (inP : A -> bool) l d :
  bounded (map pos (filter inP l)) ->
  (inP d = true -> pos d = Z.of_nat (length (filter inP l))) ->
  bounded (map pos (filter inP (l ++ [d]))).
Proof.
  intros B H. rewrite filter_app. simpl. destruct (inP d).
  - rewrite map_app. simpl. rewrite H by reflexivity.
    rewrite <- (length_map pos). now apply bounded_append.
  - now rewrite app_nil_r.
Qed.

End Siblings.

(** ** What the methods do to the collections *)

Ltac sbool :=
  repeat match goal with
    | |- context [String.eqb ?a ?b] => destruct (String.eqb_spec a b)
    | H : context [String.eqb ?a ?b] |- _ => destruct (String.eqb_spec a b)
    end.

Ltac doc_cases c this :=
  destruct c, this; simpl in *; sbool; zbool; simpl in *; subst;
  try reflexivity; try congruence; try lia; try (f_equal; lia).

Ltac doc_case this :=
  destruct this; simpl in *; sbool; zbool; simpl in *; subst;
  try reflexivity; try congruence; try lia; try (f_equal; lia).

Ltac run_async :=
  repeat progress (unfold bind, ret, throw, swallow,
    CardModel.updateMany, CardModel.countDocuments, CardModel.deleteMany,
    CardModel.removeDoc, CardModel.insert, CardModel.positionError,
    CardModel.findById,
    ListModel.updateMany, ListModel.countDocuments, ListModel.deleteMany,
    ListModel.removeDoc, ListModel.savePosition, ListModel.insert,
    ListModel.validate, ListModel.findById, ListModel.saveArchived,
    BoardModel.findById, BoardModel.removeDoc; simpl).

Lemma hasId_updateMany {A} (docId : A -> ObjectId) q u id l :
  (forall c, docId (u c) = docId c) ->
  Query.hasId docId id (Query.updateMany q u l) = Query.hasId docId id l.
Proof.
  intros H. unfold Query.hasId, Query.updateMany.
  induction l as [|d l IH]; simpl; [reflexivity|]. rewrite IH. f_equal.
  destruct (q d); [rewrite H|]; reflexivity.
Qed.

Lemma card_eta c :
  CardDoc.mk (CardDoc._id c) (CardDoc.listId c) (CardDoc.boardId c)
             (CardDoc.position c) (CardDoc.archived c) (CardDoc.dueDate c) = c.
Proof. destruct c; reflexivity. Qed.

Module cardSchemaFacts.
Import CardDoc.

Lemma moveToList_same_list_null now this db :
  cardSchema.moveToList now this (listId this) None db = (inr this, db).
Proof. unfold cardSchema.moveToList. rewrite String.eqb_refl. reflexivity. Qed.

Lemma moveToList_same_position now this db :
  cardSchema.moveToList now this (listId this) (Some (position this)) db
  = (inr this, db).
Proof.
  unfold cardSchema.moveToList. rewrite String.eqb_refl, Z.eqb_refl. reflexivity.
Qed.

(** The save that ends a move passes validation when the target is not
    negative and the due date of the card, if any, has not passed. *)
Lemma validate_moved now this L t :
  0 <= t -> CardModel.dueDateError now this = None ->
  CardModel.validate now (setPosition t (setListId L this)) = ret tt.
Proof.
  intros Ht Hd. unfold CardModel.validate, CardModel.positionError. simpl.
  destruct (Z.ltb_spec t 0); [lia|].
  unfold CardModel.dueDateError in *. simpl. rewrite Hd. reflexivity.
Qed.

Lemma moveToList_within now this t db :
  NoDup (map _id (cards db)) -> In this (cards db) ->
  0 <= t -> t <> position this ->
  CardModel.dueDateError now this = None ->
  cardSchema.moveToList now this (listId this) (Some t) db
  = (inr (setPosition t this),
     setCards (map (movedWithin this t) (cards db)) db).
Proof.
  intros N Hthis Ht Hne Hd. unfold cardSchema.moveToList.
  pose proof (hasId_in _id this (cards db) Hthis) as Hid.
  rewrite String.eqb_refl.
  destruct (Z.eqb_spec t (position this)) as [|_]; [contradiction|].
  assert (E : setPosition t (setListId (listId this) this) = setPosition t this)
    by (destruct this; reflexivity).
  unfold CardModel.saveListIdPosition.
  rewrite (validate_moved now this (listId this) t Ht Hd). rewrite E.
  destruct (Z.ltb_spec (position this) t); run_async;
    rewrite hasId_updateMany by reflexivity; rewrite Hid;
    (f_equal; unfold setCards; simpl; f_equal;
     unfold Query.updateMany; rewrite map_map; apply map_ext_in; intros c Hc;
     destruct (String.eqb_spec (_id c) (_id this)) as [Ec|Ec];
     [ assert (c = this)
         by (apply (same_id_same_doc _id (cards db)); assumption);
       subst c; clear N Hthis Hid Hc E Hd;
       unfold movedWithin, CardModel.modified, inList, inc, setPosition, setListId;
       doc_case this
     | clear N Hthis Hid Hc E Hd;
       unfold movedWithin, CardModel.modified, inList, inc, setPosition, setListId;
       doc_cases c this ]).
Qed.

Lemma moveToList_across now this newListId newPosition db :
  listId this <> newListId -> listId this <> castObjectId newListId ->
  NoDup (map _id (cards db)) -> In this (cards db) ->
  0 <= resolvePosition (castObjectId newListId) newPosition db ->
  CardModel.dueDateError now this = None ->
  cardSchema.moveToList now this newListId newPosition db
  = (inr (setPosition (resolvePosition (castObjectId newListId) newPosition db)
            (setListId (castObjectId newListId) this)),
     setCards (map (movedAcross this (castObjectId newListId)
                      (resolvePosition (castObjectId newListId) newPosition db))
                   (cards db)) db).
Proof.
  intros Hraw Hne N Hthis Ht Hd. unfold cardSchema.moveToList.
  pose proof (hasId_in _id this (cards db) Hthis) as Hid.
  destruct (String.eqb_spec (listId this) newListId) as [|_]; [contradiction|].
  set (L := castObjectId newListId) in *.
  set (t := resolvePosition L newPosition db) in *.
  assert (C : Query.countDocuments (fun c => (listId c =? L)%string)
                (Query.updateMany
                   (fun c => (listId c =? listId this)%string
                             && (position this <? position c))
                   (inc (-1)) (cards db))
              = Query.countDocuments (inList L) (cards db)).
  { unfold Query.countDocuments, Query.updateMany. f_equal.
    apply (count_same (inList L)). intros c _.
    destruct ((listId c =? listId this)%string && (position this <? position c));
      reflexivity. }
  assert (R : forall p, p = t ->
    (CardModel.updateMany
       (fun c => (listId c =? L)%string && (p <=? position c)) (inc 1) ;;;
     CardModel.saveListIdPosition now this (setPosition p (setListId L this)))
      (setCards (Query.updateMany
                   (fun c => (listId c =? listId this)%string
                             && (position this <? position c))
                   (inc (-1)) (cards db)) db)
    = (inr (setPosition t (setListId L this)),
       setCards (map (movedAcross this L t) (cards db)) db)).
  { intros p ->. unfold CardModel.saveListIdPosition.
    rewrite (validate_moved now this L t Ht Hd). run_async.
    rewrite !hasId_updateMany by reflexivity. rewrite Hid.
    f_equal. unfold setCards; simpl; f_equal.
    unfold Query.updateMany. rewrite !map_map. apply map_ext_in. intros c Hc.
    destruct (String.eqb_spec (_id c) (_id this)) as [Ec|Ec].
    - assert (c = this)
        by (apply (same_id_same_doc _id (cards db)); assumption).
      subst c. clear - Hne. generalize dependent L. intros L Hne.
      unfold movedAcross, CardModel.modified, inList, inc, setPosition, setListId.
      doc_case this.
    - clear - Ec Hne. generalize dependent L. intros L Hne.
      unfold movedAcross, CardModel.modified, inList, inc, setPosition, setListId.
      doc_cases c this. }
  destruct newPosition as [p|]; run_async.
  - apply (R p). reflexivity.
  - fold L. rewrite C. apply R. reflexivity.
Qed.

Lemma deleteOne_cards this db :
  cardSchema.deleteOne this db
  = (inr tt,
     setCards
       (Query.updateMany
          (fun c => liveInList (listId this) c && (position this <? position c))
          (inc (-1))
          (Query.deleteMany (fun c => (_id c =? _id this)%string) (cards db)))
       db).
Proof.
  unfold cardSchema.deleteOne, cardSchema.post_deleteOne. run_async.
  f_equal. unfold setCards; simpl; f_equal.
  unfold Query.updateMany. apply map_ext. intros c.
  unfold liveInList, inList.
  destruct (listId c =? listId this)%string, (position this <? position c),
    (archived c); reflexivity.
Qed.
End cardSchemaFacts.

Module listSchemaFacts.
Import ListDoc.

Lemma moveToPosition_negative this t db :
  t < 0 ->
  listSchema.moveToPosition this t db
  = (inl (Error "Position cannot be negative"), db).
Proof.
  intros H. unfold listSchema.moveToPosition.
  destruct (Z.ltb_spec t 0); [reflexivity | lia].
Qed.

Lemma moveToPosition_same_position this db :
  0 <= position this ->
  listSchema.moveToPosition this (position this) db = (inr this, db).
Proof.
  intros H. unfold listSchema.moveToPosition.
  destruct (Z.ltb_spec (position this) 0); [lia|].
  rewrite Z.eqb_refl. reflexivity.
Qed.

Lemma moveToPosition_moves this t db :
  Query.hasId _id (_id this) (lists db) = true ->
  0 <= t -> t <> position this ->
  listSchema.moveToPosition this t db
  = (inr (setPosition t this),
     setLists (map (reordered this t) (lists db)) db).
Proof.
  intros Hid Ht Hne. unfold listSchema.moveToPosition.
  assert (V : (t <? 0) = false) by (apply Z.ltb_ge; exact Ht).
  rewrite V.
  destruct (Z.eqb_spec (position this) t) as [E|_]; [congruence|].
  destruct (Z.ltb_spec (position this) t); run_async; rewrite V; run_async;
    rewrite hasId_updateMany by reflexivity; rewrite Hid;
    (f_equal; unfold setLists; simpl; f_equal;
     unfold Query.updateMany; rewrite map_map; apply map_ext; intros c;
     unfold reordered, inBoard, inc, setPosition;
     doc_cases c this).
Qed.

Lemma deleteOne_lists this db :
  listSchema.deleteOne this db
  = (inr tt,
     setLists
       (Query.updateMany
          (fun l => inBoard (boardId this) l && (position this <? position l))
          (inc (-1))
          (Query.deleteMany (fun l => (_id l =? _id this)%string) (lists db)))
       (setCards
          (Query.deleteMany (fun c => (CardDoc.listId c =? _id this)%string)
             (cards db)) db)).
Proof. reflexivity. Qed.
End listSchemaFacts.

(** ** What the creating handlers do *)

Lemma countDocuments_nonneg {A} (q : A -> bool) l :
  (Query.countDocuments q l <? 0) = false.
Proof. unfold Query.countDocuments. apply Z.ltb_ge. lia. Qed.

Arguments ListModel.nameError : simpl never.
Arguments CardModel.titleError : simpl never.
Arguments ListModel.validateName : simpl never.
Arguments CardModel.validateTitle : simpl never.
Arguments Text.trim : simpl never.

Lemma createCard_result userId newId title listId boardId db :
  cardController.createCard userId newId title listId boardId db
  = match Query.findById BoardDoc._id boardId (boards db) with
    | None => (json 403 "Access denied" NoData, db)
    | Some board =>
        if negb (boardSchema.isMember board userId)
        then (json 403 "Access denied" NoData, db)
        else
          match CardModel.titleError title with
          | Some _ => (json 500 "Failed to create card" NoData, db)
          | None =>
              if Query.hasId CardDoc._id newId (cards db)
              then (json 500 "Failed to create card" NoData, db)
              else
                let card := CardDoc.mk newId listId boardId
                              (Query.countDocuments (inList listId) (cards db)) false
                              None in
                (json 201 "Card created successfully" (CardData card),
                 setCards (cards db ++ [card]) db)
          end
    end.
Proof.
  unfold cardController.createCard, try_catch. run_async.
  destruct (Query.findById BoardDoc._id boardId (boards db)) as [board|];
    [|reflexivity].
  destruct (boardSchema.isMember board userId); simpl; [|reflexivity].
  unfold CardModel.validateTitle.
  destruct (CardModel.titleError title); run_async; [reflexivity|].
  change (fun c : CardDoc.t => (CardDoc.listId c =? listId)%string)
    with (inList listId).
  rewrite countDocuments_nonneg.
  destruct (Query.hasId CardDoc._id newId (cards db)); reflexivity.
Qed.

Lemma createList_result userId newId name boardId db :
  listController.createList userId newId name boardId db
  = match name with
    | None =>
        (json 400 "List name must be a non-empty string and is required" NoData, db)
    | Some name =>
        if (Text.trim name =? "")%string
        then (json 400 "List name must be a non-empty string and is required" NoData,
              db)
        else
          match Query.findById BoardDoc._id boardId (boards db) with
          | None => (json 404 "Board not found" NoData, db)
          | Some board =>
              if negb (boardSchema.isMember board userId)
              then (json 403 "Access denied to this board" NoData, db)
              else
                match ListModel.nameError (Some (Text.trim name)) with
                | Some _ => (json 500 "Failed to create list" NoData, db)
                | None =>
                    if Query.hasId ListDoc._id newId (lists db)
                    then (json 500 "Failed to create list" NoData, db)
                    else
                      let list := ListDoc.mk newId boardId
                                    (Query.countDocuments (inBoard boardId) (lists db))
                                    false None in
                      (json 201 "List created successfully" (ListData list),
                       setLists (lists db ++ [list]) db)
                end
          end
    end.
Proof.
  unfold listController.createList, try_catch.
  destruct name as [name|]; [|reflexivity].
  destruct (Text.trim name =? "")%string; [reflexivity|]. run_async.
  destruct (Query.findById BoardDoc._id boardId (boards db)) as [board|] eqn:F;
    [|reflexivity].
  apply findById_some in F. destruct F as [_ ->].
  destruct (boardSchema.isMember board userId); simpl; [|reflexivity].
  unfold ListModel.validateName.
  destruct (ListModel.nameError (Some (Text.trim name))); run_async; [reflexivity|].
  change (fun l : ListDoc.t => (ListDoc.boardId l =? BoardDoc._id board)%string)
    with (inBoard (BoardDoc._id board)).
  rewrite countDocuments_nonneg.
  destruct (Query.hasId ListDoc._id newId (lists db)); reflexivity.
Qed.

(** The collections after an insertion: unchanged, or one document more. *)
Lemma step_InsertCard userId newId title listId boardId db :
  let card := CardDoc.mk newId listId boardId
                (Query.countDocuments (inList listId) (cards db)) false None in
  step (InsertCard userId newId title listId boardId) db = db
  \/ (Query.hasId CardDoc._id newId (cards db) = false
      /\ step (InsertCard userId newId title listId boardId) db
         = setCards (cards db ++ [card]) db).
Proof.
  simpl. rewrite createCard_result.
  destruct (Query.findById BoardDoc._id boardId (boards db)) as [board|]; auto.
  destruct (negb (boardSchema.isMember board userId)); auto.
  destruct (CardModel.titleError title); auto.
  destruct (Query.hasId CardDoc._id newId (cards db)); auto.
Qed.

Lemma step_InsertList userId newId name boardId db :
  let list := ListDoc.mk newId boardId
                (Query.countDocuments (inBoard boardId) (lists db)) false None in
  step (InsertList userId newId name boardId) db = db
  \/ (Query.hasId ListDoc._id newId (lists db) = false
      /\ step (InsertList userId newId name boardId) db
         = setLists (lists db ++ [list]) db).
Proof.
  simpl. rewrite createList_result.
  destruct name as [name|]; auto.
  destruct (Text.trim name =? "")%string; auto.
  destruct (Query.findById BoardDoc._id boardId (boards db)) as [board|]; auto.
  destruct (negb (boardSchema.isMember board userId)); auto.
  destruct (ListModel.nameError (Some (Text.trim name))); auto.
  destruct (Query.hasId ListDoc._id newId (lists db)); auto.
Qed.

(** ** Pointwise facts on the images of stored documents *)

Ltac image_cases c this :=
  unfold movedWithin, movedAcross, reordered, inList, inBoard, liveInList,
    liveInBoard, Positions.rotate, Positions.close, Positions.open,
    CardDoc.inc, CardDoc.setPosition, CardDoc.setListId,
    ListDoc.inc, ListDoc.setPosition in *;
  destruct c, this; simpl in *; sbool; zbool; simpl in *; subst;
  repeat split; intros;
  try reflexivity; try congruence; try lia; try (f_equal; lia).

Lemma movedWithin_id this t c : CardDoc._id (movedWithin this t c) = CardDoc._id c.
Proof. image_cases c this. Qed.

Lemma movedWithin_archived this t c :
  CardDoc.archived (movedWithin this t c) = CardDoc.archived c.
Proof. image_cases c this. Qed.

Lemma movedWithin_this this t :
  movedWithin this t this = CardDoc.setPosition t this.
Proof.
  unfold movedWithin. rewrite String.eqb_refl. destruct this; reflexivity.
Qed.

Lemma movedWithin_other this t c :
  CardDoc._id c <> CardDoc._id this ->
  CardDoc.listId (movedWithin this t c) = CardDoc.listId c
  /\ (CardDoc.listId c = CardDoc.listId this ->
      CardDoc.position c <> CardDoc.position this ->
      CardDoc.position (movedWithin this t c)
      = Positions.rotate (CardDoc.position this) t (CardDoc.position c))
  /\ (CardDoc.listId c <> CardDoc.listId this -> movedWithin this t c = c).
Proof. intros H. image_cases c this. Qed.


Lemma movedAcross_archived this newListId t c :
  CardDoc.archived (movedAcross this newListId t c) = CardDoc.archived c.
Proof. image_cases c this. Qed.

Lemma movedAcross_this this newListId t :
  movedAcross this newListId t this
  = CardDoc.setPosition t (CardDoc.setListId newListId this).
Proof. unfold movedAcross. rewrite String.eqb_refl. reflexivity. Qed.

Lemma movedAcross_other this newListId t c :
  CardDoc.listId this <> newListId ->
  CardDoc._id c <> CardDoc._id this ->
  CardDoc.listId (movedAcross this newListId t c) = CardDoc.listId c
  /\ (CardDoc.listId c = CardDoc.listId this ->
      CardDoc.position (movedAcross this newListId t c)
      = Positions.close (CardDoc.position this) (CardDoc.position c))
  /\ (CardDoc.listId c = newListId ->
      CardDoc.position (movedAcross this newListId t c)
      = Positions.open t (CardDoc.position c))
  /\ (CardDoc.listId c <> CardDoc.listId this -> CardDoc.listId c <> newListId ->
      movedAcross this newListId t c = c).
Proof. intros H1 H2. image_cases c this. Qed.

Lemma reordered_id this t l : ListDoc._id (reordered this t l) = ListDoc._id l.
Proof. image_cases l this. Qed.

Lemma reordered_fields this t l :
  ListDoc.boardId (reordered this t l) = ListDoc.boardId l
  /\ ListDoc.archived (reordered this t l) = ListDoc.archived l
  /\ ListDoc.cardLimit (reordered this t l) = ListDoc.cardLimit l.
Proof. image_cases l this. Qed.

Lemma reordered_this this t : reordered this t this = ListDoc.setPosition t this.
Proof. unfold reordered. rewrite String.eqb_refl. reflexivity. Qed.

Lemma reordered_other this t l :
  ListDoc._id l <> ListDoc._id this ->
  (ListDoc.boardId l = ListDoc.boardId this ->
   ListDoc.position l <> ListDoc.position this ->
   ListDoc.position (reordered this t l)
   = Positions.rotate (ListDoc.position this) t (ListDoc.position l))
  /\ (ListDoc.boardId l <> ListDoc.boardId this -> reordered this t l = l).
Proof. intros H. image_cases l this. Qed.

Lemma inList_true P c : inList P c = true <-> CardDoc.listId c = P.
Proof. unfold inList. apply String.eqb_eq. Qed.

Lemma inBoard_true B l : inBoard B l = true <-> ListDoc.boardId l = B.
Proof. unfold inBoard. apply String.eqb_eq. Qed.

Lemma inList_same P c d :
  CardDoc.listId c = CardDoc.listId d -> inList P c = inList P d.
Proof. unfold inList. now intros ->. Qed.

Lemma inBoard_same B l k :
  ListDoc.boardId l = ListDoc.boardId k -> inBoard B l = inBoard B k.
Proof. unfold inBoard. now intros ->. Qed.

Lemma filter_and {A} (p q : A -> bool) l :
  filter p (filter q l) = filter (fun c => p c && q c) l.
Proof.
  induction l as [|d l IH]; simpl; [reflexivity|].
  destruct (q d); simpl.
  - rewrite andb_true_r. destruct (p d); [f_equal|]; exact IH.
  - rewrite andb_false_r. exact IH.
Qed.

Lemma live_cards P db :
  noArchivedCard P db ->
  filter (liveInList P) (cards db) = filter (inList P) (cards db).
Proof.
  intros H. apply filter_ext_in. intros c Hc. unfold liveInList.
  destruct (inList P c) eqn:E; [|reflexivity].
  apply inList_true in E. now rewrite (H c Hc E).
Qed.

Lemma live_lists B db :
  noArchivedList B db ->
  filter (liveInBoard B) (lists db) = filter (inBoard B) (lists db).
Proof.
  intros H. apply filter_ext_in. intros l Hl. unfold liveInBoard.
  destruct (inBoard B l) eqn:E; [|reflexivity].
  apply inBoard_true in E. now rewrite (H l Hl E).
Qed.

(** ** The cards of a list: each operation keeps the numbering dense *)

Module CardSteps.
Import Positions PositionsFacts.

Lemma cards_insert P db card :
  cardsInv P db ->
  CardDoc.archived card = false ->
  (CardDoc.listId card = P ->
   CardDoc.position card = Query.countDocuments (inList P) (cards db)) ->
  cardsInv P (setCards (cards db ++ [card]) db).
Proof.
  intros [NA B] Ha Hp. split.
  - intros c Hc E. simpl in Hc. apply in_app_iff in Hc.
    destruct Hc as [Hc|[<-|[]]]; [now apply NA | exact Ha].
  - unfold allCardPositions. simpl.
    apply (bounded_appended CardDoc.position (inList P)); [exact B|].
    intros E. apply inList_true in E. now apply Hp.
Qed.

Lemma cards_within P db this t :
  NoDup (map CardDoc._id (cards db)) -> In this (cards db) ->
  cardsInv P db ->
  0 <= t < cardSiblingCount (CardDoc.listId this) db ->
  cardsInv P (setCards (map (movedWithin this t) (cards db)) db).
Proof.
  intros N Hthis [NA B] Ht.
  assert (L : forall c, In c (cards db) ->
                        CardDoc.listId (movedWithin this t c) = CardDoc.listId c).
  { intros c Hc.
    destruct (String.eqb_spec (CardDoc._id c) (CardDoc._id this)) as [E|E].
    - rewrite (same_id_same_doc CardDoc._id _ c this N Hc Hthis E).
      rewrite movedWithin_this. reflexivity.
    - apply (movedWithin_other this t c E). }
  split.
  - intros c' Hc' E. simpl in Hc'. apply in_map_iff in Hc'.
    destruct Hc' as (c & <- & Hc). rewrite movedWithin_archived.
    apply NA; [exact Hc|]. now rewrite <- (L c Hc).
  - unfold allCardPositions in *. simpl.
    destruct (inList P this) eqn:Pthis.
    + pose proof Pthis as EP. apply inList_true in EP.
      apply (bounded_within CardDoc._id CardDoc.position (inList P)
               (cards db) this N Hthis (movedWithin this t) t); auto.
      * unfold cardSiblingCount, Query.countDocuments in Ht.
        rewrite EP in Ht. rewrite (live_cards P db NA) in Ht. exact Ht.
      * rewrite movedWithin_this. exact Pthis.
      * rewrite movedWithin_this. reflexivity.
      * intros c Hc E. destruct (movedWithin_other this t c E) as (E1 & E2 & _).
        split; [now apply inList_same|].
        intros Pc. apply inList_true in Pc. apply E2. congruence.
    + rewrite (positions_moved_elsewhere CardDoc._id CardDoc.position (inList P)
                 (cards db) this N Hthis); auto.
      * rewrite movedWithin_this. exact Pthis.
      * intros c Hc E. destruct (movedWithin_other this t c E) as (E1 & _ & E3).
        split; [now apply inList_same|].
        intros Pc. rewrite E3; [reflexivity|].
        intros El. unfold inList in Pc, Pthis. rewrite El in Pc. congruence.
Qed.

Lemma cards_across P db this newListId t :
  NoDup (map CardDoc._id (cards db)) -> In this (cards db) ->
  cardsInv P db ->
  CardDoc.archived this = false ->
  CardDoc.listId this <> newListId ->
  (newListId = P -> 0 <= t <= Z.of_nat (length (filter (inList P) (cards db)))) ->
  cardsInv P (setCards (map (movedAcross this newListId t) (cards db)) db).
Proof.
  intros N Hthis [NA B] Ha Hne Ht. split.
  - intros c' Hc' E. simpl in Hc'. apply in_map_iff in Hc'.
    destruct Hc' as (c & <- & Hc). rewrite movedAcross_archived.
    destruct (String.eqb_spec (CardDoc._id c) (CardDoc._id this)) as [Ei|Ei].
    + now rewrite (same_id_same_doc CardDoc._id _ c this N Hc Hthis Ei).
    + apply NA; [exact Hc|].
      now rewrite <- (proj1 (movedAcross_other this newListId t c Hne Ei)).
  - unfold allCardPositions in *. simpl.
    destruct (inList P this) eqn:Pthis;
      [|destruct (inList P (CardDoc.setListId newListId this)) eqn:Pnew].
    + pose proof Pthis as EP. apply inList_true in EP.
      apply (bounded_removed CardDoc._id CardDoc.position (inList P)
               (cards db) this N Hthis (movedAcross this newListId t)); auto.
      * rewrite movedAcross_this. unfold inList. simpl.
        apply String.eqb_neq. congruence.
      * intros c Hc E.
        destruct (movedAcross_other this newListId t c Hne E) as (E1 & E2 & _).
        split; [now apply inList_same|].
        intros Pc. apply inList_true in Pc. apply E2. congruence.
    + assert (EP : newListId = P) by (apply inList_true in Pnew; exact Pnew).
      apply (bounded_added CardDoc._id CardDoc.position (inList P)
               (cards db) this N Hthis (movedAcross this newListId t) t); auto.
      * rewrite movedAcross_this. exact Pnew.
      * rewrite movedAcross_this. reflexivity.
      * intros c Hc E.
        destruct (movedAcross_other this newListId t c Hne E) as (E1 & _ & E3 & _).
        split; [now apply inList_same|].
        intros Pc. apply inList_true in Pc. apply E3. congruence.
    + rewrite (positions_moved_elsewhere CardDoc._id CardDoc.position (inList P)
                 (cards db) this N Hthis); auto.
      * rewrite movedAcross_this. exact Pnew.
      * intros c Hc E.
        destruct (movedAcross_other this newListId t c Hne E) as (E1 & _ & _ & E4).
        split; [now apply inList_same|].
        intros Pc. rewrite E4; [reflexivity| |].
        -- intros El. unfold inList in Pc, Pthis. rewrite El in Pc. congruence.
        -- intros El. unfold inList in Pc, Pnew. simpl in Pnew.
           rewrite El in Pc. congruence.
Qed.

Lemma cards_delete P db this :
  NoDup (map CardDoc._id (cards db)) -> In this (cards db) ->
  cardsInv P db ->
  cardsInv P
    (setCards
       (Query.updateMany
          (fun c => liveInList (CardDoc.listId this) c
                    && (CardDoc.position this <? CardDoc.position c))
          (CardDoc.inc (-1))
          (Query.deleteMany (fun c => (CardDoc._id c =? CardDoc._id this)%string)
             (cards db)))
       db).
Proof.
  intros N Hthis [NA B].
  set (U := fun d : CardDoc.t =>
              if liveInList (CardDoc.listId this) d
                 && (CardDoc.position this <? CardDoc.position d)
              then CardDoc.inc (-1) d else d).
  assert (UL : forall c, CardDoc.listId (U c) = CardDoc.listId c
                         /\ CardDoc.archived (U c) = CardDoc.archived c).
  { intros c. unfold U.
    destruct (liveInList (CardDoc.listId this) c
              && (CardDoc.position this <? CardDoc.position c)); auto. }
  split.
  - intros c' Hc' E. simpl in Hc'. unfold Query.updateMany in Hc'.
    apply in_map_iff in Hc'. destruct Hc' as (c & <- & Hc).
    apply filter_In in Hc. destruct Hc as [Hc _].
    fold (U c) in *. rewrite (proj2 (UL c)). apply NA; [exact Hc|].
    now rewrite <- (proj1 (UL c)).
  - unfold allCardPositions in *. simpl.
    unfold Query.updateMany, Query.deleteMany. fold U.
    destruct (inList P this) eqn:Pthis.
    + pose proof Pthis as EP. apply inList_true in EP.
      apply (bounded_deleted CardDoc._id CardDoc.position (inList P)
               (cards db) this N Hthis U); auto.
      intros c Hc E. split; [apply inList_same, UL|].
      intros Pc. apply inList_true in Pc. pose proof (NA c Hc Pc) as Ac.
      unfold U, liveInList, inList, close. rewrite Ac, Pc, EP, String.eqb_refl.
      simpl. destruct (CardDoc.position this <? CardDoc.position c); reflexivity.
    + rewrite (positions_deleted_elsewhere CardDoc._id CardDoc.position (inList P)
                 (cards db) this N Hthis); auto.
      intros c Hc E. split; [apply inList_same, UL|].
      intros Pc. unfold U, liveInList. unfold inList in *.
      destruct (String.eqb_spec (CardDoc.listId c) (CardDoc.listId this)) as [El|El];
        [|reflexivity].
      rewrite El in Pc. congruence.
Qed.

(** The cascade of [list.deleteOne()]. *)
Lemma cards_deleteList P db X :
  cardsInv P db ->
  cardsInv P
    (setCards (Query.deleteMany (fun c => (CardDoc.listId c =? X)%string) (cards db)) db).
Proof.
  intros [NA B]. split.
  - intros c Hc. simpl in Hc. apply filter_In in Hc. apply NA. tauto.
  - unfold allCardPositions in *. simpl. unfold Query.deleteMany.
    rewrite filter_and.
    destruct (String.eqb_spec P X) as [->|Hne].
    + assert (E : filter (fun c => inList X c && negb (CardDoc.listId c =? X)%string)
                    (cards db) = []).
      { generalize (cards db) as l. induction l as [|d l IH]; simpl; [reflexivity|].
        unfold inList at 1. destruct (CardDoc.listId d =? X)%string; simpl; exact IH. }
      rewrite E. apply bounded_nil.
    + assert (E : filter (fun c => inList P c && negb (CardDoc.listId c =? X)%string)
                    (cards db) = filter (inList P) (cards db)).
      { apply filter_ext. intros c. unfold inList.
        destruct (String.eqb_spec (CardDoc.listId c) P) as [->|]; [|reflexivity].
        destruct (String.eqb_spec P X); [contradiction|reflexivity]. }
      rewrite E. exact B.
Qed.
End CardSteps.

(** ** The lists of a board: each operation keeps the numbering dense *)

Module ListSteps.
Import Positions PositionsFacts.

Lemma lists_insert B db list :
  listsInv B db ->
  ListDoc.archived list = false ->
  (ListDoc.boardId list = B ->
   ListDoc.position list = Query.countDocuments (inBoard B) (lists db)) ->
  listsInv B (setLists (lists db ++ [list]) db).
Proof.
  intros [NA Bd] Ha Hp. split.
  - intros l Hl E. simpl in Hl. apply in_app_iff in Hl.
    destruct Hl as [Hl|[<-|[]]]; [now apply NA | exact Ha].
  - unfold allListPositions. simpl.
    apply (bounded_appended ListDoc.position (inBoard B)); [exact Bd|].
    intros E. apply inBoard_true in E. now apply Hp.
Qed.

Lemma lists_within B db this t :
  NoDup (map ListDoc._id (lists db)) -> In this (lists db) ->
  listsInv B db ->
  0 <= t < listSiblingCount (ListDoc.boardId this) db ->
  listsInv B (setLists (map (reordered this t) (lists db)) db).
Proof.
  intros N Hthis [NA Bd] Ht. split.
  - intros l' Hl' E. simpl in Hl'. apply in_map_iff in Hl'.
    destruct Hl' as (l & <- & Hl).
    destruct (reordered_fields this t l) as (E1 & E2 & _).
    rewrite E2. apply NA; [exact Hl | congruence].
  - unfold allListPositions in *. simpl.
    destruct (inBoard B this) eqn:Pthis.
    + pose proof Pthis as EP. apply inBoard_true in EP.
      apply (bounded_within ListDoc._id ListDoc.position (inBoard B)
               (lists db) this N Hthis (reordered this t) t); auto.
      * unfold listSiblingCount, Query.countDocuments in Ht.
        rewrite EP in Ht. rewrite (live_lists B db NA) in Ht. exact Ht.
      * rewrite reordered_this. exact Pthis.
      * rewrite reordered_this. reflexivity.
      * intros l Hl E. destruct (reordered_other this t l E) as (E2 & _).
        split; [apply inBoard_same, reordered_fields|].
        intros Pl. apply inBoard_true in Pl. apply E2. congruence.
    + rewrite (positions_moved_elsewhere ListDoc._id ListDoc.position (inBoard B)
                 (lists db) this N Hthis); auto.
      * rewrite reordered_this. exact Pthis.
      * intros l Hl E. destruct (reordered_other this t l E) as (_ & E3).
        split; [apply inBoard_same, reordered_fields|].
        intros Pl. rewrite E3; [reflexivity|].
        intros El. unfold inBoard in Pl, Pthis. rewrite El in Pl. congruence.
Qed.

Lemma lists_delete B db this :
  NoDup (map ListDoc._id (lists db)) -> In this (lists db) ->
  listsInv B db ->
  listsInv B
    (setLists
       (Query.updateMany
          (fun l => inBoard (ListDoc.boardId this) l
                    && (ListDoc.position this <? ListDoc.position l))
          (ListDoc.inc (-1))
          (Query.deleteMany (fun l => (ListDoc._id l =? ListDoc._id this)%string)
             (lists db)))
       (setCards
          (Query.deleteMany
             (fun c => (CardDoc.listId c =? ListDoc._id this)%string) (cards db))
          db)).
Proof.
  intros N Hthis [NA Bd].
  set (U := fun d : ListDoc.t =>
              if inBoard (ListDoc.boardId this) d
                 && (ListDoc.position this <? ListDoc.position d)
              then ListDoc.inc (-1) d else d).
  assert (UL : forall l, ListDoc.boardId (U l) = ListDoc.boardId l
                         /\ ListDoc.archived (U l) = ListDoc.archived l).
  { intros l. unfold U.
    destruct (inBoard (ListDoc.boardId this) l
              && (ListDoc.position this <? ListDoc.position l)); auto. }
  split.
  - intros l' Hl' E. simpl in Hl'. unfold Query.updateMany in Hl'.
    apply in_map_iff in Hl'. destruct Hl' as (l & <- & Hl).
    apply filter_In in Hl. destruct Hl as [Hl _].
    fold (U l) in *. rewrite (proj2 (UL l)). apply NA; [exact Hl|].
    now rewrite <- (proj1 (UL l)).
  - unfold allListPositions in *. simpl.
    unfold Query.updateMany, Query.deleteMany. fold U.
    destruct (inBoard B this) eqn:Pthis.
    + pose proof Pthis as EP. apply inBoard_true in EP.
      apply (bounded_deleted ListDoc._id ListDoc.position (inBoard B)
               (lists db) this N Hthis U); auto.
      intros l Hl E. split; [apply inBoard_same, UL|].
      intros Pl. apply inBoard_true in Pl.
      unfold U, inBoard, close. rewrite Pl, EP, String.eqb_refl.
      simpl. destruct (ListDoc.position this <? ListDoc.position l); reflexivity.
    + rewrite (positions_deleted_elsewhere ListDoc._id ListDoc.position (inBoard B)
                 (lists db) this N Hthis); auto.
      intros l Hl E. split; [apply inBoard_same, UL|].
      intros Pl. unfold U. unfold inBoard in *.
      destruct (String.eqb_spec (ListDoc.boardId l) (ListDoc.boardId this)) as [El|El];
        [|reflexivity].
      rewrite El in Pl. congruence.
Qed.
End ListSteps.

(** ** Which collections an operation touches *)

Lemma touchedByMove_refl this L c : touchedByMove this L c c.
Proof. unfold touchedByMove. auto 10. Qed.

Lemma touchedByMove_trans this L a b c :
  touchedByMove this L a b -> touchedByMove this L b c -> touchedByMove this L a c.
Proof.
  unfold touchedByMove.
  intros (I1 & B1 & A1 & D1 & L1 & C1) (I2 & B2 & A2 & D2 & L2 & C2).
  repeat split; try congruence.
  - destruct L2 as [L2|[L2 L2']]; [destruct L1 as [L1|[L1 L1']]|].
    + left. congruence.
    + right. split; congruence.
    + right. split; congruence.
  - destruct C2 as [->|[C2|[C2|C2]]]; [exact C1| | |].
    + destruct L1 as [L1|[L1 _]]; [right; left; congruence | auto].
    + destruct L1 as [L1|[L1 _]]; [right; right; left; congruence | auto].
    + right. right. right. congruence.
Qed.

Lemma touched_inc this L d c :
  CardDoc.listId c = CardDoc.listId this \/ CardDoc.listId c = L ->
  touchedByMove this L c (CardDoc.inc d c).
Proof.
  intros H. unfold touchedByMove. simpl.
  repeat split; auto. destruct H; auto.
Qed.

Lemma touched_modified this L L' t c :
  L' = L \/ L' = CardDoc.listId this ->
  CardDoc._id c = CardDoc._id this ->
  touchedByMove this L c
    (CardModel.modified this (CardDoc.setPosition t (CardDoc.setListId L' this)) c).
Proof.
  intros HL Hid. unfold touchedByMove, CardModel.modified. simpl.
  destruct (String.eqb_spec (CardDoc.listId this) L') as [E|E];
    destruct (CardDoc.position this =? t); simpl; repeat split; auto 10.
  - destruct HL as [-> | ->]; [auto | contradiction E; reflexivity].
  - destruct HL as [-> | ->]; [auto | contradiction E; reflexivity].
Qed.

Lemma touched_updateMany this L q u l0 l :
  Forall2 (touchedByMove this L) l0 l ->
  (forall c, q c = true -> touchedByMove this L c (u c)) ->
  Forall2 (touchedByMove this L) l0 (Query.updateMany q u l).
Proof.
  intros F H. unfold Query.updateMany.
  induction F as [|a b l0 l R F IH]; simpl; constructor; [|exact IH].
  destruct (q b) eqn:Q; [|exact R].
  apply (touchedByMove_trans this L a b); [exact R | apply H, Q].
Qed.

Lemma touched_same this L l : Forall2 (touchedByMove this L) l l.
Proof.
  induction l as [|c l IH]; constructor; [apply touchedByMove_refl | exact IH].
Qed.

Ltac touched :=
  repeat lazymatch goal with
    | |- Forall2 _ ?l ?l => apply touched_same
    | |- Forall2 _ _ (Query.updateMany _ _ _) => apply touched_updateMany
    | |- forall c, _ = true -> touchedByMove _ _ c (CardDoc.inc _ c) =>
        let c := fresh "c" in
        let Q := fresh "Q" in
        intros c Q; apply touched_inc;
        repeat (apply andb_prop in Q; destruct Q as [Q _]);
        apply String.eqb_eq in Q; auto
    | |- forall c, _ = true -> touchedByMove _ _ c (CardModel.modified _ _ c) =>
        let c := fresh "c" in
        let Q := fresh "Q" in
        intros c Q; apply touched_modified;
        [auto | apply String.eqb_eq in Q; exact Q]
    end.

(** Whatever its arguments and its outcome, a move changes no board and no
    list, and of the cards only the moved one and the positions in its two
    lists. *)
Lemma moveToList_touches now this newListId newPosition db :
  let db' := snd (cardSchema.moveToList now this newListId newPosition db) in
  boards db' = boards db /\ lists db' = lists db
  /\ Forall2 (touchedByMove this (destination this newListId)) (cards db) (cards db').
Proof.
  unfold cardSchema.moveToList, destination, CardModel.saveListIdPosition,
    CardModel.validate.
  destruct (CardDoc.listId this =? newListId)%string, newPosition as [p|];
    run_async; repeat split; try reflexivity; touched;
    repeat match goal with
      | |- context [if ?b then _ else _] => destruct b; run_async
      | |- context [match CardModel.dueDateError ?n ?c with _ => _ end] =>
          destruct (CardModel.dueDateError n c); run_async
      end;
    try reflexivity; touched.
Qed.

Lemma moveToList_lists now this newListId newPosition db :
  lists (snd (cardSchema.moveToList now this newListId newPosition db)) = lists db.
Proof. apply moveToList_touches. Qed.

Lemma touched_ids this L l l' :
  Forall2 (touchedByMove this L) l l' -> map CardDoc._id l' = map CardDoc._id l.
Proof.
  induction 1 as [|a b l l' R F IH]; simpl; [reflexivity|].
  rewrite IH. f_equal. apply R.
Qed.

Lemma touched_in this L l l' c' :
  Forall2 (touchedByMove this L) l l' -> In c' l' ->
  exists c, In c l /\ touchedByMove this L c c'.
Proof.
  induction 1 as [|a b l l' R F IH]; simpl; [contradiction|].
  intros [<-|H]; [exists a; auto|].
  destruct (IH H) as (c & Hc & Rc). exists c. auto.
Qed.

Lemma touched_filter this L (q : CardDoc.t -> bool) l l' :
  Forall2 (touchedByMove this L) l l' ->
  (forall c c', In c l -> touchedByMove this L c c' ->
                q c' = q c /\ (q c = true -> c' = c)) ->
  filter q l' = filter q l.
Proof.
  induction 1 as [|a b l l' R F IH]; intros H; simpl; [reflexivity|].
  destruct (H a b (or_introl eq_refl) R) as [E1 E2].
  rewrite E1, IH by (intros c c' Hc; apply H; right; exact Hc).
  destruct (q a) eqn:Q; [rewrite (E2 eq_refl)|]; reflexivity.
Qed.

Lemma moveToPosition_cards this t db :
  cards (snd (listSchema.moveToPosition this t db)) = cards db.
Proof.
  unfold listSchema.moveToPosition.
  destruct (t <? 0) eqn:V; [reflexivity|].
  destruct (ListDoc.position this =? t); [reflexivity|].
  destruct (ListDoc.position this <? t); run_async; rewrite V; run_async;
    match goal with |- context [if ?b then _ else _] => destruct b end;
    reflexivity.
Qed.

Lemma step_uniqueIds op db : uniqueIds db -> uniqueIds (step op db).
Proof.
  intros [Nc Nl]. destruct op as [u n ti L B|now id nl np|id|u n nm B|id t|id].
  - destruct (step_InsertCard u n ti L B db) as [->|[H ->]]; [now split|].
    split; [|exact Nl]. simpl. now apply NoDup_ids_insert.
  - unfold step. destruct (Query.findById CardDoc._id id (cards db)) as [this|];
      [|now split].
    destruct (moveToList_touches now this nl np db) as (_ & EL & FC).
    split; [|now rewrite EL].
    rewrite (touched_ids _ _ _ _ FC). exact Nc.
  - unfold step. destruct (Query.findById CardDoc._id id (cards db)) as [this|];
      [|now split].
    rewrite cardSchemaFacts.deleteOne_cards. split; [|exact Nl]. simpl.
    unfold Query.updateMany. apply NoDup_ids_map.
    + intros c. destruct (liveInList _ c && _); reflexivity.
    + now apply NoDup_ids_filter.
  - destruct (step_InsertList u n nm B db) as [->|[H ->]]; [now split|].
    split; [exact Nc|]. simpl. now apply NoDup_ids_insert.
  - unfold step. destruct (Query.findById ListDoc._id id (lists db)) as [this|] eqn:F;
      [|now split].
    apply findById_some in F. destruct F as [Hthis _].
    pose proof (hasId_in ListDoc._id this (lists db) Hthis) as Hid.
    split; [now rewrite moveToPosition_cards|].
    destruct (Z.ltb_spec t 0) as [Hneg|Hpos].
    + now rewrite listSchemaFacts.moveToPosition_negative.
    + destruct (Z.eqb_spec t (ListDoc.position this)) as [->|Hp].
      * now rewrite listSchemaFacts.moveToPosition_same_position.
      * rewrite listSchemaFacts.moveToPosition_moves by auto. simpl.
        apply NoDup_ids_map; [apply reordered_id | exact Nl].
  - unfold step. destruct (Query.findById ListDoc._id id (lists db)) as [this|];
      [|now split].
    rewrite listSchemaFacts.deleteOne_lists. split; simpl.
    + now apply NoDup_ids_filter.
    + unfold Query.updateMany. apply NoDup_ids_map.
      * intros l. destruct (inBoard _ l && _); reflexivity.
      * now apply NoDup_ids_filter.
Qed.

(** ** One admissible operation keeps a parent densely numbered *)

Lemma cardsInv_cards P db db' :
  cards db' = cards db -> cardsInv P db -> cardsInv P db'.
Proof.
  unfold cardsInv, noArchivedCard, allCardPositions. now intros ->.
Qed.

Lemma listsInv_lists B db db' :
  lists db' = lists db -> listsInv B db -> listsInv B db'.
Proof.
  unfold listsInv, noArchivedList, allListPositions. now intros ->.
Qed.

Lemma step_cardsInv P op db :
  uniqueIds db -> admissible db op = true ->
  cardsInv P db -> cardsInv P (step op db).
Proof.
  intros [Nc Nl] Adm Inv. destruct op as [u n ti L B|now id nl np|id|u n nm B|id t|id].
  - destruct (step_InsertCard u n ti L B db) as [->|[H ->]]; [exact Inv|].
    apply CardSteps.cards_insert; [exact Inv | reflexivity |]. simpl. now intros ->.
  - unfold step. unfold admissible in Adm.
    destruct (Query.findById CardDoc._id id (cards db)) as [this|] eqn:F;
      [|exact Inv].
    apply findById_some in F. destruct F as [Hthis _].
    apply andb_prop in Adm. destruct Adm as [Adm Ap].
    apply andb_prop in Adm. destruct Adm as [Adm Al].
    apply andb_prop in Adm. destruct Adm as [Ha Ad].
    apply negb_true_iff in Ha.
    assert (Hd : CardModel.dueDateError now this = None)
      by (destruct (CardModel.dueDateError now this); [discriminate | reflexivity]).
    destruct (String.eqb_spec (CardDoc.listId this) nl) as [<-|Hne].
    + destruct np as [t|].
      * apply andb_prop in Ap. destruct Ap as [H0 Ht].
        apply Z.leb_le in H0. apply Z.ltb_lt in Ht.
        destruct (Z.eqb_spec t (CardDoc.position this)) as [->|Hp].
        -- now rewrite cardSchemaFacts.moveToList_same_position.
        -- rewrite cardSchemaFacts.moveToList_within by auto.
           apply CardSteps.cards_within; auto.
      * now rewrite cardSchemaFacts.moveToList_same_list_null.
    + simpl in Al. apply negb_true_iff, String.eqb_neq in Al.
      assert (H0 : 0 <= resolvePosition (castObjectId nl) np db).
      { destruct np as [p|]; simpl.
        - apply andb_prop in Ap. destruct Ap as [H0 _]. now apply Z.leb_le.
        - unfold Query.countDocuments. lia. }
      rewrite cardSchemaFacts.moveToList_across by auto.
      apply CardSteps.cards_across; auto.
      intros <-. split; [exact H0|].
      destruct np as [p|]; simpl.
      * apply andb_prop in Ap. destruct Ap as [_ Ht]. apply Z.leb_le in Ht.
        unfold cardSiblingCount, Query.countDocuments in Ht.
        now rewrite (live_cards (castObjectId nl) db (proj1 Inv)) in Ht.
      * unfold Query.countDocuments. lia.
  - unfold step.
    destruct (Query.findById CardDoc._id id (cards db)) as [this|] eqn:F;
      [|exact Inv].
    apply findById_some in F. destruct F as [Hthis _].
    rewrite cardSchemaFacts.deleteOne_cards. now apply CardSteps.cards_delete.
  - destruct (step_InsertList u n nm B db) as [->|[H ->]]; [exact Inv|].
    now apply (cardsInv_cards P db).
  - unfold step.
    destruct (Query.findById ListDoc._id id (lists db)) as [this|]; [|exact Inv].
    apply (cardsInv_cards P db); [apply moveToPosition_cards | exact Inv].
  - unfold step.
    destruct (Query.findById ListDoc._id id (lists db)) as [this|]; [|exact Inv].
    rewrite listSchemaFacts.deleteOne_lists.
    apply (cardsInv_cards P
             (setCards (Query.deleteMany
                          (fun c => (CardDoc.listId c =? ListDoc._id this)%string)
                          (cards db)) db)); [reflexivity|].
    now apply CardSteps.cards_deleteList.
Qed.

Lemma step_listsInv B op db :
  uniqueIds db -> admissible db op = true ->
  listsInv B db -> listsInv B (step op db).
Proof.
  intros [Nc Nl] Adm Inv. destruct op as [u n ti L B'|now id nl np|id|u n nm B'|id t|id].
  - destruct (step_InsertCard u n ti L B' db) as [->|[H ->]]; [exact Inv|].
    now apply (listsInv_lists B db).
  - unfold step.
    destruct (Query.findById CardDoc._id id (cards db)) as [this|]; [|exact Inv].
    apply (listsInv_lists B db); [apply moveToList_lists | exact Inv].
  - unfold step.
    destruct (Query.findById CardDoc._id id (cards db)) as [this|]; [|exact Inv].
    rewrite cardSchemaFacts.deleteOne_cards. now apply (listsInv_lists B db).
  - destruct (step_InsertList u n nm B' db) as [->|[H ->]]; [exact Inv|].
    apply ListSteps.lists_insert; [exact Inv | reflexivity |]. simpl. now intros ->.
  - unfold step. unfold admissible in Adm.
    destruct (Query.findById ListDoc._id id (lists db)) as [this|] eqn:F;
      [|exact Inv].
    apply findById_some in F. destruct F as [Hthis _].
    pose proof (hasId_in ListDoc._id this (lists db) Hthis) as Hid.
    apply andb_prop in Adm. destruct Adm as [H0 Ht].
    apply Z.leb_le in H0. apply Z.ltb_lt in Ht.
    destruct (Z.eqb_spec t (ListDoc.position this)) as [->|Hp].
    + now rewrite listSchemaFacts.moveToPosition_same_position.
    + rewrite listSchemaFacts.moveToPosition_moves by auto.
      apply ListSteps.lists_within; auto.
  - unfold step.
    destruct (Query.findById ListDoc._id id (lists db)) as [this|] eqn:F;
      [|exact Inv].
    apply findById_some in F. destruct F as [Hthis _].
    rewrite listSchemaFacts.deleteOne_lists. now apply ListSteps.lists_delete.
Qed.

Lemma trace_invariants ops :
  forall db, uniqueIds db -> admissibleSeq db ops = true ->
  forall db', In db' (trace ops db) ->
    (forall P, cardsInv P db -> cardsInv P db')
    /\ (forall B, listsInv B db -> listsInv B db').
Proof.
  induction ops as [|op ops IH]; simpl; intros db U Adm db' Hin; [tauto|].
  apply andb_prop in Adm. destruct Adm as [A1 A2].
  destruct Hin as [<-|Hin].
  - split; intros X Inv; [now apply step_cardsInv | now apply step_listsInv].
  - destruct (IH (step op db) (step_uniqueIds op db U) A2 db' Hin) as [IC IL].
    split; intros X Inv.
    + apply IC. now apply step_cardsInv.
    + apply IL. now apply step_listsInv.
Qed.

Lemma cardsInv_I1 P db : cardsInv P db -> I1_cards P db.
Proof.
  intros [NA B]. unfold I1_cards, cardPositions.
  rewrite (live_cards P db NA). now apply PositionsFacts.bounded_dense.
Qed.

Lemma listsInv_I1 B db : listsInv B db -> I1_lists B db.
Proof.
  intros [NA Bd]. unfold I1_lists, listPositions.
  rewrite (live_lists B db NA). now apply PositionsFacts.bounded_dense.
Qed.

Lemma cardsInv_empty P db :
  (forall c, In c (cards db) -> CardDoc.listId c <> P) -> cardsInv P db.
Proof.
  intros H. split.
  - intros c Hc E. now apply H in Hc.
  - unfold allCardPositions.
    assert (E : filter (inList P) (cards db) = []).
    { revert H. generalize (cards db) as l. induction l as [|d l IH]; simpl;
        [reflexivity|]. intros H.
      destruct (inList P d) eqn:Pd.
      - apply inList_true in Pd. exfalso. apply (H d); auto.
      - apply IH. intros c Hc. apply H. now right. }
    rewrite E. apply PositionsFacts.bounded_nil.
Qed.

Lemma listsInv_empty B db :
  (forall l, In l (lists db) -> ListDoc.boardId l <> B) -> listsInv B db.
Proof.
  intros H. split.
  - intros l Hl E. now apply H in Hl.
  - unfold allListPositions.
    assert (E : filter (inBoard B) (lists db) = []).
    { revert H. generalize (lists db) as k. induction k as [|d k IH]; simpl;
        [reflexivity|]. intros H.
      destruct (inBoard B d) eqn:Pd.
      - apply inBoard_true in Pd. exfalso. apply (H d); auto.
      - apply IH. intros l Hl. apply H. now right. }
    rewrite E. apply PositionsFacts.bounded_nil.
Qed.

(** ** The moves within a parent, for any non-negative target *)

Lemma moveToList_within_effect now this t db :
  NoDup (map CardDoc._id (cards db)) -> In this (cards db) -> 0 <= t ->
  CardModel.dueDateError now this = None ->
  exists db',
    cardSchema.moveToList now this (CardDoc.listId this) (Some t) db
    = (inr (CardDoc.setPosition t this), db')
    /\ boards db' = boards db /\ lists db' = lists db
    /\ CardsShiftedWithin this t (cards db) (cards db').
Proof.
  intros N Hthis Ht Hd.
  destruct (Z.eqb_spec t (CardDoc.position this)) as [->|Hp].
  - exists db. rewrite cardSchemaFacts.moveToList_same_position.
    repeat split; [destruct this; reflexivity|].
    exists (fun c => c). repeat split; intros; try lia.
    + symmetry. apply map_id.
    + destruct this; reflexivity.
  - exists (setCards (map (movedWithin this t) (cards db)) db).
    rewrite cardSchemaFacts.moveToList_within by assumption.
    repeat split. exists (movedWithin this t). split; [reflexivity|].
    split; [apply movedWithin_this|].
    intros c _ Hc. image_cases c this; tauto.
Qed.

Lemma moveToPosition_effect this t db :
  NoDup (map ListDoc._id (lists db)) -> In this (lists db) -> 0 <= t ->
  exists db',
    listSchema.moveToPosition this t db = (inr (ListDoc.setPosition t this), db')
    /\ boards db' = boards db /\ cards db' = cards db
    /\ ListsShiftedWithin this t (lists db) (lists db').
Proof.
  intros N Hthis Ht.
  destruct (Z.eqb_spec t (ListDoc.position this)) as [->|Hp].
  - exists db. rewrite listSchemaFacts.moveToPosition_same_position by exact Ht.
    repeat split; [destruct this; reflexivity|].
    exists (fun l => l). repeat split; intros; try lia.
    + symmetry. apply map_id.
    + destruct this; reflexivity.
  - exists (setLists (map (reordered this t) (lists db)) db).
    rewrite listSchemaFacts.moveToPosition_moves
      by (first [apply (hasId_in ListDoc._id); exact Hthis | assumption]).
    repeat split. exists (reordered this t). split; [reflexivity|].
    split; [apply reordered_this|].
    intros l _ Hl. image_cases l this; tauto.
Qed.

(** * The claims *)

Lemma not_dense_missing_zero p ps : 0 < p -> (forall z, In z (p :: ps) -> 0 < z) ->
  ~ Positions.dense (p :: ps).
Proof.
  intros Hp H [_ D]. assert (I : In 0 (p :: ps)) by (apply D; simpl; lia).
  apply H in I. lia.
Qed.

(** The board whose only list is archived is what creating a list and
    archiving it leaves of a board without lists. *)
Lemma dbArchivedList_reached :
  snd (listController.archiveList "alice" "l0" true
         (snd (listController.createList "alice" "l0" (Some "Backlog") "board1"
                 Samples.dbEmptyBoard)))
  = Samples.dbArchivedList.
Proof. reflexivity. Qed.

(** C1 (as stated, fails). A parent whose non-archived sibling set is empty
    does not stay densely numbered under every sequence of operations:
    (a) a board whose only list is archived gives a new list position 1;
    (b) a move to another list with a target beyond its count leaves a gap;
    (c) an archived card moved into an empty list is counted by the next
    insert, which gives the new card position 1;
    (d) a card whose due date has passed in the meantime is not saved by
    the move that has already shifted its sibling;
    (e) a move whose destination is written in another letter case than
    the id of the card's own list shifts the cards of that list as if it
    were another one. *)
Lemma C1_counterexample :
  (listPositions "board1" Samples.dbArchivedList = []
   /\ listPositions "board1"
        (step (InsertList "alice" "l1" (Some "Doing") "board1") Samples.dbArchivedList) = [1]
   /\ ~ I1_lists "board1"
        (step (InsertList "alice" "l1" (Some "Doing") "board1") Samples.dbArchivedList))
  /\ (cardPositions "lb" Samples.dbTwoLists = []
      /\ cardPositions "lb" (step (MoveCard 0 "a0" "lb" (Some 5)) Samples.dbTwoLists) = [5]
      /\ ~ I1_cards "lb" (step (MoveCard 0 "a0" "lb" (Some 5)) Samples.dbTwoLists))
  /\ (cardPositions "lb" Samples.dbArchivedCard = []
      /\ cardPositions "lb"
           (step (InsertCard "alice" "c1" (Some "Write tests") "lb" "board1")
              (step (MoveCard 0 "x" "lb" None) Samples.dbArchivedCard)) = [1]
      /\ ~ I1_cards "lb"
           (step (InsertCard "alice" "c1" (Some "Write tests") "lb" "board1")
              (step (MoveCard 0 "x" "lb" None) Samples.dbArchivedCard)))
  /\ (cardPositions "lb" Samples.dbTwoListsDue = []
      /\ cardPositions "lb"
           (step (MoveCard 50 "a1" "lb" None)
              (step (MoveCard 50 "a0" "lb" None) Samples.dbTwoListsDue)) = [0; 1]
      /\ cardPositions "lb"
           (step (MoveCard 200 "a0" "lb" (Some 1))
              (step (MoveCard 50 "a1" "lb" None)
                 (step (MoveCard 50 "a0" "lb" None) Samples.dbTwoListsDue))) = [0; 0]
      /\ ~ I1_cards "lb"
           (step (MoveCard 200 "a0" "lb" (Some 1))
              (step (MoveCard 50 "a1" "lb" None)
                 (step (MoveCard 50 "a0" "lb" None) Samples.dbTwoListsDue))))
  /\ (cardPositions "lb" Samples.dbTwoLists = []
      /\ castObjectId "lB" = "lb"
      /\ cardPositions "lb"
           (step (MoveCard 0 "a1" "lb" None)
              (step (MoveCard 0 "a0" "lb" None) Samples.dbTwoLists)) = [0; 1]
      /\ cardPositions "lb"
           (step (MoveCard 0 "a0" "lB" (Some 0))
              (step (MoveCard 0 "a1" "lb" None)
                 (step (MoveCard 0 "a0" "lb" None) Samples.dbTwoLists))) = [1; 1]
      /\ ~ I1_cards "lb"
           (step (MoveCard 0 "a0" "lB" (Some 0))
              (step (MoveCard 0 "a1" "lb" None)
                 (step (MoveCard 0 "a0" "lb" None) Samples.dbTwoLists)))).
Proof.
  repeat split; try reflexivity.
  - unfold I1_lists.
    change (listPositions "board1"
              (step (InsertList "alice" "l1" (Some "Doing") "board1") Samples.dbArchivedList))
      with [1].
    apply not_dense_missing_zero; [lia|]. intros z [<-|[]]. lia.
  - unfold I1_cards.
    change (cardPositions "lb" (step (MoveCard 0 "a0" "lb" (Some 5)) Samples.dbTwoLists))
      with [5].
    apply not_dense_missing_zero; [lia|]. intros z [<-|[]]. lia.
  - unfold I1_cards.
    change (cardPositions "lb"
              (step (InsertCard "alice" "c1" (Some "Write tests") "lb" "board1")
                 (step (MoveCard 0 "x" "lb" None) Samples.dbArchivedCard)))
      with [1].
    apply not_dense_missing_zero; [lia|]. intros z [<-|[]]. lia.
  - unfold I1_cards.
    change (cardPositions "lb"
              (step (MoveCard 200 "a0" "lb" (Some 1))
                 (step (MoveCard 50 "a1" "lb" None)
                    (step (MoveCard 50 "a0" "lb" None) Samples.dbTwoListsDue))))
      with [0; 0].
    intros [N _]. inversion N as [|? ? H _]. apply H. now left.
  - unfold I1_cards.
    change (cardPositions "lb"
              (step (MoveCard 0 "a0" "lB" (Some 0))
                 (step (MoveCard 0 "a1" "lb" None)
                    (step (MoveCard 0 "a0" "lb" None) Samples.dbTwoLists))))
      with [1; 1].
    intros [N _]. inversion N as [|? ? H _]. apply H. now left.
Qed.

(** C1 (amended). For every parent that starts with no item at all
    (archived ones included), after each operation of any sequence of
    inserts, moves within a parent (target below the sibling count), moves
    of a card to another list (target absent or at most the sibling count
    there) and deletes, the positions of the parent's non-archived items
    are exactly {0, ..., n-1}, n their number: no duplicates and no gaps.
    The card moves are those of a non-archived card whose due date, if it
    has one, has not passed, to a list named by the string of its id or,
    in another spelling, to a list other than the card's own. It holds
    for the cards of a list and for the lists of a board. *)
Theorem C1_I1_preserved_from_empty (db0 : DB) (ops : list Op) :
  uniqueIds db0 ->
  admissibleSeq db0 ops = true ->
  forall db, In db (trace ops db0) ->
    (forall P, (forall c, In c (cards db0) -> CardDoc.listId c <> P) ->
               I1_cards P db)
    /\ (forall B, (forall l, In l (lists db0) -> ListDoc.boardId l <> B) ->
                  I1_lists B db).
Proof.
  intros U Adm db Hin.
  destruct (trace_invariants ops db0 U Adm db Hin) as [IC IL]. split.
  - intros P HP. apply cardsInv_I1, IC, cardsInv_empty, HP.
  - intros B HB. apply listsInv_I1, IL, listsInv_empty, HB.
Qed.

Lemma C1_I1_preserved_from_empty_witness :
  I1_cards "lb"
    (step (DeleteCard "a1")
       (step (MoveCard 60 "a0" "lB" (Some 0))
          (step (MoveCard 50 "a1" "lb" None)
             (step (InsertCard "alice" "b0" (Some "Write tests") "lb" "board1")
                Samples.dbTwoListsDue)))).
Proof.
  refine (proj1 (C1_I1_preserved_from_empty Samples.dbTwoListsDue
                   [InsertCard "alice" "b0" (Some "Write tests") "lb" "board1";
                    MoveCard 50 "a1" "lb" None; MoveCard 60 "a0" "lB" (Some 0);
                    DeleteCard "a1"]
                   _ _ _ _) "lb" _).
  - split; simpl; repeat constructor; simpl; intuition discriminate.
  - reflexivity.
  - simpl. right. right. right. left. reflexivity.
  - simpl. intros c [<-|[<-|[]]]; simpl; discriminate.
Defined.




Lemma I1_cards_bounded P db :
  I1_cards P db <-> Positions.bounded (cardPositions P db).
Proof.
  split; [apply PositionsFacts.dense_bounded | apply PositionsFacts.bounded_dense].
Qed.

Lemma liveInList_same P c d :
  CardDoc.listId c = CardDoc.listId d -> CardDoc.archived c = CardDoc.archived d ->
  liveInList P c = liveInList P d.
Proof. unfold liveInList, inList. now intros -> ->. Qed.

(** C3 (the code departs from the claim). [moveToList] counts and shifts
    the archived cards with the others, which the hooks of the same model
    do not ([pre('save')] and [post('deleteOne')] filter
    [archived: false]). (a) With only an archived card in the destination,
    whose sibling count is 0, a null target appends at 1. (b) Moving the
    archived card x away from the list of the cards a@0 and b@1 decrements
    b: the cards that stay, densely numbered before, are both at 0. *)
Theorem C3_moveToList_counts_archived :
  (cardSiblingCount "lb" Samples.dbArchivedDest = 0
   /\ fst (cardSchema.moveToList 0 Samples.a0 "lb" None Samples.dbArchivedDest)
      = inr (CardDoc.mk "a0" "lb" "board1" 1 false None))
  /\ (cardPositions "la" Samples.dbArchivedSource = [0; 1]
      /\ I1_cards "la" Samples.dbArchivedSource
      /\ cardPositions "la"
           (snd (cardSchema.moveToList 0 Samples.x "lb" (Some 0) Samples.dbArchivedSource))
         = [0; 0]
      /\ ~ I1_cards "la"
           (snd (cardSchema.moveToList 0 Samples.x "lb" (Some 0)
                   Samples.dbArchivedSource))).
Proof.
  split; [split; reflexivity|].
  split; [reflexivity|]. split; [|split; [reflexivity|]].
  - apply PositionsFacts.bounded_dense. split.
    + repeat constructor; simpl; intuition discriminate.
    + simpl. intros z [<-|[<-|[]]]; lia.
  - intros [N _].
    change (cardPositions "la"
              (snd (cardSchema.moveToList 0 Samples.x "lb" (Some 0)
                      Samples.dbArchivedSource)))
      with [0; 0] in N.
    inversion N as [|? ? H _]. apply H. now left.
Qed.



Lemma cardsInv_of_I1 P db : noArchivedCard P db -> I1_cards P db -> cardsInv P db.
Proof.
  intros NA I. split; [exact NA|]. apply I1_cards_bounded in I.
  unfold cardPositions in I. rewrite (live_cards P db NA) in I. exact I.
Qed.

Lemma listsInv_of_I1 B db : noArchivedList B db -> I1_lists B db -> listsInv B db.
Proof.
  intros NA I. split; [exact NA|]. apply PositionsFacts.dense_bounded in I.
  unfold listPositions in I. rewrite (live_lists B db NA) in I. exact I.
Qed.

(** C4 (as stated, fails). With an archived item in the parent the new item
    is not placed at the sibling count: (a) a board whose only list is
    archived has sibling count 0 and [createList] assigns position 1;
    (b) a list whose only card is archived has sibling count 0 and
    [createCard] assigns position 1. *)
Lemma C4_counterexample :
  (listSiblingCount "board1" Samples.dbArchivedList = 0
   /\ fst (listController.createList "alice" "l1" (Some "Doing") "board1"
             Samples.dbArchivedList)
      = json 201 "List created successfully"
          (ListData (ListDoc.mk "l1" "board1" 1 false None)))
  /\ (cardSiblingCount "lb" Samples.dbArchivedDest = 0
      /\ fst (cardController.createCard "alice" "b1" (Some "Write tests") "lb" "board1"
                Samples.dbArchivedDest)
         = json 201 "Card created successfully"
             (CardData (CardDoc.mk "b1" "lb" "board1" 1 false None))).
Proof. repeat split. Qed.

(** C4 (amended). [createList] (a valid name, by a member of the board,
    with a fresh id) assigns the new list the number of all the lists of
    the board, archived ones included; it is [siblingCount] when the board
    has no archived list. [createCard] (a valid title, by a member of the
    board, with a fresh id) into a list that holds no archived card assigns
    [siblingCount(listId)]. In both cases, when the parent has no archived
    item and its items occupy 0..n-1, the new item has position n and the
    items occupy 0..n afterwards. *)
Theorem C4_insert_at_sibling_count :
  (forall userId newId name boardId db board,
      (Text.trim name =? "")%string = false ->
      ListModel.nameError (Some (Text.trim name)) = None ->
      Query.findById BoardDoc._id boardId (boards db) = Some board ->
      boardSchema.isMember board userId = true ->
      Query.hasId ListDoc._id newId (lists db) = false ->
      let n := Z.of_nat (length (filter (inBoard boardId) (lists db))) in
      let list := ListDoc.mk newId boardId n false None in
      let db' := setLists (lists db ++ [list]) db in
      listController.createList userId newId (Some name) boardId db
      = (json 201 "List created successfully" (ListData list), db')
      /\ (noArchivedList boardId db ->
          n = listSiblingCount boardId db
          /\ (I1_lists boardId db ->
              n = Z.of_nat (length (listPositions boardId db))
              /\ I1_lists boardId db')))
  /\ (forall userId newId title listId boardId db board,
         CardModel.titleError title = None ->
         Query.findById BoardDoc._id boardId (boards db) = Some board ->
         boardSchema.isMember board userId = true ->
         Query.hasId CardDoc._id newId (cards db) = false ->
         noArchivedCard listId db ->
         let n := cardSiblingCount listId db in
         let card := CardDoc.mk newId listId boardId n false None in
         let db' := setCards (cards db ++ [card]) db in
         cardController.createCard userId newId title listId boardId db
         = (json 201 "Card created successfully" (CardData card), db')
         /\ (I1_cards listId db ->
             n = Z.of_nat (length (cardPositions listId db))
             /\ I1_cards listId db')).
Proof.
  split.
  - intros userId newId name boardId db board T V F M H n list db'.
    rewrite createList_result, T, F, M, V, H. simpl. split; [reflexivity|].
    intros NA.
    assert (E : n = listSiblingCount boardId db).
    { unfold n, listSiblingCount, Query.countDocuments.
      now rewrite (live_lists boardId db NA). }
    split; [exact E|]. intros I. split.
    + rewrite E. unfold listSiblingCount, Query.countDocuments, listPositions.
      now rewrite length_map.
    + apply listsInv_I1. apply ListSteps.lists_insert;
        [now apply listsInv_of_I1 | reflexivity | intros _; reflexivity].
  - intros userId newId title listId boardId db board V F M H NA n card db'.
    assert (E : n = Query.countDocuments (inList listId) (cards db)).
    { unfold n, cardSiblingCount, Query.countDocuments.
      now rewrite (live_cards listId db NA). }
    rewrite createCard_result, F, M, V, H. simpl. split.
    + unfold db', card. now rewrite E.
    + intros I. split.
      * unfold n, cardSiblingCount, Query.countDocuments, cardPositions.
        now rewrite length_map.
      * apply cardsInv_I1. apply CardSteps.cards_insert;
          [now apply cardsInv_of_I1 | reflexivity | intros _; exact E].
Qed.

Lemma C4_insert_at_sibling_count_witness :
  cardController.createCard "alice" "b0" (Some "Write tests") "lb" "board1" Samples.dbTwoLists
  = (json 201 "Card created successfully"
       (CardData (CardDoc.mk "b0" "lb" "board1" 0 false None)),
     setCards (cards Samples.dbTwoLists ++ [CardDoc.mk "b0" "lb" "board1" 0 false None])
       Samples.dbTwoLists).
Proof.
  refine (proj1 (proj2 C4_insert_at_sibling_count "alice" "b0" (Some "Write tests")
                   "lb" "board1" Samples.dbTwoLists Samples.board1 _ _ _ _ _)).
  - reflexivity.
  - reflexivity.
  - reflexivity.
  - reflexivity.
  - intros c [<-|[<-|[]]]; simpl; discriminate.
Defined.

(** C5 (as stated, fails). A target at or beyond the sibling count is not
    rejected: among four lists (four cards), the request to move the first
    one to position 7 succeeds, decrements the three others and stores
    position 7. *)
Lemma C5_counterexample :
  (listSiblingCount "board1" Samples.dbFourLists = 4
   /\ routes.put_list_position "alice" "L0"
        {| validation.reorder_position := Some 7 |} Samples.dbFourLists
      = (json 200 "List reordered successfully"
           (ListData (ListDoc.mk "L0" "board1" 7 false None)),
         mkDB [Samples.board1]
              [ListDoc.mk "L0" "board1" 7 false None;
               ListDoc.mk "L1" "board1" 0 false None;
               ListDoc.mk "L2" "board1" 1 false None;
               ListDoc.mk "L3" "board1" 2 false None]
              []))
  /\ (cardSiblingCount "la" Samples.dbFourCards = 4
      /\ routes.put_card_position 0 "alice" "a0"
           {| validation.move_listId := Some "la"; validation.move_position := Some 7 |}
           Samples.dbFourCards
         = (json 200 "Card moved successfully"
              (CardData (CardDoc.mk "a0" "la" "board1" 7 false None)),
            mkDB [Samples.board1] [ListDoc.mk "la" "board1" 0 false None]
                 [CardDoc.mk "a0" "la" "board1" 7 false None;
                  CardDoc.mk "a1" "la" "board1" 0 false None;
                  CardDoc.mk "a2" "la" "board1" 1 false None;
                  CardDoc.mk "a3" "la" "board1" 2 false None])).
Proof. repeat split. Qed.

(** C5 (amended). For a move within a parent, a negative (or absent) target
    is rejected with no mutation: the two routes answer 400 "Validation
    failed", and [moveToPosition] itself throws "Position cannot be
    negative" before any write. A target at or beyond the sibling count is
    not rejected: the move succeeds (that of a card, when its due date, if
    it has one, has not passed), the siblings after the moved item up to
    the target are each decremented by one, and the moved item is stored
    at the target. *)
Theorem C5_out_of_range_target :
  (forall userId id body db,
      match validation.reorder_position body with
      | Some p => p < 0
      | None => True
      end ->
      routes.put_list_position userId id body db
      = (json 400 "Validation failed" NoData, db))
  /\ (forall now userId id body db,
         match validation.move_position body with
         | Some p => p < 0
         | None => True
         end ->
         routes.put_card_position now userId id body db
         = (json 400 "Validation failed" NoData, db))
  /\ (forall this t db,
         t < 0 ->
         listSchema.moveToPosition this t db
         = (inl (Error "Position cannot be negative"), db))
  /\ (forall db this t,
         NoDup (map ListDoc._id (lists db)) -> In this (lists db) ->
         listSiblingCount (ListDoc.boardId this) db <= t ->
         exists db',
           listSchema.moveToPosition this t db
           = (inr (ListDoc.setPosition t this), db')
           /\ ListsShiftedWithin this t (lists db) (lists db'))
  /\ (forall now db this t,
         NoDup (map CardDoc._id (cards db)) -> In this (cards db) ->
         cardSiblingCount (CardDoc.listId this) db <= t ->
         CardModel.dueDateError now this = None ->
         exists db',
           cardSchema.moveToList now this (CardDoc.listId this) (Some t) db
           = (inr (CardDoc.setPosition t this), db')
           /\ CardsShiftedWithin this t (cards db) (cards db')).
Proof.
  repeat split.
  - intros userId id [[p|]] db H; simpl in H; unfold routes.put_list_position,
      validation.listValidationSchemas_reorder; simpl; [|reflexivity].
    destruct (Z.leb_spec 0 p); [lia | reflexivity].
  - intros now userId id [l [p|]] db H; simpl in H; unfold routes.put_card_position,
      validation.cardValidationSchemas_move; simpl.
    + destruct l; [|reflexivity]. destruct (Z.leb_spec 0 p); [lia | reflexivity].
    + destruct l; reflexivity.
  - intros this t db H. now apply listSchemaFacts.moveToPosition_negative.
  - intros db this t N Hthis Ht.
    assert (H0 : 0 <= t).
    { unfold listSiblingCount, Query.countDocuments in Ht. lia. }
    destruct (moveToPosition_effect this t db N Hthis H0) as (db' & E & _ & _ & S).
    exists db'. auto.
  - intros now db this t N Hthis Ht Hd.
    assert (H0 : 0 <= t).
    { unfold cardSiblingCount, Query.countDocuments in Ht. lia. }
    destruct (moveToList_within_effect now this t db N Hthis H0 Hd)
      as (db' & E & _ & _ & S).
    exists db'. auto.
Qed.

Lemma C5_out_of_range_target_witness :
  routes.put_list_position "alice" "L0"
    {| validation.reorder_position := Some (-1) |} Samples.dbFourLists
  = (json 400 "Validation failed" NoData, Samples.dbFourLists).
Proof.
  refine (proj1 C5_out_of_range_target "alice" "L0"
            {| validation.reorder_position := Some (-1) |} Samples.dbFourLists _).
  reflexivity.
Defined.

(** C6 (as stated, fails). An archived sibling inside the shifted range is
    shifted like the others: moving list K0 from 0 to 2 takes the archived
    list K1 from position 1 to 0, and moving card c0 from 0 to 2 takes the
    archived card c1 from position 1 to 0. *)
Lemma C6_counterexample :
  (In Samples.K1 (lists Samples.dbArchivedMiddle)
   /\ ListDoc.archived Samples.K1 = true
   /\ lists (snd (listSchema.moveToPosition Samples.K0 2 Samples.dbArchivedMiddle))
      = [ListDoc.mk "K0" "board1" 2 false None;
         ListDoc.mk "K1" "board1" 0 true None;
         ListDoc.mk "K2" "board1" 1 false None])
  /\ (In Samples.c1 (cards Samples.dbArchivedMiddle)
      /\ CardDoc.archived Samples.c1 = true
      /\ cards (snd (cardSchema.moveToList 0 Samples.c0 "la" (Some 2)
                       Samples.dbArchivedMiddle))
         = [CardDoc.mk "c0" "la" "board1" 2 false None;
            CardDoc.mk "c1" "la" "board1" 0 true None;
            CardDoc.mk "c2" "la" "board1" 1 false None]).
Proof. repeat split; simpl; auto. Qed.

(** C6 (amended). Creating a card or a list changes no stored item.
    Deleting a card changes no archived card: the compaction shifts only
    the non-archived cards of the list. Reordering or deleting a list
    shifts every list of the board in the affected range by one, archived
    lists included. *)
Theorem C6_archived_siblings :
  (forall userId newId title listId boardId db,
      let db' := snd (cardController.createCard userId newId title listId boardId db) in
      lists db' = lists db /\ forall c, In c (cards db) -> In c (cards db'))
  /\ (forall userId newId name boardId db,
         let db' := snd (listController.createList userId newId name boardId db) in
         cards db' = cards db /\ forall l, In l (lists db) -> In l (lists db'))
  /\ (forall this db,
         let db' := snd (cardSchema.deleteOne this db) in
         lists db' = lists db
         /\ forall c, In c (cards db) -> CardDoc.archived c = true ->
                      CardDoc._id c <> CardDoc._id this -> In c (cards db'))
  /\ (forall this t db l,
         Query.hasId ListDoc._id (ListDoc._id this) (lists db) = true ->
         0 <= t -> In l (lists db) ->
         ListDoc._id l <> ListDoc._id this ->
         ListDoc.boardId l = ListDoc.boardId this ->
         (ListDoc.position this < ListDoc.position l <= t ->
          In (ListDoc.inc (-1) l) (lists (snd (listSchema.moveToPosition this t db))))
         /\ (t <= ListDoc.position l < ListDoc.position this ->
             In (ListDoc.inc 1 l) (lists (snd (listSchema.moveToPosition this t db)))))
  /\ (forall this db l,
         In l (lists db) ->
         ListDoc._id l <> ListDoc._id this ->
         ListDoc.boardId l = ListDoc.boardId this ->
         ListDoc.position this < ListDoc.position l ->
         In (ListDoc.inc (-1) l) (lists (snd (listSchema.deleteOne this db)))).
Proof.
  split; [|split; [|split; [|split]]].
  - intros userId newId title listId boardId db db'. unfold db'.
    rewrite createCard_result.
    destruct (Query.findById BoardDoc._id boardId (boards db)) as [board|]; [|auto].
    destruct (negb (boardSchema.isMember board userId)); [auto|].
    destruct (CardModel.titleError title); [auto|].
    destruct (Query.hasId CardDoc._id newId (cards db)); [auto|].
    simpl. split; [reflexivity|]. intros c Hc. apply in_app_iff. now left.
  - intros userId newId name boardId db db'. unfold db'.
    rewrite createList_result.
    destruct name as [name|]; [|auto].
    destruct (Text.trim name =? "")%string; [auto|].
    destruct (Query.findById BoardDoc._id boardId (boards db)) as [board|]; [|auto].
    destruct (negb (boardSchema.isMember board userId)); [auto|].
    destruct (ListModel.nameError (Some (Text.trim name))); [auto|].
    destruct (Query.hasId ListDoc._id newId (lists db)); [auto|].
    simpl. split; [reflexivity|]. intros l Hl. apply in_app_iff. now left.
  - intros this db db'. unfold db'. rewrite cardSchemaFacts.deleteOne_cards.
    simpl. split; [reflexivity|]. intros c Hc Ha Hid.
    unfold Query.updateMany, Query.deleteMany. apply in_map_iff.
    exists c. split.
    + unfold liveInList. rewrite Ha. simpl. now rewrite andb_false_r.
    + apply filter_In. split; [exact Hc|].
      apply negb_true_iff. now apply String.eqb_neq.
  - intros this t db l Hid Ht Hl Hne Hb. split; intros Hr.
    + assert (Hp : t <> ListDoc.position this) by lia.
      rewrite listSchemaFacts.moveToPosition_moves by assumption. simpl.
      apply in_map_iff. exists l. split; [|exact Hl].
      clear Hl Hid. image_cases l this.
    + assert (Hp : t <> ListDoc.position this) by lia.
      rewrite listSchemaFacts.moveToPosition_moves by assumption. simpl.
      apply in_map_iff. exists l. split; [|exact Hl].
      clear Hl Hid. image_cases l this.
  - intros this db l Hl Hne Hb Hp. rewrite listSchemaFacts.deleteOne_lists. simpl.
    unfold Query.updateMany, Query.deleteMany. apply in_map_iff.
    exists l. split.
    + unfold inBoard. rewrite Hb, String.eqb_refl.
      destruct (Z.ltb_spec (ListDoc.position this) (ListDoc.position l));
        [reflexivity | lia].
    + apply filter_In. split; [exact Hl|].
      apply negb_true_iff. now apply String.eqb_neq.
Qed.

Lemma C6_archived_siblings_witness :
  In (ListDoc.inc (-1) Samples.K1)
     (lists (snd (listSchema.deleteOne Samples.K0 Samples.dbArchivedMiddle))).
Proof.
  refine (proj2 (proj2 (proj2 (proj2 C6_archived_siblings)))
            Samples.K0 Samples.dbArchivedMiddle Samples.K1 _ _ _ _).
  - simpl. right. left. reflexivity.
  - simpl. discriminate.
  - reflexivity.
  - reflexivity.
Defined.

(** C7 (the code departs from the claim). List B has a card limit of 1 and
    holds one card: its limit is reached, and the move of a card into it is
    refused with no mutation, yet [createCard] into it succeeds and leaves
    two non-archived cards in the list. *)
Theorem C7_createCard_ignores_cardLimit :
  ListDoc.cardLimit Samples.listB = Some 1
  /\ cardSiblingCount "lb" Samples.dbFullList = 1
  /\ listSchema.isCardLimitExceeded Samples.listB Samples.dbFullList
     = (inr true, Samples.dbFullList)
  /\ cardController.moveCard 0 "alice" "a0" "lb" (Some 0) Samples.dbFullList
     = (json 400 "Target list has reached its card limit" NoData, Samples.dbFullList)
  /\ fst (cardController.createCard "alice" "b1" (Some "Write tests") "lb" "board1"
            Samples.dbFullList)
     = json 201 "Card created successfully"
         (CardData (CardDoc.mk "b1" "lb" "board1" 1 false None))
  /\ cardSiblingCount "lb"
       (snd (cardController.createCard "alice" "b1" (Some "Write tests") "lb" "board1"
               Samples.dbFullList))
     = 2.
Proof. repeat split. Qed.

(** ** Requests that do not succeed *)

Lemma moveToPosition_succeeds this p db :
  In this (lists db) -> 0 <= p ->
  exists r, fst (listSchema.moveToPosition this p db) = inr r.
Proof.
  intros Hthis Hp.
  pose proof (hasId_in ListDoc._id this (lists db) Hthis) as Hid.
  destruct (Z.eqb_spec p (ListDoc.position this)) as [->|Hq].
  - rewrite listSchemaFacts.moveToPosition_same_position by assumption.
    now exists this.
  - rewrite listSchemaFacts.moveToPosition_moves by assumption. now eexists.
Qed.

Lemma isCardLimitExceeded_reads this db :
  exists b, listSchema.isCardLimitExceeded this db = (inr b, db).
Proof.
  unfold listSchema.isCardLimitExceeded.
  destruct (ListDoc.cardLimit this) as [limit|]; [|now exists false].
  destruct (limit =? 0); [now exists false|]. run_async. now eexists.
Qed.

Lemma checkTargetList_reads card listId db :
  exists r, cardController.checkTargetList card listId db = (inr r, db)
            /\ match r with
               | Some response => status response <> 200
               | None => True
               end.
Proof.
  unfold cardController.checkTargetList.
  destruct (negb (listId =? CardDoc.listId card)%string); [|now exists None].
  run_async.
  destruct (Query.findById ListDoc._id (castObjectId listId) (lists db))
    as [targetList|];
    [|eexists; split; [reflexivity | simpl; discriminate]].
  destruct (negb (ListDoc.boardId targetList =? CardDoc.boardId card)%string);
    [eexists; split; [reflexivity | simpl; discriminate]|].
  destruct (isCardLimitExceeded_reads targetList db) as [b ->].
  destruct b; eexists; (split; [reflexivity|]); simpl;
    first [discriminate | exact I].
Qed.

Lemma createCard_fails userId newId title listId boardId db :
  status (fst (cardController.createCard userId newId title listId boardId db)) <> 201 ->
  snd (cardController.createCard userId newId title listId boardId db) = db.
Proof.
  rewrite createCard_result.
  destruct (Query.findById BoardDoc._id boardId (boards db)) as [board|]; [|auto].
  destruct (negb (boardSchema.isMember board userId)); [auto|].
  destruct (CardModel.titleError title); [auto|].
  destruct (Query.hasId CardDoc._id newId (cards db)); [auto|].
  simpl. congruence.
Qed.

Lemma createList_fails userId newId name boardId db :
  status (fst (listController.createList userId newId name boardId db)) <> 201 ->
  snd (listController.createList userId newId name boardId db) = db.
Proof.
  rewrite createList_result.
  destruct name as [name|]; [|auto].
  destruct (Text.trim name =? "")%string; [auto|].
  destruct (Query.findById BoardDoc._id boardId (boards db)) as [board|]; [|auto].
  destruct (negb (boardSchema.isMember board userId)); [auto|].
  destruct (ListModel.nameError (Some (Text.trim name))); [auto|].
  destruct (Query.hasId ListDoc._id newId (lists db)); [auto|].
  simpl. congruence.
Qed.

Lemma deleteCard_fails userId cardId db :
  status (fst (cardController.deleteCard userId cardId db)) <> 200 ->
  snd (cardController.deleteCard userId cardId db) = db.
Proof.
  unfold cardController.deleteCard, try_catch. run_async.
  destruct (Query.findById CardDoc._id cardId (cards db)) as [card|]; [|auto].
  destruct (Query.findById BoardDoc._id (CardDoc.boardId card) (boards db))
    as [board|]; [|auto].
  destruct (negb (boardSchema.isMember board userId)); [auto|].
  unfold cardSchema.deleteOne, cardSchema.post_deleteOne. run_async. congruence.
Qed.

Lemma deleteList_fails userId listId db :
  status (fst (listController.deleteList userId listId db)) <> 200 ->
  snd (listController.deleteList userId listId db) = db.
Proof.
  unfold listController.deleteList, try_catch. run_async.
  destruct (Query.findById ListDoc._id listId (lists db)) as [list|]; [|auto].
  destruct (Query.findById BoardDoc._id (ListDoc.boardId list) (boards db))
    as [board|]; [|auto].
  destruct (negb (boardSchema.isMember board userId)); [auto|].
  destruct (0 <? Query.countDocuments _ (cards db)); [auto|].
  unfold listSchema.deleteOne, listSchema.pre_deleteOne, listSchema.post_deleteOne.
  run_async. congruence.
Qed.

Lemma deleteBoard_fails userId boardId db :
  status (fst (boardController.deleteBoard userId boardId db)) <> 200 ->
  snd (boardController.deleteBoard userId boardId db) = db.
Proof.
  unfold boardController.deleteBoard, try_catch. run_async.
  destruct (Query.findById BoardDoc._id boardId (boards db)) as [board|]; [|auto].
  destruct (negb (boardSchema.isOwner board userId)); [auto|].
  unfold boardSchema.deleteOne, boardSchema.pre_deleteOne. run_async. congruence.
Qed.

(** A move that passes the checks of the handler is answered with 200 or,
    when the method throws, with 500. *)
Lemma moveCard_fails now userId cardId listId position db :
  status (fst (cardController.moveCard now userId cardId listId position db)) <> 200 ->
  status (fst (cardController.moveCard now userId cardId listId position db)) <> 500 ->
  snd (cardController.moveCard now userId cardId listId position db) = db.
Proof.
  unfold cardController.moveCard, try_catch. run_async.
  destruct (Query.findById CardDoc._id cardId (cards db)) as [card|]; [|auto].
  destruct (Query.findById BoardDoc._id (CardDoc.boardId card) (boards db))
    as [board|]; [|auto].
  destruct (negb (boardSchema.isMember board userId)); [auto|].
  destruct (checkTargetList_reads card listId db) as (r & -> & Hr).
  destruct r as [response|]; [simpl; intros H; reflexivity|].
  destruct (cardSchema.moveToList now card listId position db) as [[e|c'] db'];
    simpl; congruence.
Qed.

Lemma reorderList_fails userId listId p db :
  0 <= p ->
  status (fst (listController.reorderList userId listId p db)) <> 200 ->
  snd (listController.reorderList userId listId p db) = db.
Proof.
  intros Hp. unfold listController.reorderList, try_catch. run_async.
  destruct (Query.findById ListDoc._id listId (lists db)) as [list|] eqn:F; [|auto].
  apply findById_some in F. destruct F as [Hlist _].
  destruct (Query.findById BoardDoc._id (ListDoc.boardId list) (boards db))
    as [board|]; [|auto].
  destruct (negb (boardSchema.isMember board userId)); [auto|].
  destruct (moveToPosition_succeeds list p db Hlist Hp) as [c E].
  destruct (listSchema.moveToPosition list p db) as [[e|c'] db'];
    simpl in *; congruence.
Qed.

(** C8 (as stated, fails). [moveToList] does not roll back: called with the
    target -1 for another list, it shifts card a1 of the source list from
    position 1 to 0 and then fails on the validation of the saved
    position; the call returns the error and a1 stays shifted. *)
Lemma C8_counterexample :
  cardSchema.moveToList 0 Samples.a0 "lb" (Some (-1)) Samples.dbTwoLists
  = (inl (ValidationError "Position cannot be negative"),
     mkDB [Samples.board1]
          [ListDoc.mk "la" "board1" 0 false None; ListDoc.mk "lb" "board1" 1 false None]
          [CardDoc.mk "a0" "la" "board1" 0 false None;
           CardDoc.mk "a1" "la" "board1" 0 false None])
  /\ snd (cardSchema.moveToList 0 Samples.a0 "lb" (Some (-1)) Samples.dbTwoLists)
     <> Samples.dbTwoLists.
Proof. split; [reflexivity | discriminate]. Qed.

(** C8 (amended). A request that is rejected performs no mutation: the
    checks of the handlers (request validation, item or target list not
    found, no access, target list of another board, card limit reached)
    all precede the first write, a failed insert has written nothing, and
    [moveToPosition] refuses a negative position before any write. So
    every request answered with a status other than success and 500 leaves
    every item's parent and position as they were, and every creation that
    is not answered 201 does. *)
Theorem C8_rejected_requests_change_nothing :
  (forall userId newId title listId boardId db,
      let r := cardController.createCard userId newId title listId boardId db in
      status (fst r) <> 201 -> snd r = db)
  /\ (forall now userId id body db,
         let r := routes.put_card_position now userId id body db in
         status (fst r) <> 200 -> status (fst r) <> 500 -> snd r = db)
  /\ (forall userId cardId db,
         let r := cardController.deleteCard userId cardId db in
         status (fst r) <> 200 -> status (fst r) <> 500 -> snd r = db)
  /\ (forall userId newId name boardId db,
         let r := listController.createList userId newId name boardId db in
         status (fst r) <> 201 -> snd r = db)
  /\ (forall userId id body db,
         let r := routes.put_list_position userId id body db in
         status (fst r) <> 200 -> status (fst r) <> 500 -> snd r = db)
  /\ (forall userId listId db,
         let r := listController.deleteList userId listId db in
         status (fst r) <> 200 -> status (fst r) <> 500 -> snd r = db)
  /\ (forall userId boardId db,
         let r := boardController.deleteBoard userId boardId db in
         status (fst r) <> 200 -> status (fst r) <> 500 -> snd r = db)
  /\ (forall this t db,
         t < 0 ->
         listSchema.moveToPosition this t db
         = (inl (Error "Position cannot be negative"), db)).
Proof.
  repeat split.
  - intros userId newId title listId boardId db. apply createCard_fails.
  - intros now userId id [l p] db. unfold routes.put_card_position,
      validation.cardValidationSchemas_move. simpl.
    destruct l as [listId|]; [|reflexivity].
    destruct p as [p|]; [|reflexivity].
    destruct (Z.leb_spec 0 p) as [Hp|Hp]; [|reflexivity].
    destruct (p <=? validation.maxSafeInteger); [|reflexivity].
    apply moveCard_fails.
  - intros userId cardId db r H _. now apply deleteCard_fails.
  - intros userId newId name boardId db. apply createList_fails.
  - intros userId id [p] db. unfold routes.put_list_position,
      validation.listValidationSchemas_reorder. simpl.
    destruct p as [p|]; [|reflexivity].
    destruct (Z.leb_spec 0 p) as [Hp|Hp]; [|reflexivity].
    destruct (p <=? validation.maxSafeInteger); [|reflexivity]. intros Hs _.
    now apply reorderList_fails.
  - intros userId listId db r H _. now apply deleteList_fails.
  - intros userId boardId db r H _. now apply deleteBoard_fails.
  - intros this t db H. now apply listSchemaFacts.moveToPosition_negative.
Qed.

Lemma C8_rejected_requests_change_nothing_witness :
  snd (routes.put_card_position 0 "mallory" "a0"
         {| validation.move_listId := Some "lb"; validation.move_position := Some 0 |}
         Samples.dbTwoLists)
  = Samples.dbTwoLists.
Proof.
  refine (proj1 (proj2 C8_rejected_requests_change_nothing) 0 "mallory" "a0"
            {| validation.move_listId := Some "lb"; validation.move_position := Some 0 |}
            Samples.dbTwoLists _ _); simpl; discriminate.
Defined.

(** C9 (as stated, fails). The request to delete a list that still holds
    non-archived cards is rejected with 400 and deletes nothing. *)
Lemma C9_counterexample :
  cardSiblingCount "la" Samples.dbTwoLists = 2
  /\ listController.deleteList "alice" "la" Samples.dbTwoLists
     = (json 400 "Cannot delete list with 2 cards. Please move or delete the cards first."
          NoData,
        Samples.dbTwoLists).
Proof. split; reflexivity. Qed.

(** C9 (amended). Deleting a board document removes the board and, in bulk,
    the lists and the cards that carry its id, and nothing else; the owner's
    request to delete a board does exactly that. Deleting a list document
    removes, in bulk and without renumbering them, the cards of the list
    and no other card. The request to delete a list is rejected with 400
    and no change while the list holds a non-archived card; when it holds
    none, the list is deleted with the (archived) cards it holds. *)
Theorem C9_cascading_delete :
  (forall this db,
      let db' := snd (boardSchema.deleteOne this db) in
      fst (boardSchema.deleteOne this db) = inr tt
      /\ (forall b, In b (boards db') <->
                    In b (boards db) /\ BoardDoc._id b <> BoardDoc._id this)
      /\ (forall l, In l (lists db') <->
                    In l (lists db) /\ ListDoc.boardId l <> BoardDoc._id this)
      /\ (forall c, In c (cards db') <->
                    In c (cards db) /\ CardDoc.boardId c <> BoardDoc._id this))
  /\ (forall userId boardId db board,
         Query.findById BoardDoc._id boardId (boards db) = Some board ->
         boardSchema.isOwner board userId = true ->
         boardController.deleteBoard userId boardId db
         = (json 200 "Board deleted successfully" NoData,
            snd (boardSchema.deleteOne board db)))
  /\ (forall this db,
         let db' := snd (listSchema.deleteOne this db) in
         fst (listSchema.deleteOne this db) = inr tt
         /\ (forall c, In c (cards db') <->
                       In c (cards db) /\ CardDoc.listId c <> ListDoc._id this)
         /\ (forall l, In l (lists db') -> ListDoc._id l <> ListDoc._id this))
  /\ (forall userId listId db list board,
         Query.findById ListDoc._id listId (lists db) = Some list ->
         Query.findById BoardDoc._id (ListDoc.boardId list) (boards db) = Some board ->
         boardSchema.isMember board userId = true ->
         (0 < cardSiblingCount listId db ->
          listController.deleteList userId listId db
          = (json 400
               ("Cannot delete list with "
                  ++ NilZero.string_of_int (Z.to_int (cardSiblingCount listId db))
                  ++ " cards. Please move or delete the cards first.")
               NoData, db))
         /\ (cardSiblingCount listId db = 0 ->
             listController.deleteList userId listId db
             = (json 200 "List deleted successfully" NoData,
                snd (listSchema.deleteOne list db)))).
Proof.
  split; [|split; [|split]].
  - intros this db db'. unfold db', boardSchema.deleteOne, boardSchema.pre_deleteOne.
    run_async. split; [reflexivity|]. unfold Query.deleteMany.
    repeat split; intros; rewrite filter_In, negb_true_iff, String.eqb_neq in *; tauto.
  - intros userId boardId db board F O.
    unfold boardController.deleteBoard, try_catch. run_async. rewrite F, O. simpl.
    unfold boardSchema.deleteOne, boardSchema.pre_deleteOne. run_async. reflexivity.
  - intros this db db'. unfold db'. rewrite listSchemaFacts.deleteOne_lists. simpl.
    split; [reflexivity|]. split.
    + intros c. unfold Query.deleteMany.
      rewrite filter_In, negb_true_iff, String.eqb_neq. tauto.
    + intros l Hl. unfold Query.updateMany, Query.deleteMany in Hl.
      apply in_map_iff in Hl. destruct Hl as (k & <- & Hk).
      apply filter_In in Hk. destruct Hk as [_ Hk].
      apply negb_true_iff, String.eqb_neq in Hk.
      destruct (inBoard (ListDoc.boardId this) k
                && (ListDoc.position this <? ListDoc.position k)); exact Hk.
  - intros userId listId db list board F G M.
    unfold listController.deleteList, try_catch. run_async. rewrite F, G, M. simpl.
    change (fun c : CardDoc.t =>
              (CardDoc.listId c =? listId)%string && negb (CardDoc.archived c))
      with (liveInList listId).
    fold (cardSiblingCount listId db). split; intros H.
    + destruct (Z.ltb_spec 0 (cardSiblingCount listId db)); [reflexivity | lia].
    + rewrite H. reflexivity.
Qed.

Lemma C9_cascading_delete_witness :
  boardController.deleteBoard "alice" "board1" Samples.dbTwoLists
  = (json 200 "Board deleted successfully" NoData,
     snd (boardSchema.deleteOne Samples.board1 Samples.dbTwoLists)).
Proof.
  refine (proj1 (proj2 C9_cascading_delete) "alice" "board1" Samples.dbTwoLists
            Samples.board1 _ _); reflexivity.
Defined.

(** C10 (the code departs from the claim). [moveToList] finds the list of
    the card in its argument by comparing strings. A destination written
    as [toString()] writes the id of the card's list, with a null
    position, leaves everything as it was, whatever the card and the
    database: so "la" for the card a0. The same list written "lA", which
    Mongoose casts to the same id, is taken for another list: a1 behind
    a0 is decremented, and a0 is appended to its own list at the number
    of its cards, 2, so that the list holds a1@0 and a0@2. *)
Theorem C10_other_spelling_is_no_noop :
  (forall now this db,
      cardSchema.moveToList now this (CardDoc.listId this) None db = (inr this, db))
  /\ castObjectId "lA" = "la"
  /\ Query.findById ListDoc._id (castObjectId "lA") (lists Samples.dbTwoLists)
     = Query.findById ListDoc._id "la" (lists Samples.dbTwoLists)
  /\ cardSchema.moveToList 0 Samples.a0 "la" None Samples.dbTwoLists
     = (inr Samples.a0, Samples.dbTwoLists)
  /\ cardSchema.moveToList 0 Samples.a0 "lA" None Samples.dbTwoLists
     = (inr (CardDoc.mk "a0" "la" "board1" 2 false None),
        mkDB [Samples.board1]
             [ListDoc.mk "la" "board1" 0 false None; ListDoc.mk "lb" "board1" 1 false None]
             [CardDoc.mk "a0" "la" "board1" 2 false None;
              CardDoc.mk "a1" "la" "board1" 0 false None])
  /\ cardController.moveCard 0 "bob" "a0" "lA" None Samples.dbTwoLists
     = (json 200 "Card moved successfully"
          (CardData (CardDoc.mk "a0" "la" "board1" 2 false None)),
        snd (cardSchema.moveToList 0 Samples.a0 "lA" None Samples.dbTwoLists))
  /\ ~ I1_cards "la" (snd (cardSchema.moveToList 0 Samples.a0 "lA" None Samples.dbTwoLists)).
Proof.
  split; [exact cardSchemaFacts.moveToList_same_list_null|].
  repeat split.
  intros [_ D].
  change (cardPositions "la"
            (snd (cardSchema.moveToList 0 Samples.a0 "lA" None Samples.dbTwoLists)))
    with [2; 0] in D.
  assert (H : In 1 [2; 0]) by (apply D; simpl; lia).
  simpl in H. intuition discriminate.
Qed.

(** * Further properties of the operations *)

(** ** Moving an item and moving it back *)

Lemma map_fixed {A} (F : A -> A) l : (forall c, In c l -> F c = c) -> map F l = l.
Proof.
  intros H. rewrite <- (map_id l) at 2. apply map_ext_in. exact H.
Qed.

Lemma db_eta db : mkDB (boards db) (lists db) (cards db) = db.
Proof. destruct db; reflexivity. Qed.

Lemma unique_position_cards db this c :
  NoDup (map CardDoc._id (cards db)) ->
  NoDup (allCardPositions (CardDoc.listId this) db) ->
  In this (cards db) -> In c (cards db) ->
  CardDoc.listId c = CardDoc.listId this ->
  CardDoc._id c <> CardDoc._id this ->
  CardDoc.position c <> CardDoc.position this.
Proof.
  intros N Np Hthis Hc Hl Hid Hp.
  pose proof (id_iff_position CardDoc._id CardDoc.position
                (inList (CardDoc.listId this)) (cards db) this N Np Hthis) as E.
  specialize (E (proj2 (inList_true _ _) eq_refl) c Hc (proj2 (inList_true _ _) Hl)).
  rewrite Hp, Z.eqb_refl in E.
  apply String.eqb_eq in E. contradiction.
Qed.

Lemma unique_position_lists db this l :
  NoDup (map ListDoc._id (lists db)) ->
  NoDup (allListPositions (ListDoc.boardId this) db) ->
  In this (lists db) -> In l (lists db) ->
  ListDoc.boardId l = ListDoc.boardId this ->
  ListDoc._id l <> ListDoc._id this ->
  ListDoc.position l <> ListDoc.position this.
Proof.
  intros N Np Hthis Hl Hb Hid Hp.
  pose proof (id_iff_position ListDoc._id ListDoc.position
                (inBoard (ListDoc.boardId this)) (lists db) this N Np Hthis) as E.
  specialize (E (proj2 (inBoard_true _ _) eq_refl) l Hl (proj2 (inBoard_true _ _) Hb)).
  rewrite Hp, Z.eqb_refl in E.
  apply String.eqb_eq in E. contradiction.
Qed.

Lemma dense_first ps p : Positions.dense ps -> In p ps -> 0 <= p.
Proof. intros [_ D] H. apply D in H. lia. Qed.

Lemma cardPosition_in db this :
  In this (cards db) ->
  In (CardDoc.position this) (allCardPositions (CardDoc.listId this) db).
Proof.
  intros H. unfold allCardPositions. apply in_map, filter_In.
  split; [exact H | apply inList_true; reflexivity].
Qed.

Lemma listPosition_in db this :
  In this (lists db) ->
  In (ListDoc.position this) (allListPositions (ListDoc.boardId this) db).
Proof.
  intros H. unfold allListPositions. apply in_map, filter_In.
  split; [exact H | apply inBoard_true; reflexivity].
Qed.

(** X1. In a list whose cards, archived ones included, are at the
    positions 0..n-1, a card moved within the list and then moved back to
    the position it had leaves the database exactly as it was; the due
    date of the card, if it has one, has passed at neither move. *)
Theorem moveToList_within_and_back now now' db this t :
  NoDup (map CardDoc._id (cards db)) -> In this (cards db) ->
  Positions.dense (allCardPositions (CardDoc.listId this) db) ->
  0 <= t ->
  CardModel.dueDateError now this = None ->
  CardModel.dueDateError now' this = None ->
  exists moved db',
    cardSchema.moveToList now this (CardDoc.listId this) (Some t) db = (inr moved, db')
    /\ CardDoc.position moved = t
    /\ cardSchema.moveToList now' moved (CardDoc.listId this)
         (Some (CardDoc.position this)) db'
       = (inr this, db).
Proof.
  intros N Hthis D Ht Hd Hd'.
  pose proof (proj1 D) as Np.
  pose proof (dense_first _ _ D (cardPosition_in db this Hthis)) as Hp.
  destruct (Z.eqb_spec t (CardDoc.position this)) as [->|Hne].
  - exists this, db. rewrite !cardSchemaFacts.moveToList_same_position. auto.
  - exists (CardDoc.setPosition t this),
      (setCards (map (movedWithin this t) (cards db)) db).
    rewrite cardSchemaFacts.moveToList_within by assumption.
    split; [reflexivity|]. split; [reflexivity|].
    assert (Hin : In (CardDoc.setPosition t this) (map (movedWithin this t) (cards db))).
    { rewrite <- movedWithin_this. apply in_map. exact Hthis. }
    pose proof (cardSchemaFacts.moveToList_within now' (CardDoc.setPosition t this)
                  (CardDoc.position this)
                  (setCards (map (movedWithin this t) (cards db)) db)) as E.
    simpl in E. rewrite E; clear E.
    + f_equal; [destruct this; reflexivity|].
      unfold setCards; simpl. rewrite map_map.
      rewrite map_fixed; [apply db_eta|].
      intros c Hc.
      destruct (String.eqb_spec (CardDoc._id c) (CardDoc._id this)) as [Hid|Hid].
      * assert (c = this) by (apply (same_id_same_doc CardDoc._id (cards db)); assumption).
        subst c. rewrite movedWithin_this. clear.
        unfold movedWithin. destruct this; simpl. rewrite String.eqb_refl.
        reflexivity.
      * assert (U : CardDoc.listId c = CardDoc.listId this ->
                    CardDoc.position c <> CardDoc.position this)
          by (intros Hl; apply (unique_position_cards db); assumption).
        clear - U Hid Hne. image_cases c this; exfalso; apply U; auto; lia.
    + apply NoDup_ids_map; [apply movedWithin_id | exact N].
    + exact Hin.
    + exact Hp.
    + simpl. lia.
    + exact Hd'.
Qed.

Lemma moveToList_within_and_back_witness :
  exists moved db',
    cardSchema.moveToList 50 Samples.a0due "la" (Some 2) Samples.dbDueCard
    = (inr moved, db')
    /\ CardDoc.position moved = 2
    /\ cardSchema.moveToList 60 moved "la" (Some 0) db'
       = (inr Samples.a0due, Samples.dbDueCard).
Proof.
  apply (moveToList_within_and_back 50 60 Samples.dbDueCard Samples.a0due 2).
  - repeat constructor; simpl; intuition discriminate.
  - simpl; auto.
  - apply PositionsFacts.bounded_dense. split.
    + repeat constructor; simpl; intuition discriminate.
    + simpl. intros z [<-|[<-|[<-|[<-|[]]]]]; lia.
  - lia.
  - reflexivity.
  - reflexivity.
Defined.

(** X2. In a board whose lists, archived ones included, are at the
    positions 0..n-1, a list moved within the board and then moved back
    to the position it had leaves the database exactly as it was. *)
Theorem moveToPosition_and_back db this t :
  NoDup (map ListDoc._id (lists db)) -> In this (lists db) ->
  Positions.dense (allListPositions (ListDoc.boardId this) db) ->
  0 <= t ->
  exists moved db',
    listSchema.moveToPosition this t db = (inr moved, db')
    /\ ListDoc.position moved = t
    /\ listSchema.moveToPosition moved (ListDoc.position this) db' = (inr this, db).
Proof.
  intros N Hthis D Ht.
  pose proof (proj1 D) as Np.
  pose proof (dense_first _ _ D (listPosition_in db this Hthis)) as Hp.
  destruct (Z.eqb_spec t (ListDoc.position this)) as [->|Hne].
  - exists this, db.
    rewrite listSchemaFacts.moveToPosition_same_position by exact Hp. auto.
  - exists (ListDoc.setPosition t this),
      (setLists (map (reordered this t) (lists db)) db).
    rewrite listSchemaFacts.moveToPosition_moves
      by (first [apply (hasId_in ListDoc._id); exact Hthis | assumption]).
    split; [reflexivity|]. split; [reflexivity|].
    rewrite listSchemaFacts.moveToPosition_moves.
    + f_equal; [destruct this; reflexivity|].
      unfold setLists; simpl. rewrite map_map.
      rewrite map_fixed; [apply db_eta|].
      intros l Hl.
      destruct (String.eqb_spec (ListDoc._id l) (ListDoc._id this)) as [Hid|Hid].
      * assert (l = this) by (apply (same_id_same_doc ListDoc._id (lists db)); assumption).
        subst l. rewrite reordered_this. clear.
        unfold reordered. destruct this; simpl. rewrite String.eqb_refl.
        reflexivity.
      * assert (U : ListDoc.boardId l = ListDoc.boardId this ->
                    ListDoc.position l <> ListDoc.position this)
          by (intros Hb; apply (unique_position_lists db); assumption).
        clear - U Hid Hne. image_cases l this; exfalso; apply U; auto; lia.
    + assert (Hin : In (reordered this t this) (map (reordered this t) (lists db)))
        by (apply in_map; exact Hthis).
      apply (hasId_in ListDoc._id) in Hin. rewrite reordered_id in Hin. exact Hin.
    + exact Hp.
    + simpl. lia.
Qed.

Lemma moveToPosition_and_back_witness :
  exists moved db',
    listSchema.moveToPosition Samples.L0 2 Samples.dbFourLists = (inr moved, db')
    /\ ListDoc.position moved = 2
    /\ listSchema.moveToPosition moved 0 db' = (inr Samples.L0, Samples.dbFourLists).
Proof.
  apply (moveToPosition_and_back Samples.dbFourLists Samples.L0 2).
  - repeat constructor; simpl; intuition discriminate.
  - simpl; auto.
  - apply PositionsFacts.bounded_dense. split.
    + repeat constructor; simpl; intuition discriminate.
    + simpl. intros z [<-|[<-|[<-|[<-|[]]]]]; lia.
  - lia.
Defined.



(** ** What each request does *)

Lemma checkTargetList_cases card listId db :
  exists r, cardController.checkTargetList card listId db = (inr r, db)
            /\ (r = None -> listId <> CardDoc.listId card ->
                exists target,
                  Query.findById ListDoc._id (castObjectId listId) (lists db)
                  = Some target
                  /\ ListDoc.boardId target = CardDoc.boardId card
                  /\ listSchema.isCardLimitExceeded target db = (inr false, db)).
Proof.
  unfold cardController.checkTargetList.
  destruct (String.eqb_spec listId (CardDoc.listId card)) as [Heq|Hne]; simpl.
  - exists None. split; [reflexivity|]. intros _ H. contradiction.
  - run_async.
    destruct (Query.findById ListDoc._id (castObjectId listId) (lists db))
      as [target|] eqn:F;
      [|eexists; split; [reflexivity | discriminate]].
    destruct (String.eqb_spec (ListDoc.boardId target) (CardDoc.boardId card))
      as [Hb|_]; simpl; [|eexists; split; [reflexivity | discriminate]].
    destruct (isCardLimitExceeded_reads target db) as [b Eb]. rewrite Eb.
    destruct b; eexists; (split; [reflexivity|]); [discriminate|].
    intros _ _. exists target. auto.
Qed.

Lemma findById_hasId {A} (docId : A -> ObjectId) id l c :
  Query.findById docId id l = Some c -> Query.hasId docId id l = true.
Proof.
  intros F. apply findById_some in F. destruct F as [Hin <-].
  apply hasId_in. exact Hin.
Qed.

Ltac effect_is E :=
  match goal with
  | |- Effect _ _ ?X => replace X with E; [|try reflexivity]
  end.

Lemma handle_effect r db : Effect db r (snd (api.handle r db)).
Proof.
  destruct r as [userId newId title listId boardId | now userId id body | userId id
                | userId newId name boardId | userId id body | userId id archived
                | userId id | userId id]; simpl.
  - (* POST /api/cards *)
    rewrite createCard_result.
    destruct (Query.findById BoardDoc._id boardId (boards db)) as [board|] eqn:F;
      [|constructor].
    destruct (boardSchema.isMember board userId) eqn:M; simpl; [|constructor].
    destruct (CardModel.titleError title); [constructor|].
    destruct (Query.hasId CardDoc._id newId (cards db)) eqn:H; [constructor|].
    simpl. apply (CardCreated db userId newId title listId boardId board); assumption.
  - (* PUT /api/cards/:id/position *)
    unfold routes.put_card_position, validation.cardValidationSchemas_move.
    destruct body as [[listId|] [p|]]; simpl; try constructor.
    destruct (Z.leb_spec 0 p) as [Hp|Hp]; [|constructor].
    destruct (p <=? validation.maxSafeInteger); [|constructor].
    unfold cardController.moveCard, try_catch. run_async.
    destruct (Query.findById CardDoc._id id (cards db)) as [card|] eqn:F;
      [|constructor].
    destruct (Query.findById BoardDoc._id (CardDoc.boardId card) (boards db))
      as [board|] eqn:G; [|constructor].
    destruct (boardSchema.isMember board userId) eqn:M; simpl; [|constructor].
    destruct (checkTargetList_cases card listId db) as (r & -> & Hr).
    destruct r as [response|]; [constructor|].
    effect_is (snd (cardSchema.moveToList now card listId (Some p) db)).
    + apply (CardMoved db now userId id listId p card board); auto.
    + destruct (cardSchema.moveToList now card listId (Some p) db) as [[e|c] db'];
        reflexivity.
  - (* DELETE /api/cards/:id *)
    unfold cardController.deleteCard, try_catch. run_async.
    destruct (Query.findById CardDoc._id id (cards db)) as [card|] eqn:F;
      [|constructor].
    destruct (Query.findById BoardDoc._id (CardDoc.boardId card) (boards db))
      as [board|] eqn:G; [|constructor].
    destruct (boardSchema.isMember board userId) eqn:M; simpl; [|constructor].
    effect_is (snd (cardSchema.deleteOne card db)).
    + apply (CardDeleted db userId id card board); auto.
  - (* POST /api/lists *)
    rewrite createList_result.
    destruct name as [name|]; [|constructor].
    destruct (Text.trim name =? "")%string; [constructor|].
    destruct (Query.findById BoardDoc._id boardId (boards db)) as [board|] eqn:F;
      [|constructor].
    destruct (boardSchema.isMember board userId) eqn:M; simpl; [|constructor].
    destruct (ListModel.nameError (Some (Text.trim name))); [constructor|].
    destruct (Query.hasId ListDoc._id newId (lists db)) eqn:H; [constructor|].
    simpl. apply (ListCreated db userId newId (Some name) boardId board); assumption.
  - (* PUT /api/lists/:id/position *)
    unfold routes.put_list_position, validation.listValidationSchemas_reorder.
    destruct body as [[p|]]; simpl; try constructor.
    destruct (Z.leb_spec 0 p) as [Hp|Hp]; [|constructor].
    destruct (p <=? validation.maxSafeInteger); [|constructor].
    unfold listController.reorderList, try_catch. run_async.
    destruct (Query.findById ListDoc._id id (lists db)) as [list|] eqn:F;
      [|constructor].
    destruct (Query.findById BoardDoc._id (ListDoc.boardId list) (boards db))
      as [board|] eqn:G; [|constructor].
    destruct (boardSchema.isMember board userId) eqn:M; simpl; [|constructor].
    effect_is (snd (listSchema.moveToPosition list p db)).
    + apply (ListMoved db userId id p list board); auto.
    + destruct (listSchema.moveToPosition list p db) as [[e|c] db']; reflexivity.
  - (* PUT /api/lists/:id/archive *)
    unfold listController.archiveList, try_catch. run_async.
    destruct (Query.findById ListDoc._id id (lists db)) as [list|] eqn:F;
      [|constructor].
    destruct (Query.findById BoardDoc._id (ListDoc.boardId list) (boards db))
      as [board|] eqn:G; [|constructor].
    destruct (boardSchema.isMember board userId) eqn:M; simpl; [|constructor].
    destruct (ListDoc.position list <? 0); [constructor|]. simpl.
    destruct (Query.hasId ListDoc._id (ListDoc._id list) (lists db)); [|constructor].
    simpl. pose proof (findById_some ListDoc._id _ _ _ F) as [_ Hid].
    rewrite Hid. apply (ListArchived db userId id archived list board); auto.
  - (* DELETE /api/lists/:id *)
    unfold listController.deleteList, try_catch. run_async.
    destruct (Query.findById ListDoc._id id (lists db)) as [list|] eqn:F;
      [|constructor].
    destruct (Query.findById BoardDoc._id (ListDoc.boardId list) (boards db))
      as [board|] eqn:G; [|constructor].
    destruct (boardSchema.isMember board userId) eqn:M; simpl; [|constructor].
    destruct (Z.ltb_spec 0 (Query.countDocuments
                (fun c => (CardDoc.listId c =? id)%string && negb (CardDoc.archived c))
                (cards db))) as [Hc|Hc]; [constructor|].
    effect_is (snd (listSchema.deleteOne list db)).
    + apply (ListDeleted db userId id list board); auto.
      unfold cardSiblingCount, Query.countDocuments in *.
      unfold liveInList, inList. lia.
  - (* DELETE /api/boards/:id *)
    unfold boardController.deleteBoard, try_catch. run_async.
    destruct (Query.findById BoardDoc._id id (boards db)) as [board|] eqn:F;
      [|constructor].
    destruct (boardSchema.isOwner board userId) eqn:M; simpl; [|constructor].
    effect_is (snd (boardSchema.deleteOne board db)).
    + apply (BoardDeleted db userId id board); auto.
Qed.

(** ** The shapes of the writes *)

Lemma in_updateMany {A} (q : A -> bool) (u : A -> A) l x :
  In x (Query.updateMany q u l) <-> exists c, In c l /\ x = if q c then u c else c.
Proof.
  unfold Query.updateMany. rewrite in_map_iff. split; intros (c & H1 & H2).
  - exists c. auto.
  - exists c. auto.
Qed.

Lemma in_deleteMany {A} (q : A -> bool) l x :
  In x (Query.deleteMany q l) <-> In x l /\ q x = false.
Proof.
  unfold Query.deleteMany. rewrite filter_In.
  destruct (q x); simpl; intuition congruence.
Qed.

Lemma moveToPosition_lists list p db :
  In list (lists db) -> 0 <= p ->
  let db' := snd (listSchema.moveToPosition list p db) in
  boards db' = boards db /\ cards db' = cards db
  /\ (lists db' = lists db
      \/ (p <> ListDoc.position list
          /\ lists db' = map (reordered list p) (lists db))).
Proof.
  intros Hin Hp.
  pose proof (hasId_in ListDoc._id list (lists db) Hin) as Hid.
  destruct (Z.eqb_spec p (ListDoc.position list)) as [->|Hq].
  - rewrite listSchemaFacts.moveToPosition_same_position by assumption. simpl. auto.
  - rewrite listSchemaFacts.moveToPosition_moves by assumption. simpl.
    repeat split. right. auto.
Qed.

Lemma boardSchema_deleteOne this db :
  boardSchema.deleteOne this db
  = (inr tt,
     mkDB (Query.deleteMany (fun b => BoardDoc._id b =? BoardDoc._id this)%string
             (boards db))
          (Query.deleteMany (fun l => ListDoc.boardId l =? BoardDoc._id this)%string
             (lists db))
          (Query.deleteMany (fun c => CardDoc.boardId c =? BoardDoc._id this)%string
             (cards db))).
Proof.
  unfold boardSchema.deleteOne, boardSchema.pre_deleteOne. run_async. reflexivity.
Qed.

Lemma hasId_deleteMany_other {A} (docId : A -> ObjectId) id0 id l :
  id <> id0 ->
  Query.hasId docId id (Query.deleteMany (fun d => docId d =? id0)%string l)
  = Query.hasId docId id l.
Proof.
  intros Hne. unfold Query.hasId, Query.deleteMany.
  induction l as [|d l IH]; simpl; [reflexivity|].
  destruct (String.eqb_spec (docId d) id0) as [E|E]; simpl.
  - rewrite IH. destruct (String.eqb_spec (docId d) id); [congruence | reflexivity].
  - rewrite IH. reflexivity.
Qed.

Lemma movedWithin_boardId this t c :
  CardDoc.boardId (movedWithin this t c) = CardDoc.boardId c.
Proof. image_cases c this. Qed.

Lemma movedAcross_boardId this newListId t c :
  CardDoc.boardId (movedAcross this newListId t c) = CardDoc.boardId c.
Proof. image_cases c this. Qed.

Ltac effect_cases E :=
  destruct E as [ r
                | userId newId title listId boardId board F M H
                | now userId id listId p card board F G M Hp Ht
                | userId id card board F G M
                | userId newId name boardId board F M H
                | userId id p list board F G M Hp
                | userId id archived list board F G M
                | userId id list board F G M Hc
                | userId id board F M ].

(** ** Ids stay unique *)

Lemma effect_uniqueIds db r db' : Effect db r db' -> uniqueIds db -> uniqueIds db'.
Proof.
  intros E U. pose proof U as [NC NL]. effect_cases E.
  - exact U.
  - split; [|exact NL]. simpl.
    apply (NoDup_ids_insert CardDoc._id
             (CardDoc.mk newId listId boardId _ false None)); assumption.
  - replace (snd (cardSchema.moveToList now card listId (Some p) db))
      with (step (MoveCard now id listId (Some p)) db)
      by (unfold step; rewrite F; reflexivity).
    apply step_uniqueIds. exact U.
  - replace (snd (cardSchema.deleteOne card db))
      with (step (DeleteCard id) db)
      by (unfold step; rewrite F; reflexivity).
    apply step_uniqueIds. exact U.
  - split; [exact NC|]. simpl.
    apply (NoDup_ids_insert ListDoc._id
             (ListDoc.mk newId boardId _ false None)); assumption.
  - replace (snd (listSchema.moveToPosition list p db))
      with (step (MoveList id p) db)
      by (unfold step; rewrite F; reflexivity).
    apply step_uniqueIds. exact U.
  - split; [exact NC|]. simpl. unfold Query.updateMany.
    apply (NoDup_ids_map ListDoc._id); [|exact NL].
    intros l. destruct (ListDoc._id l =? id)%string; reflexivity.
  - replace (snd (listSchema.deleteOne list db))
      with (step (DeleteList id) db)
      by (unfold step; rewrite F; reflexivity).
    apply step_uniqueIds. exact U.
  - rewrite boardSchema_deleteOne. split; simpl; unfold Query.deleteMany.
    + apply (NoDup_ids_filter CardDoc._id). exact NC.
    + apply (NoDup_ids_filter ListDoc._id). exact NL.
Qed.

(** ** The board of every list and card is stored *)

Lemma effect_boardsExist db r db' : Effect db r db' -> boardsExist db -> boardsExist db'.
Proof.
  intros E [HL HC]. effect_cases E.
  - split; assumption.
  - split; [exact HL|]. simpl. intros c Hc. apply in_app_iff in Hc.
    destruct Hc as [Hc|[<-|[]]]; [auto|]. simpl.
    apply (findById_hasId BoardDoc._id _ _ board). exact F.
  - destruct (moveToList_touches now card listId (Some p) db) as (EB & EL & FC).
    unfold boardsExist. rewrite EB. split; [rewrite EL; exact HL|].
    intros c' Hc'. destruct (touched_in _ _ _ _ _ FC Hc') as (c & Hc & R).
    rewrite (proj1 (proj2 R)). auto.
  - rewrite cardSchemaFacts.deleteOne_cards. simpl. split; [exact HL|].
    intros c' Hc'. apply in_updateMany in Hc'. destruct Hc' as (c & Hc & ->).
    apply in_deleteMany in Hc. destruct Hc as [Hc _]. specialize (HC c Hc).
    destruct (liveInList _ c && _); exact HC.
  - split; [|exact HC]. simpl. intros l Hl. apply in_app_iff in Hl.
    destruct Hl as [Hl|[<-|[]]]; [auto|]. simpl.
    apply (findById_hasId BoardDoc._id _ _ board). exact F.
  - apply findById_some in F. destruct F as [Hin _].
    destruct (moveToPosition_lists list p db Hin Hp) as (EB & EC & EL).
    unfold boardsExist. rewrite EB. split; [|rewrite EC; exact HC].
    destruct EL as [EL|(_ & EL)]; rewrite EL; [exact HL|].
    intros l' Hl'. apply in_map_iff in Hl'. destruct Hl' as (l & <- & Hl).
    rewrite (proj1 (reordered_fields list p l)). auto.
  - split; [|exact HC]. simpl. intros l' Hl'.
    apply in_updateMany in Hl'. destruct Hl' as (l & Hl & ->).
    specialize (HL l Hl). destruct (ListDoc._id l =? id)%string; exact HL.
  - rewrite listSchemaFacts.deleteOne_lists. simpl. split.
    + intros l' Hl'. apply in_updateMany in Hl'. destruct Hl' as (l & Hl & ->).
      apply in_deleteMany in Hl. destruct Hl as [Hl _]. specialize (HL l Hl).
      destruct (inBoard _ l && _); exact HL.
    + intros c Hc'. apply in_deleteMany in Hc'. destruct Hc' as [Hc' _]. auto.
  - rewrite boardSchema_deleteOne. simpl. split.
    + intros l Hl. apply in_deleteMany in Hl. destruct Hl as [Hl Hb].
      simpl. rewrite (hasId_deleteMany_other BoardDoc._id (BoardDoc._id board)); [auto|].
      apply String.eqb_neq. exact Hb.
    + intros c Hc. apply in_deleteMany in Hc. destruct Hc as [Hc Hb].
      simpl. rewrite (hasId_deleteMany_other BoardDoc._id (BoardDoc._id board)); [auto|].
      apply String.eqb_neq. exact Hb.
Qed.

(** ** I2: the list of a card stays a list of the card's board *)

Lemma effect_I2 db r db' :
  Effect db r db' -> uniqueIds db -> createsInList db r -> I2 db -> I2 db'.
Proof.
  intros E [NC NL] Hcreate H2. effect_cases E.
  - exact H2.
  - simpl. intros c Hc. simpl in Hc. apply in_app_iff in Hc.
    destruct Hc as [Hc|[<-|[]]]; [auto|]. simpl. exact Hcreate.
  - pose proof (findById_some CardDoc._id _ _ _ F) as [Hin _].
    destruct (moveToList_touches now card listId (Some p) db) as (_ & EL & FC).
    unfold I2. rewrite EL.
    intros c' Hc'. destruct (touched_in _ _ _ _ _ FC Hc') as (c & Hc & R).
    destruct R as (Ri & Rb & _ & _ & Rl & _). rewrite Rb.
    destruct Rl as [->|[Hid ->]]; [auto|].
    assert (c = card) by (apply (same_id_same_doc CardDoc._id (cards db)); assumption).
    subst c. unfold destination.
    destruct (String.eqb_spec (CardDoc.listId card) listId) as [Heq|Hne]; [auto|].
    destruct (Ht (not_eq_sym Hne)) as (target & Ft & Hb & _).
    apply findById_some in Ft. destruct Ft as [Ht1 Ht2].
    exists target. auto.
  - rewrite cardSchemaFacts.deleteOne_cards. unfold I2. simpl.
    intros c' Hc'. apply in_updateMany in Hc'. destruct Hc' as (c & Hc & ->).
    apply in_deleteMany in Hc. destruct Hc as [Hc _]. specialize (H2 c Hc).
    destruct (liveInList _ c && _); exact H2.
  - unfold I2. simpl. intros c Hc. destruct (H2 c Hc) as (l & Hl & E).
    exists l. split; [apply in_app_iff; auto | exact E].
  - pose proof (findById_some ListDoc._id _ _ _ F) as [Hin _].
    destruct (moveToPosition_lists list p db Hin Hp) as (_ & EC & EL).
    unfold I2. rewrite EC.
    destruct EL as [EL|(_ & EL)]; rewrite EL; [exact H2|].
    intros c Hc. destruct (H2 c Hc) as (l & Hl & E1 & E2).
    exists (reordered list p l). split; [apply in_map; exact Hl|].
    rewrite reordered_id, (proj1 (reordered_fields list p l)). auto.
  - unfold I2. simpl. intros c Hc. destruct (H2 c Hc) as (l & Hl & E1 & E2).
    exists (if (ListDoc._id l =? id)%string then ListDoc.setArchived archived l else l).
    split; [apply in_updateMany; exists l; auto|].
    destruct (ListDoc._id l =? id)%string; auto.
  - pose proof (findById_some ListDoc._id _ _ _ F) as [Hin Hid].
    rewrite listSchemaFacts.deleteOne_lists. unfold I2. simpl.
    intros c Hx. apply in_deleteMany in Hx. destruct Hx as [Hx Hl].
    destruct (H2 c Hx) as (l & Hl' & E1 & E2).
    exists (if inBoard (ListDoc.boardId list) l
               && (ListDoc.position list <? ListDoc.position l)
            then ListDoc.inc (-1) l else l).
    split.
    + apply in_updateMany. exists l. split; [|reflexivity].
      apply in_deleteMany. split; [exact Hl'|]. rewrite E1. exact Hl.
    + destruct (inBoard _ l && _); auto.
  - rewrite boardSchema_deleteOne. unfold I2. simpl.
    intros c Hc. apply in_deleteMany in Hc. destruct Hc as [Hc Hb].
    destruct (H2 c Hc) as (l & Hl & E1 & E2).
    exists l. split; [|auto].
    apply in_deleteMany. split; [exact Hl|]. rewrite E2. exact Hb.
Qed.

(** ** Who can change what *)

Lemma isOwner_isMember board userId :
  boardSchema.isOwner board userId = true -> boardSchema.isMember board userId = true.
Proof.
  unfold boardSchema.isOwner, boardSchema.isMember. intros ->. reflexivity.
Qed.

Lemma effect_by_member db r db' :
  Effect db r db' -> db' <> db ->
  exists B board,
    api.boardOf r db = Some B
    /\ Query.findById BoardDoc._id B (boards db) = Some board
    /\ boardSchema.isMember board (api.user r) = true
    /\ match r with
       | api.DeleteBoardById _ _ => boardSchema.isOwner board (api.user r) = true
       | _ => True
       end.
Proof.
  intros E Hne.
  effect_cases E; try contradiction; simpl;
    try rewrite F; simpl; eauto 6.
  exists id, board. auto using isOwner_isMember.
Qed.

(** ** Boards are isolated from each other *)

Lemma filter_none {A} (l : list A) : filter (fun _ => false) l = [].
Proof. induction l as [|a l IH]; [reflexivity | exact IH]. Qed.

Lemma filter_map_fixed {A} (q : A -> bool) (F : A -> A) l :
  (forall c, In c l -> q (F c) = q c) ->
  (forall c, In c l -> q c = true -> F c = c) ->
  filter q (map F l) = filter q l.
Proof.
  induction l as [|a l IH]; intros H1 H2; [reflexivity|]. simpl.
  pose proof (IH (fun c Hc => H1 c (or_intror Hc))
                 (fun c Hc => H2 c (or_intror Hc))) as IH'.
  rewrite (H1 a (or_introl eq_refl)), IH'.
  destruct (q a) eqn:Q; [rewrite (H2 a (or_introl eq_refl) Q)|]; reflexivity.
Qed.

Lemma filter_deleteMany_other {A} (q d : A -> bool) l :
  (forall c, In c l -> q c = true -> d c = false) ->
  filter q (Query.deleteMany d l) = filter q l.
Proof.
  intros H. unfold Query.deleteMany. rewrite filter_and.
  apply filter_ext_in. intros c Hc.
  destruct (q c) eqn:Q; [|reflexivity]. rewrite (H c Hc Q). reflexivity.
Qed.

Lemma filter_updateMany_other {A} (q w : A -> bool) (u : A -> A) l :
  (forall c, q (u c) = q c) ->
  (forall c, In c l -> q c = true -> w c = false) ->
  filter q (Query.updateMany w u l) = filter q l.
Proof.
  intros H1 H2. unfold Query.updateMany. apply filter_map_fixed.
  - intros c _. destruct (w c); [apply H1 | reflexivity].
  - intros c Hc Q. rewrite (H2 c Hc Q). reflexivity.
Qed.

Lemma filter_app_other {A} (q : A -> bool) l x :
  q x = false -> filter q (l ++ [x]) = filter q l.
Proof.
  intros Q. rewrite filter_app. simpl. rewrite Q. apply app_nil_r.
Qed.

(** Under I2 the cards of a list are cards of the board of the list. *)
Lemma card_of_list db c l :
  NoDup (map ListDoc._id (lists db)) -> I2 db ->
  In c (cards db) -> In l (lists db) -> CardDoc.listId c = ListDoc._id l ->
  CardDoc.boardId c = ListDoc.boardId l.
Proof.
  intros NL H2 Hc Hl E. destruct (H2 c Hc) as (l' & Hl' & E1 & E2).
  assert (l' = l) by (apply (same_id_same_doc ListDoc._id (lists db)); congruence).
  congruence.
Qed.

Lemma cards_of_same_list db c d :
  NoDup (map ListDoc._id (lists db)) -> I2 db ->
  In c (cards db) -> In d (cards db) -> CardDoc.listId c = CardDoc.listId d ->
  CardDoc.boardId c = CardDoc.boardId d.
Proof.
  intros NL H2 Hc Hd E. destruct (H2 d Hd) as (l & Hl & E1 & E2).
  rewrite <- E2. apply (card_of_list db); first [assumption | congruence].
Qed.

Lemma effect_other_boards db r db' B :
  Effect db r db' -> uniqueIds db -> I2 db ->
  api.boardOf r db <> Some B ->
  filter (fun b => BoardDoc._id b =? B)%string (boards db')
  = filter (fun b => BoardDoc._id b =? B)%string (boards db)
  /\ filter (inBoard B) (lists db') = filter (inBoard B) (lists db)
  /\ filter (fun c => CardDoc.boardId c =? B)%string (cards db')
     = filter (fun c => CardDoc.boardId c =? B)%string (cards db).
Proof.
  intros E [NC NL] H2 HB. effect_cases E; simpl in HB; try rewrite F in HB;
    simpl in HB.
  - auto.
  - repeat split. simpl. apply filter_app_other. simpl.
    apply String.eqb_neq. congruence.
  - pose proof (findById_some CardDoc._id _ _ _ F) as [Hin _].
    destruct (moveToList_touches now card listId (Some p) db) as (EB & EL & FC).
    rewrite EB, EL. repeat split.
    apply (touched_filter _ _ _ _ _ FC).
    intros c c' Hc (Ri & Rb & _ & _ & _ & Rc).
    rewrite Rb. split; [reflexivity|]. intros Q. apply String.eqb_eq in Q.
    destruct Rc as [E|[Hl|[Hl|Hid]]]; [exact E| | |]; exfalso; apply HB; f_equal;
      rewrite <- Q; symmetry.
    + apply (cards_of_same_list db); assumption.
    + unfold destination in Hl.
      destruct (String.eqb_spec (CardDoc.listId card) listId) as [Heq|Hne].
      * apply (cards_of_same_list db); assumption.
      * destruct (Ht (not_eq_sym Hne)) as (target & Ft & Hb & _).
        apply findById_some in Ft. destruct Ft as [Ht1 Ht2].
        rewrite <- Hb. apply (card_of_list db); first [assumption | congruence].
    + f_equal. apply (same_id_same_doc CardDoc._id (cards db)); assumption.
  - pose proof (findById_some CardDoc._id _ _ _ F) as [Hin _].
    rewrite cardSchemaFacts.deleteOne_cards. simpl. repeat split.
    rewrite filter_updateMany_other.
    + apply filter_deleteMany_other. intros c Hc Q. apply String.eqb_eq in Q.
      apply String.eqb_neq. intros Hid. apply HB. f_equal. rewrite <- Q. f_equal.
      symmetry. apply (same_id_same_doc CardDoc._id (cards db)); assumption.
    + intros c. reflexivity.
    + intros c Hc Q. apply String.eqb_eq in Q.
      apply in_deleteMany in Hc. destruct Hc as [Hc _].
      unfold liveInList, inList.
      destruct (String.eqb_spec (CardDoc.listId c) (CardDoc.listId card)) as [Hl|];
        [|reflexivity].
      exfalso. apply HB. f_equal. rewrite <- Q. symmetry.
      apply (cards_of_same_list db); assumption.
  - repeat split. simpl. apply filter_app_other. unfold inBoard. simpl.
    apply String.eqb_neq. congruence.
  - pose proof (findById_some ListDoc._id _ _ _ F) as [Hin _].
    destruct (moveToPosition_lists list p db Hin Hp) as (EB & EC & EL).
    rewrite EB, EC. repeat split.
    destruct EL as [EL|(_ & EL)]; rewrite EL; [reflexivity|].
    apply filter_map_fixed.
    + intros l _. apply inBoard_same, reordered_fields.
    + intros l Hl Q. apply inBoard_true in Q.
      assert (Hid : ListDoc._id l <> ListDoc._id list).
      { intros Hid. apply HB. f_equal. rewrite <- Q. f_equal. symmetry.
        apply (same_id_same_doc ListDoc._id (lists db)); assumption. }
      apply (reordered_other list p l Hid). congruence.
  - pose proof (findById_some ListDoc._id _ _ _ F) as [Hin Hid].
    repeat split. simpl. apply filter_updateMany_other.
    + intros l. reflexivity.
    + intros l Hl Q. apply inBoard_true in Q.
      apply String.eqb_neq. intros Hid'. apply HB. f_equal. rewrite <- Q. f_equal.
      symmetry. apply (same_id_same_doc ListDoc._id (lists db)); congruence.
  - pose proof (findById_some ListDoc._id _ _ _ F) as [Hin Hid].
    rewrite listSchemaFacts.deleteOne_lists. simpl. repeat split.
    + rewrite filter_updateMany_other.
      * apply filter_deleteMany_other. intros l Hl Q. apply inBoard_true in Q.
        apply String.eqb_neq. intros Hid'. apply HB. f_equal. rewrite <- Q. f_equal.
        symmetry. apply (same_id_same_doc ListDoc._id (lists db)); assumption.
      * intros l. reflexivity.
      * intros l Hl Q. apply inBoard_true in Q. unfold inBoard.
        destruct (String.eqb_spec (ListDoc.boardId l) (ListDoc.boardId list));
          [|reflexivity].
        exfalso. apply HB. congruence.
    + apply filter_deleteMany_other. intros c Hx Q. apply String.eqb_eq in Q.
      apply String.eqb_neq. intros Hl. apply HB. f_equal. rewrite <- Q. symmetry.
      apply (card_of_list db); first [assumption | congruence].
  - pose proof (findById_some BoardDoc._id _ _ _ F) as [Hin Hid].
    rewrite boardSchema_deleteOne. simpl. repeat split;
      apply filter_deleteMany_other.
    + intros b _ Q. apply String.eqb_eq in Q. apply String.eqb_neq. congruence.
    + intros l _ Q. apply inBoard_true in Q. apply String.eqb_neq. congruence.
    + intros c _ Q. apply String.eqb_eq in Q. apply String.eqb_neq. congruence.
Qed.

(** ** The invariants along any sequence of requests *)

Lemma run_invariant (Inv : DB -> Prop) :
  (forall r db, Inv db -> Inv (snd (api.handle r db))) ->
  forall rs db, Inv db -> Inv (api.run rs db).
Proof.
  intros Step rs. induction rs as [|r rs IH]; intros db H; simpl; auto.
Qed.

Lemma dbTwoBoards_uniqueIds : uniqueIds MoreSamples.dbTwoBoards.
Proof. split; repeat constructor; simpl; intuition discriminate. Qed.

Lemma dbTwoBoards_I2 : I2 MoreSamples.dbTwoBoards.
Proof.
  intros c [<-|[<-|[<-|[]]]]; simpl;
    [exists (ListDoc.mk "la" "board1" 0 false None)
    |exists (ListDoc.mk "la" "board1" 0 false None)
    |exists (ListDoc.mk "lc" "board2" 0 false None)]; simpl; auto.
Qed.

(** X5. Along any sequence of requests every list and every card belongs
    to a stored board: the creating handlers look the board up, and
    deleting a board removes its lists and cards. *)
Theorem requests_keep_boardsExist rs db : boardsExist db -> boardsExist (api.run rs db).
Proof.
  apply (run_invariant boardsExist). intros r db0.
  apply effect_boardsExist with (r := r). apply handle_effect.
Qed.

Lemma requests_keep_boardsExist_witness :
  boardsExist (api.run MoreSamples.listRequests MoreSamples.dbTwoBoards).
Proof.
  apply requests_keep_boardsExist.
  split; simpl; intros d H; repeat (destruct H as [<-|H]; [reflexivity|]);
    contradiction.
Defined.

(** X6. I2 along a sequence of requests: when every card is in a stored
    list of its own board, it stays so, as long as each card that is
    created names a stored list of the board it names: [createCard] takes
    [listId] and [boardId] from the request without comparing them; the
    moves, the deletions and the list requests keep I2 by themselves. *)
Theorem requests_keep_I2 rs :
  forall db, uniqueIds db -> api.eachRequest createsInList rs db -> I2 db ->
             I2 (api.run rs db).
Proof.
  induction rs as [|r rs IH]; intros db U Hc H2; simpl; [exact H2|].
  destruct Hc as [Hc Hrest].
  pose proof (handle_effect r db) as E.
  apply IH; [|exact Hrest|].
  - apply (effect_uniqueIds db r); assumption.
  - apply (effect_I2 db r); assumption.
Qed.

Lemma requests_keep_I2_witness :
  I2 (api.run MoreSamples.listRequests MoreSamples.dbTwoBoards).
Proof.
  apply requests_keep_I2;
    [exact dbTwoBoards_uniqueIds | | exact dbTwoBoards_I2].
  simpl. repeat split.
  exists (ListDoc.mk "lb" "board1" 2 false None). vm_compute. auto.
Defined.

(** X8. A request changes the database only on behalf of a member of the
    board concerned (the board named, or the board of the card or list
    named), and a board is deleted only on behalf of its owner. *)
Theorem changes_need_membership r db :
  snd (api.handle r db) <> db ->
  exists B board,
    api.boardOf r db = Some B
    /\ Query.findById BoardDoc._id B (boards db) = Some board
    /\ boardSchema.isMember board (api.user r) = true
    /\ match r with
       | api.DeleteBoardById _ _ => boardSchema.isOwner board (api.user r) = true
       | _ => True
       end.
Proof. apply effect_by_member. apply handle_effect. Qed.

Lemma changes_need_membership_witness :
  exists B board,
    api.boardOf (api.DeleteCardById "bob" "a1") MoreSamples.dbTwoBoards = Some B
    /\ Query.findById BoardDoc._id B (boards MoreSamples.dbTwoBoards) = Some board
    /\ boardSchema.isMember board "bob" = true
    /\ True.
Proof.
  apply (changes_need_membership (api.DeleteCardById "bob" "a1")
           MoreSamples.dbTwoBoards).
  vm_compute. discriminate.
Defined.

(** X9. Boards are isolated: with unique ids and I2, a request leaves
    every board other than the one it is about, with all the lists and
    all the cards of that other board, exactly as they were. *)
Theorem other_boards_untouched r db B :
  uniqueIds db -> I2 db -> api.boardOf r db <> Some B ->
  let db' := snd (api.handle r db) in
  filter (fun b => BoardDoc._id b =? B)%string (boards db')
  = filter (fun b => BoardDoc._id b =? B)%string (boards db)
  /\ filter (inBoard B) (lists db') = filter (inBoard B) (lists db)
  /\ filter (fun c => CardDoc.boardId c =? B)%string (cards db')
     = filter (fun c => CardDoc.boardId c =? B)%string (cards db).
Proof.
  intros U H2 HB. apply (effect_other_boards db r); auto. apply handle_effect.
Qed.

Lemma other_boards_untouched_witness :
  let db' := snd (api.handle (api.DeleteBoardById "alice" "board1")
                    MoreSamples.dbTwoBoards) in
  filter (fun b => BoardDoc._id b =? "board2")%string (boards db')
  = filter (fun b => BoardDoc._id b =? "board2")%string (boards MoreSamples.dbTwoBoards)
  /\ filter (inBoard "board2") (lists db')
     = filter (inBoard "board2") (lists MoreSamples.dbTwoBoards)
  /\ filter (fun c => CardDoc.boardId c =? "board2")%string (cards db')
     = filter (fun c => CardDoc.boardId c =? "board2")%string
         (cards MoreSamples.dbTwoBoards).
Proof.
  apply (other_boards_untouched (api.DeleteBoardById "alice" "board1")
           MoreSamples.dbTwoBoards "board2");
    [exact dbTwoBoards_uniqueIds | exact dbTwoBoards_I2 | simpl; discriminate].
Defined.

(** ** The card limit on moves to another list *)

Lemma moveCard_result now userId cardId listId position db card board :
  Query.findById CardDoc._id cardId (cards db) = Some card ->
  Query.findById BoardDoc._id (CardDoc.boardId card) (boards db) = Some board ->
  boardSchema.isMember board userId = true ->
  cardController.moveCard now userId cardId listId position db
  = match cardController.checkTargetList card listId db with
    | (inr (Some response), _) => (response, db)
    | (inr None, _) =>
        match cardSchema.moveToList now card listId position db with
        | (inr moved, db') => (json 200 "Card moved successfully" (CardData moved), db')
        | (inl _, db') => (json 500 "Failed to move card" NoData, db')
        end
    | (inl _, db') => (json 500 "Failed to move card" NoData, db')
    end.
Proof.
  intros F G M. unfold cardController.moveCard, try_catch. run_async.
  rewrite F, G, M. simpl.
  destruct (checkTargetList_cases card listId db) as (r & -> & _).
  destruct r as [response|]; [reflexivity|].
  destruct (cardSchema.moveToList now card listId position db) as [[e|c] db'];
    reflexivity.
Qed.

Lemma isCardLimitExceeded_limit this limit db :
  ListDoc.cardLimit this = Some limit -> limit <> 0 ->
  listSchema.isCardLimitExceeded this db
  = (inr (limit <=? cardSiblingCount (ListDoc._id this) db), db).
Proof.
  intros E Hl. unfold listSchema.isCardLimitExceeded. rewrite E.
  destruct (Z.eqb_spec limit 0) as [|_]; [contradiction|]. reflexivity.
Qed.

Lemma checkTargetList_limit card listId db target limit :
  listId <> CardDoc.listId card ->
  Query.findById ListDoc._id (castObjectId listId) (lists db) = Some target ->
  ListDoc.boardId target = CardDoc.boardId card ->
  ListDoc.cardLimit target = Some limit -> limit <> 0 ->
  cardController.checkTargetList card listId db
  = (inr (if limit <=? cardSiblingCount (castObjectId listId) db
          then Some (json 400 "Target list has reached its card limit" NoData)
          else None), db).
Proof.
  intros Hne F Hb El Hl. unfold cardController.checkTargetList.
  destruct (String.eqb_spec listId (CardDoc.listId card)) as [|_]; [contradiction|].
  simpl. run_async. rewrite F.
  destruct (String.eqb_spec (ListDoc.boardId target) (CardDoc.boardId card))
    as [_|]; [|contradiction].
  simpl. rewrite (isCardLimitExceeded_limit target limit db El Hl).
  pose proof (findById_some ListDoc._id _ _ _ F) as [_ ->].
  destruct (limit <=? cardSiblingCount (castObjectId listId) db); reflexivity.
Qed.

(** A move to another list whose save fails validation throws. *)
Lemma moveToList_across_throws now this newListId newPosition db :
  CardDoc.listId this <> newListId ->
  resolvePosition (castObjectId newListId) newPosition db < 0
  \/ CardModel.dueDateError now this <> None ->
  exists e db', cardSchema.moveToList now this newListId newPosition db = (inl e, db').
Proof.
  intros Hraw H. unfold cardSchema.moveToList.
  destruct (String.eqb_spec (CardDoc.listId this) newListId) as [|_]; [contradiction|].
  unfold CardModel.saveListIdPosition, CardModel.validate, CardModel.dueDateError in *.
  destruct newPosition as [p|]; run_async.
  - destruct (Z.ltb_spec p 0) as [Hp|Hp]; [eauto|].
    destruct H as [H|H]; [simpl in H; lia|].
    destruct (CardDoc.dueDate this) as [v|]; [|contradiction].
    destruct (now <? v); [contradiction | eauto].
  - rewrite countDocuments_nonneg.
    destruct H as [H|H]; [simpl in H; unfold Query.countDocuments in H; lia|].
    destruct (CardDoc.dueDate this) as [v|]; [|contradiction].
    destruct (now <? v); [contradiction | eauto].
Qed.

(** X10. The card limit on moves: when a card is moved to another list of
    its board that has a card limit, named by a string that is not the id
    of the card's list nor another spelling of it, a list that holds as
    many non-archived cards as its limit, or more, refuses the move with
    400 and no change; a move that answers 200 found the list below its
    limit and leaves it with one non-archived card more, or as many when
    the moved card is archived. *)
Theorem moveCard_respects_cardLimit
        now userId cardId listId position db card board target limit :
  NoDup (map CardDoc._id (cards db)) ->
  Query.findById CardDoc._id cardId (cards db) = Some card ->
  Query.findById BoardDoc._id (CardDoc.boardId card) (boards db) = Some board ->
  boardSchema.isMember board userId = true ->
  listId <> CardDoc.listId card ->
  castObjectId listId <> CardDoc.listId card ->
  Query.findById ListDoc._id (castObjectId listId) (lists db) = Some target ->
  ListDoc.boardId target = CardDoc.boardId card ->
  ListDoc.cardLimit target = Some limit -> limit <> 0 ->
  let L := castObjectId listId in
  let r := cardController.moveCard now userId cardId listId position db in
  (limit <= cardSiblingCount L db ->
   r = (json 400 "Target list has reached its card limit" NoData, db))
  /\ (status (fst r) = 200 ->
      cardSiblingCount L db < limit
      /\ cardSiblingCount L (snd r)
         = cardSiblingCount L db + (if CardDoc.archived card then 0 else 1)).
Proof.
  intros N F G M Hraw Hne Ft Hb El Hl L r. subst r. fold L in Hne, Ft.
  rewrite (moveCard_result now userId cardId listId position db card board F G M).
  rewrite (checkTargetList_limit card listId db target limit Hraw Ft Hb El Hl).
  fold L.
  pose proof (findById_some CardDoc._id _ _ _ F) as [Hin _].
  destruct (Z.leb_spec limit (cardSiblingCount L db)) as [Hfull|Hroom].
  - split; [reflexivity|]. simpl. discriminate.
  - split; [lia|]. intros H200. split; [exact Hroom|].
    assert (Hraw' : CardDoc.listId card <> listId) by congruence.
    assert (Hne' : CardDoc.listId card <> L) by congruence.
    destruct (Z.ltb_spec (resolvePosition L position db) 0) as [Hneg|Ht].
    { destruct (moveToList_across_throws now card listId position db Hraw'
                  (or_introl Hneg)) as (e & db' & E).
      rewrite E in H200. discriminate. }
    destruct (CardModel.dueDateError now card) as [msg|] eqn:Hd.
    { destruct (moveToList_across_throws now card listId position db Hraw')
        as (e & db' & E); [right; rewrite Hd; discriminate|].
      rewrite E in H200. discriminate. }
    rewrite cardSchemaFacts.moveToList_across by assumption.
    fold L. simpl. set (t := resolvePosition L position db).
    pose proof (count_move CardDoc._id (liveInList L)
                  (movedAcross card L t) (cards db) card N Hin) as C.
    unfold cardSiblingCount, Query.countDocuments in *. simpl.
    assert (Q : liveInList L card = false).
    { unfold liveInList, inList.
      destruct (String.eqb_spec (CardDoc.listId card) L); [contradiction|].
      reflexivity. }
    assert (Q' : liveInList L (movedAcross card L t card) = negb (CardDoc.archived card)).
    { rewrite movedAcross_this. unfold liveInList, inList. simpl.
      rewrite String.eqb_refl. reflexivity. }
    rewrite Q, Q' in C.
    assert (C' : (length (filter (liveInList L)
                    (map (movedAcross card L t) (cards db))) + 0
                  = length (filter (liveInList L) (cards db))
                    + (if negb (CardDoc.archived card) then 1 else 0))%nat).
    { apply C. intros c Hc Hid.
      apply liveInList_same; [|apply movedAcross_archived].
      apply (movedAcross_other card L t c Hne' Hid). }
    destruct (CardDoc.archived card); simpl in C'; lia.
Qed.

Lemma moveCard_respects_cardLimit_witness :
  let r := cardController.moveCard 0 "alice" "a0" "lB" (Some 0) Samples.dbFullList in
  (1 <= cardSiblingCount "lb" Samples.dbFullList ->
   r = (json 400 "Target list has reached its card limit" NoData, Samples.dbFullList))
  /\ (status (fst r) = 200 ->
      cardSiblingCount "lb" Samples.dbFullList < 1
      /\ cardSiblingCount "lb" (snd r)
         = cardSiblingCount "lb" Samples.dbFullList
           + (if CardDoc.archived Samples.a0 then 0 else 1)).
Proof.
  apply (moveCard_respects_cardLimit 0 "alice" "a0" "lB" (Some 0) Samples.dbFullList
           Samples.a0 Samples.board1 Samples.listB 1);
    try reflexivity; try discriminate.
  repeat constructor; simpl; intuition discriminate.
Defined.

(** ** Deleting a card that is not archived *)

Lemma cardsDense_deleted P db this :
  NoDup (map CardDoc._id (cards db)) -> In this (cards db) ->
  CardDoc.archived this = false ->
  Positions.bounded (map CardDoc.position (filter (liveInList P) (cards db))) ->
  Positions.bounded
    (map CardDoc.position
       (filter (liveInList P)
          (Query.updateMany
             (fun c => liveInList (CardDoc.listId this) c
                       && (CardDoc.position this <? CardDoc.position c))
             (CardDoc.inc (-1))
             (Query.deleteMany (fun c => (CardDoc._id c =? CardDoc._id this)%string)
                (cards db))))).
Proof.
  intros N Hthis Ha Bd.
  set (U := fun d : CardDoc.t =>
              if liveInList (CardDoc.listId this) d
                 && (CardDoc.position this <? CardDoc.position d)
              then CardDoc.inc (-1) d else d).
  assert (UL : forall c, CardDoc.listId (U c) = CardDoc.listId c
                         /\ CardDoc.archived (U c) = CardDoc.archived c).
  { intros c. unfold U.
    destruct (liveInList (CardDoc.listId this) c
              && (CardDoc.position this <? CardDoc.position c)); auto. }
  unfold Query.updateMany, Query.deleteMany. fold U.
  destruct (liveInList P this) eqn:Pthis.
  - assert (EP : CardDoc.listId this = P).
    { unfold liveInList in Pthis. apply andb_prop in Pthis.
      apply inList_true. apply Pthis. }
    apply (bounded_deleted CardDoc._id CardDoc.position (liveInList P)
             (cards db) this N Hthis U); auto.
    intros c Hc E. split; [apply liveInList_same; apply UL|].
    intros Pc. unfold U, Positions.close. rewrite EP, Pc. simpl.
    destruct (CardDoc.position this <? CardDoc.position c); reflexivity.
  - rewrite (positions_deleted_elsewhere CardDoc._id CardDoc.position (liveInList P)
               (cards db) this N Hthis); auto.
    intros c Hc E. split; [apply liveInList_same; apply UL|].
    intros Pc. unfold U.
    destruct (liveInList (CardDoc.listId this) c) eqn:Q; [|reflexivity].
    exfalso. unfold liveInList, inList in *. rewrite Ha in Pthis.
    apply andb_prop in Pc. apply andb_prop in Q.
    destruct Pc as [Pc _], Q as [Q _].
    apply String.eqb_eq in Pc, Q. rewrite <- Q, Pc, String.eqb_refl in Pthis.
    discriminate.
Qed.

Lemma count_without {A} (docId : A -> ObjectId) (q : A -> bool) l this :
  NoDup (map docId l) -> In this l -> q this = true ->
  S (length (filter (fun c => q c && negb (docId c =? docId this)%string) l))
  = length (filter q l).
Proof.
  induction l as [|c l IH]; intros N Hin Q; [contradiction|].
  inversion N as [|? ? Hn N']; subst. simpl.
  destruct Hin as [->|Hin].
  - rewrite Q, String.eqb_refl. simpl. f_equal.
    f_equal. apply filter_ext_in. intros d Hd.
    destruct (String.eqb_spec (docId d) (docId this)) as [E|E].
    + exfalso. apply Hn. rewrite <- E. apply in_map. exact Hd.
    + apply andb_true_r.
  - destruct (String.eqb_spec (docId c) (docId this)) as [E|E].
    + exfalso. apply Hn. rewrite E. apply in_map. exact Hin.
    + rewrite andb_true_r. destruct (q c); simpl; rewrite (IH N' Hin Q); reflexivity.
Qed.

Lemma deleteCard_result userId cardId db card board :
  Query.findById CardDoc._id cardId (cards db) = Some card ->
  Query.findById BoardDoc._id (CardDoc.boardId card) (boards db) = Some board ->
  boardSchema.isMember board userId = true ->
  cardController.deleteCard userId cardId db
  = (json 200 "Card deleted successfully" NoData, snd (cardSchema.deleteOne card db)).
Proof.
  intros F G M. unfold cardController.deleteCard, try_catch. run_async.
  rewrite F, G, M. reflexivity.
Qed.

(** X11. Deleting a card that is not archived keeps I1 for every list,
    also when the list holds archived cards: the non-archived cards
    behind it move up by one, the number of non-archived cards of its list
    goes down by one, and no archived card is touched. *)
Theorem deleteCard_compacts userId cardId db card board :
  NoDup (map CardDoc._id (cards db)) ->
  Query.findById CardDoc._id cardId (cards db) = Some card ->
  Query.findById BoardDoc._id (CardDoc.boardId card) (boards db) = Some board ->
  boardSchema.isMember board userId = true ->
  CardDoc.archived card = false ->
  let db' := snd (cardController.deleteCard userId cardId db) in
  (forall P, I1_cards P db -> I1_cards P db')
  /\ cardSiblingCount (CardDoc.listId card) db'
     = cardSiblingCount (CardDoc.listId card) db - 1
  /\ (forall c, In c (cards db) -> CardDoc._id c <> cardId ->
        CardDoc.listId c = CardDoc.listId card -> CardDoc.archived c = false ->
        CardDoc.position card < CardDoc.position c ->
        In (CardDoc.inc (-1) c) (cards db'))
  /\ (forall c, In c (cards db) -> CardDoc.archived c = true -> In c (cards db')).
Proof.
  intros N F G M Ha db'. subst db'.
  rewrite (deleteCard_result userId cardId db card board F G M).
  pose proof (findById_some CardDoc._id _ _ _ F) as [Hin Hid].
  rewrite cardSchemaFacts.deleteOne_cards. simpl.
  split; [|split; [|split]].
  - intros P H1. apply I1_cards_bounded. apply I1_cards_bounded in H1.
    unfold cardPositions in *. simpl. apply cardsDense_deleted; assumption.
  - unfold cardSiblingCount, Query.countDocuments. simpl.
    set (P := CardDoc.listId card).
    unfold Query.updateMany, Query.deleteMany.
    rewrite (count_same (liveInList P)).
    + rewrite (filter_without CardDoc._id).
      assert (Q : liveInList P card = true).
      { unfold liveInList, inList, P. now rewrite String.eqb_refl, Ha. }
      pose proof (count_without CardDoc._id (liveInList P) (cards db) card N Hin Q).
      lia.
    + intros c _.
      destruct (liveInList P c && (CardDoc.position card <? CardDoc.position c));
        [apply liveInList_same; reflexivity | reflexivity].
  - intros c Hc Hne Hl Hc' Hp. apply in_updateMany.
    exists c. split.
    + apply in_deleteMany. split; [exact Hc|]. apply String.eqb_neq. congruence.
    + unfold liveInList, inList. rewrite Hl, String.eqb_refl, Hc'. simpl.
      destruct (Z.ltb_spec (CardDoc.position card) (CardDoc.position c));
        [reflexivity | lia].
  - intros c Hc Hc'. apply in_updateMany. exists c. split.
    + apply in_deleteMany. split; [exact Hc|]. apply String.eqb_neq.
      intros E. assert (c = card)
        by (apply (same_id_same_doc CardDoc._id (cards db)); assumption).
      congruence.
    + unfold liveInList. rewrite Hc'. simpl. rewrite andb_false_r. reflexivity.
Qed.

Lemma deleteCard_compacts_witness :
  let db' := snd (cardController.deleteCard "alice" "c0" Samples.dbArchivedMiddle) in
  (forall P, I1_cards P Samples.dbArchivedMiddle -> I1_cards P db')
  /\ cardSiblingCount "la" db' = cardSiblingCount "la" Samples.dbArchivedMiddle - 1
  /\ (forall c, In c (cards Samples.dbArchivedMiddle) -> CardDoc._id c <> "c0" ->
        CardDoc.listId c = "la" -> CardDoc.archived c = false ->
        0 < CardDoc.position c ->
        In (CardDoc.inc (-1) c) (cards db'))
  /\ (forall c, In c (cards Samples.dbArchivedMiddle) -> CardDoc.archived c = true ->
                In c (cards db')).
Proof.
  apply (deleteCard_compacts "alice" "c0" Samples.dbArchivedMiddle Samples.c0
           Samples.board1); try reflexivity.
  repeat constructor; simpl; intuition discriminate.
Defined.

(** ** Creating an item and deleting it again *)

Lemma findById_app_new {A} (docId : A -> ObjectId) l d id :
  docId d = id -> Query.hasId docId id l = false ->
  Query.findById docId id (l ++ [d]) = Some d.
Proof.
  intros <-. unfold Query.hasId, Query.findById. induction l as [|c l IH]; simpl.
  - intros _. rewrite String.eqb_refl. reflexivity.
  - destruct (docId c =? docId d)%string; simpl; [discriminate | exact IH].
Qed.

Lemma deleteMany_app_new {A} (docId : A -> ObjectId) l d id :
  docId d = id -> Query.hasId docId id l = false ->
  Query.deleteMany (fun c => docId c =? id)%string (l ++ [d]) = l.
Proof.
  intros <-. unfold Query.hasId, Query.deleteMany. induction l as [|c l IH]; simpl.
  - intros _. rewrite String.eqb_refl. reflexivity.
  - destruct (docId c =? docId d)%string; simpl; [discriminate|].
    intros H. rewrite (IH H). reflexivity.
Qed.

Lemma updateMany_none {A} (q : A -> bool) (u : A -> A) l :
  (forall c, In c l -> q c = false) -> Query.updateMany q u l = l.
Proof.
  intros H. unfold Query.updateMany. apply map_fixed.
  intros c Hc. rewrite (H c Hc). reflexivity.
Qed.

Lemma deleteList_result userId listId db list board :
  Query.findById ListDoc._id listId (lists db) = Some list ->
  Query.findById BoardDoc._id (ListDoc.boardId list) (boards db) = Some board ->
  boardSchema.isMember board userId = true ->
  cardSiblingCount listId db = 0 ->
  listController.deleteList userId listId db
  = (json 200 "List deleted successfully" NoData, snd (listSchema.deleteOne list db)).
Proof.
  intros F G M C. unfold listController.deleteList, try_catch. run_async.
  rewrite F, G, M. simpl.
  unfold cardSiblingCount, liveInList, inList in C. rewrite C. simpl.
  destruct (listSchema.deleteOne list db) as [[e|[]] db'] eqn:E; [|reflexivity].
  rewrite listSchemaFacts.deleteOne_lists in E. discriminate.
Qed.

(** X12. Creating a card and deleting it again leaves the database as it
    was, when no non-archived card of the list had a position above the
    number of cards of the list; likewise a list that is created and
    deleted again, when no list of the board had a position above the
    number of lists of the board and no stored card names the new list. *)
Theorem create_then_delete :
  (forall userId newId title listId boardId db,
      status (fst (cardController.createCard userId newId title listId boardId db)) = 201 ->
      (forall c, In c (cards db) -> CardDoc.listId c = listId ->
                 CardDoc.archived c = false ->
                 CardDoc.position c <= Query.countDocuments (inList listId) (cards db)) ->
      cardController.deleteCard userId newId
        (snd (cardController.createCard userId newId title listId boardId db))
      = (json 200 "Card deleted successfully" NoData, db))
  /\ (forall userId newId name boardId db,
         status (fst (listController.createList userId newId name boardId db)) = 201 ->
         (forall l, In l (lists db) -> ListDoc.boardId l = boardId ->
                    ListDoc.position l <= Query.countDocuments (inBoard boardId) (lists db)) ->
         (forall c, In c (cards db) -> CardDoc.listId c <> newId) ->
         listController.deleteList userId newId
           (snd (listController.createList userId newId name boardId db))
         = (json 200 "List deleted successfully" NoData, db)).
Proof.
  split.
  - intros userId newId title listId boardId db. rewrite createCard_result.
    destruct (Query.findById BoardDoc._id boardId (boards db)) as [board|] eqn:G;
      [|simpl; discriminate].
    destruct (boardSchema.isMember board userId) eqn:M; simpl; [|discriminate].
    destruct (CardModel.titleError title); [simpl; discriminate|].
    destruct (Query.hasId CardDoc._id newId (cards db)) eqn:H; [simpl; discriminate|].
    simpl. intros _ Hpos.
    set (card := CardDoc.mk newId listId boardId
                   (Query.countDocuments (inList listId) (cards db)) false None).
    rewrite (deleteCard_result userId newId _ card board); auto.
    + rewrite cardSchemaFacts.deleteOne_cards. simpl.
      rewrite (deleteMany_app_new CardDoc._id (cards db) card newId eq_refl H).
      rewrite updateMany_none; [unfold setCards; simpl; rewrite db_eta; reflexivity|].
      intros c Hc. unfold liveInList, inList. simpl.
      destruct (String.eqb_spec (CardDoc.listId c) listId) as [Hl|]; [|reflexivity].
      destruct (CardDoc.archived c) eqn:Ha; [reflexivity|]. simpl.
      apply Z.ltb_ge. apply Hpos; assumption.
    + simpl. apply (findById_app_new CardDoc._id (cards db) card newId eq_refl H).
  - intros userId newId name boardId db. rewrite createList_result.
    destruct name as [name|]; [|simpl; discriminate].
    destruct (Text.trim name =? "")%string; [simpl; discriminate|].
    destruct (Query.findById BoardDoc._id boardId (boards db)) as [board|] eqn:G;
      [|simpl; discriminate].
    destruct (boardSchema.isMember board userId) eqn:M; simpl; [|discriminate].
    destruct (ListModel.nameError (Some (Text.trim name))); [simpl; discriminate|].
    destruct (Query.hasId ListDoc._id newId (lists db)) eqn:H; [simpl; discriminate|].
    simpl. intros _ Hpos Hcards.
    set (list := ListDoc.mk newId boardId
                   (Query.countDocuments (inBoard boardId) (lists db)) false None).
    rewrite (deleteList_result userId newId _ list board); auto.
    + f_equal. rewrite listSchemaFacts.deleteOne_lists. simpl.
      rewrite (deleteMany_app_new ListDoc._id (lists db) list newId eq_refl H).
      rewrite updateMany_none.
      * unfold Query.deleteMany. rewrite (filter_ext_in _ (fun _ => true)).
        -- unfold setCards, setLists. simpl.
           replace (filter (fun _ => true) (cards db)) with (cards db)
             by (symmetry; apply forallb_filter_id; apply forallb_forall; reflexivity).
           apply db_eta.
        -- intros c Hc. destruct (String.eqb_spec (CardDoc.listId c) newId) as [E'|];
             [|reflexivity].
           exfalso. apply (Hcards c Hc E').
      * intros l Hl. unfold inBoard. simpl.
        destruct (String.eqb_spec (ListDoc.boardId l) boardId) as [Hb|]; [|reflexivity].
        simpl. apply Z.ltb_ge. apply Hpos; assumption.
    + simpl. apply (findById_app_new ListDoc._id (lists db) list newId eq_refl H).
    + unfold cardSiblingCount, Query.countDocuments. simpl.
      rewrite (filter_ext_in _ (fun _ => false)).
      * rewrite filter_none. reflexivity.
      * intros c Hc. unfold liveInList, inList.
        destruct (String.eqb_spec (CardDoc.listId c) newId) as [E|]; [|reflexivity].
        exfalso. apply (Hcards c Hc E).
Qed.

Lemma create_then_delete_witness :
  cardController.deleteCard "alice" "b0"
    (snd (cardController.createCard "alice" "b0" (Some "Write tests") "lb" "board1"
            Samples.dbTwoLists))
  = (json 200 "Card deleted successfully" NoData, Samples.dbTwoLists).
Proof.
  apply (proj1 create_then_delete "alice" "b0" (Some "Write tests") "lb" "board1"
           Samples.dbTwoLists).
  - reflexivity.
  - simpl. intros c [<-|[<-|[]]]; simpl; discriminate.
Defined.

(** ** Archiving a list and unarchiving it *)

Lemma list_eta l :
  ListDoc.mk (ListDoc._id l) (ListDoc.boardId l) (ListDoc.position l)
             (ListDoc.archived l) (ListDoc.cardLimit l) = l.
Proof. destruct l; reflexivity. Qed.

Lemma archiveList_result userId listId archived db list board :
  Query.findById ListDoc._id listId (lists db) = Some list ->
  Query.findById BoardDoc._id (ListDoc.boardId list) (boards db) = Some board ->
  boardSchema.isMember board userId = true ->
  0 <= ListDoc.position list ->
  listController.archiveList userId listId archived db
  = (json 200 (if archived then "List archived successfully"
               else "List unarchived successfully")
       (ListData (ListDoc.setArchived archived list)),
     setLists (Query.updateMany (fun l => ListDoc._id l =? listId)%string
                 (ListDoc.setArchived archived) (lists db)) db).
Proof.
  intros F G M Hp. unfold listController.archiveList, try_catch. run_async.
  rewrite F, G, M. simpl.
  destruct (Z.ltb_spec (ListDoc.position list) 0) as [|_]; [lia|]. simpl.
  rewrite (findById_hasId ListDoc._id _ _ list)
    by (pose proof (findById_some ListDoc._id _ _ _ F) as [_ ->]; exact F).
  pose proof (findById_some ListDoc._id _ _ _ F) as [_ ->]. reflexivity.
Qed.

(** X13. Archiving (or unarchiving) a list renumbers nothing: a request
    that answers 200 changes the [archived] flag of that list and nothing
    else, so every list keeps its position and every card stays as it is;
    and setting the flag back restores the database exactly. *)
Theorem archiveList_and_back userId listId archived db list :
  NoDup (map ListDoc._id (lists db)) ->
  Query.findById ListDoc._id listId (lists db) = Some list ->
  status (fst (listController.archiveList userId listId archived db)) = 200 ->
  let db1 := snd (listController.archiveList userId listId archived db) in
  boards db1 = boards db /\ cards db1 = cards db
  /\ (forall B, allListPositions B db1 = allListPositions B db)
  /\ Query.findById ListDoc._id listId (lists db1)
     = Some (ListDoc.setArchived archived list)
  /\ (forall l, In l (lists db) -> ListDoc._id l <> listId -> In l (lists db1))
  /\ listController.archiveList userId listId (ListDoc.archived list) db1
     = (json 200 (if ListDoc.archived list then "List archived successfully"
                  else "List unarchived successfully") (ListData list), db).
Proof.
  intros N F. pose proof (findById_some ListDoc._id _ _ _ F) as [Hin Hid].
  destruct (Query.findById BoardDoc._id (ListDoc.boardId list) (boards db))
    as [board|] eqn:G.
  2: { unfold listController.archiveList, try_catch. run_async.
       rewrite F, G. simpl. discriminate. }
  destruct (boardSchema.isMember board userId) eqn:M.
  2: { unfold listController.archiveList, try_catch. run_async.
       rewrite F, G, M. simpl. discriminate. }
  destruct (Z.ltb_spec (ListDoc.position list) 0) as [Hp|Hp].
  { unfold listController.archiveList, try_catch. run_async.
    rewrite F, G, M. simpl.
    destruct (Z.ltb_spec (ListDoc.position list) 0) as [_|]; [|lia].
    simpl. discriminate. }
  rewrite (archiveList_result userId listId archived db list board F G M Hp).
  intros _. simpl.
  set (U := fun l => if (ListDoc._id l =? listId)%string
                     then ListDoc.setArchived archived l else l).
  assert (F1 : Query.findById ListDoc._id listId
                 (Query.updateMany (fun l => ListDoc._id l =? listId)%string
                    (ListDoc.setArchived archived) (lists db))
               = Some (ListDoc.setArchived archived list)).
  { clear - F. unfold Query.findById, Query.updateMany in *.
    induction (lists db) as [|l ls IH]; simpl in *; [discriminate|].
    destruct (String.eqb_spec (ListDoc._id l) listId) as [E|E].
    - simpl. rewrite E, String.eqb_refl. congruence.
    - destruct (String.eqb_spec (ListDoc._id l) listId); [contradiction|]. auto. }
  split; [reflexivity|]. split; [reflexivity|]. split; [|split; [exact F1|split]].
  - intros B. unfold allListPositions. simpl. unfold Query.updateMany.
    apply (positions_unchanged ListDoc.position (inBoard B));
      intros l _; destruct (ListDoc._id l =? listId)%string; reflexivity.
  - intros l Hl Hne. apply in_updateMany. exists l. split; [exact Hl|].
    destruct (String.eqb_spec (ListDoc._id l) listId); [contradiction | reflexivity].
  - rewrite (archiveList_result userId listId (ListDoc.archived list) _
               (ListDoc.setArchived archived list) board); auto.
    f_equal.
    + f_equal. f_equal. unfold ListDoc.setArchived. simpl. apply list_eta.
    + unfold setLists. simpl. unfold Query.updateMany. rewrite map_map.
      rewrite map_fixed; [apply db_eta|].
      intros l Hl. destruct (String.eqb_spec (ListDoc._id l) listId) as [E|E].
      * simpl. rewrite E, String.eqb_refl.
        assert (l = list)
          by (apply (same_id_same_doc ListDoc._id (lists db)); congruence).
        subst l. unfold ListDoc.setArchived. simpl. apply list_eta.
      * destruct (String.eqb_spec (ListDoc._id l) listId); [contradiction|].
        reflexivity.
Qed.

Lemma archiveList_and_back_witness :
  let db1 := snd (listController.archiveList "bob" "K0" true Samples.dbArchivedMiddle) in
  boards db1 = boards Samples.dbArchivedMiddle
  /\ cards db1 = cards Samples.dbArchivedMiddle
  /\ (forall B, allListPositions B db1 = allListPositions B Samples.dbArchivedMiddle)
  /\ Query.findById ListDoc._id "K0" (lists db1)
     = Some (ListDoc.setArchived true Samples.K0)
  /\ (forall l, In l (lists Samples.dbArchivedMiddle) -> ListDoc._id l <> "K0" ->
                In l (lists db1))
  /\ listController.archiveList "bob" "K0" false db1
     = (json 200 "List unarchived successfully" (ListData Samples.K0),
        Samples.dbArchivedMiddle).
Proof.
  apply (archiveList_and_back "bob" "K0" true Samples.dbArchivedMiddle Samples.K0).
  - repeat constructor; simpl; intuition discriminate.
  - reflexivity.
  - reflexivity.
Defined.

(** ** Board membership *)

Module boardMethodsFacts.
Import BoardDoc boardMethods.

Lemma existsb_In u l :
  existsb (fun memberId => memberId =? u)%string l = true <-> In u l.
Proof.
  rewrite existsb_exists. split.
  - intros (m & Hm & E). apply String.eqb_eq in E. now subst.
  - intros H. exists u. split; [exact H | apply String.eqb_refl].
Qed.

Lemma existsb_not_In u l :
  existsb (fun memberId => memberId =? u)%string l = false <-> ~ In u l.
Proof.
  rewrite <- existsb_In. destruct (existsb _ l); intuition congruence.
Qed.

Lemma existsb_without u v l :
  existsb (fun memberId => memberId =? v)%string
    (filter (fun memberId => negb (memberId =? u)%string) l)
  = negb (v =? u)%string && existsb (fun memberId => memberId =? v)%string l.
Proof.
  induction l as [|m l IH]; simpl; [now rewrite andb_false_r|].
  destruct (String.eqb_spec m u) as [->|Hm]; simpl.
  - rewrite IH. rewrite (String.eqb_sym u v).
    destruct (v =? u)%string; reflexivity.
  - rewrite IH. destruct (String.eqb_spec m v) as [->|]; simpl; [|reflexivity].
    destruct (String.eqb_spec v u); [contradiction | reflexivity].
Qed.

Lemma isMember_In this u :
  boardSchema.isMember this u = true <-> In u (getAllMembers this).
Proof.
  unfold boardSchema.isMember, getAllMembers. rewrite orb_true_iff, existsb_In.
  simpl. rewrite String.eqb_eq. reflexivity.
Qed.

Lemma board_eta b : mk (_id b) (ownerId b) (members b) = b.
Proof. destruct b; reflexivity. Qed.

Lemma filter_absent u l :
  ~ In u l -> filter (fun memberId => negb (memberId =? u)%string) l = l.
Proof.
  intros H. induction l as [|m l IH]; [reflexivity|]. simpl.
  destruct (String.eqb_spec m u) as [->|_]; simpl.
  - exfalso. apply H. left. reflexivity.
  - rewrite IH; [reflexivity|]. intros Hin. apply H. right. exact Hin.
Qed.

Lemma pre_save_members this :
  members (pre_save this)
  = filter (fun memberId => negb (memberId =? ownerId this)%string) (members this).
Proof.
  unfold pre_save. destruct (members this) as [|m l] eqn:E; simpl.
  - rewrite E. reflexivity.
  - reflexivity.
Qed.

Lemma pre_save_ids this :
  _id (pre_save this) = _id this /\ ownerId (pre_save this) = ownerId this.
Proof. unfold pre_save. destruct (0 <? _)%nat; auto. Qed.

Lemma pre_save_isMember this u :
  boardSchema.isMember (pre_save this) u = boardSchema.isMember this u.
Proof.
  unfold boardSchema.isMember.
  rewrite pre_save_members, (proj2 (pre_save_ids this)), existsb_without.
  rewrite (String.eqb_sym u). destruct (ownerId this =? u)%string; reflexivity.
Qed.

Lemma pre_save_fixed this :
  ~ In (ownerId this) (members this) -> pre_save this = this.
Proof.
  intros H. unfold pre_save. destruct (0 <? _)%nat; [|reflexivity].
  rewrite (filter_absent _ _ H). apply board_eta.
Qed.
Lemma addMember_NoDup this u :
  NoDup (getAllMembers this) -> NoDup (getAllMembers (addMember this u)).
Proof.
  unfold addMember, getAllMembers.
  destruct (String.eqb_spec (ownerId this) u) as [Eo|Eo]; [auto|].
  destruct (existsb (fun memberId => memberId =? u)%string (members this)) eqn:Em;
    [auto|].
  simpl. intros N. inversion N as [|? ? Hn N']; subst. constructor.
  - rewrite in_app_iff. simpl. intuition congruence.
  - apply NoDup_app; [exact N' | repeat constructor; simpl; tauto |].
    intros m Hm [<-|[]]. apply existsb_not_In in Em. contradiction.
Qed.

Lemma removeMember_NoDup this u :
  NoDup (getAllMembers this) -> NoDup (getAllMembers (removeMember this u)).
Proof.
  unfold removeMember, getAllMembers. simpl.
  intros N. inversion N as [|? ? Hn N']; subst. constructor.
  - intros H. apply filter_In in H. apply Hn. apply H.
  - apply NoDup_filter. exact N'.
Qed.

Lemma pre_save_NoDup this :
  NoDup (members this) -> NoDup (getAllMembers (pre_save this)).
Proof.
  intros N. unfold getAllMembers.
  rewrite (proj2 (pre_save_ids this)), pre_save_members. constructor.
  - intros H. apply filter_In in H. destruct H as [_ H].
    rewrite String.eqb_refl in H. discriminate.
  - apply NoDup_filter. exact N.
Qed.

Lemma addMember_isMember this u v :
  boardSchema.isMember (addMember this u) v
  = (v =? u)%string || boardSchema.isMember this v.
Proof.
  unfold addMember, boardSchema.isMember.
  destruct (String.eqb_spec (ownerId this) u) as [Eo|Eo].
  - destruct (String.eqb_spec v u) as [->|]; [|reflexivity].
    rewrite (proj2 (String.eqb_eq _ _) Eo). reflexivity.
  - destruct (existsb (fun memberId => memberId =? u)%string (members this)) eqn:Em.
    + destruct (String.eqb_spec v u) as [->|]; [|reflexivity].
      rewrite Em. now rewrite orb_true_r.
    + simpl. rewrite existsb_app. simpl. rewrite orb_false_r.
      rewrite (String.eqb_sym u v).
      destruct (v =? u)%string;
        [rewrite !orb_true_r | rewrite !orb_false_r]; reflexivity.
Qed.

Lemma removeMember_isMember this u v :
  boardSchema.isMember (removeMember this u) v
  = boardSchema.isOwner this v || (negb (v =? u)%string && boardSchema.isMember this v).
Proof.
  unfold removeMember, boardSchema.isMember, boardSchema.isOwner. simpl.
  rewrite existsb_without.
  destruct (ownerId this =? v)%string, (v =? u)%string; reflexivity.
Qed.
End boardMethodsFacts.

(** X14. [addMember]: afterwards the user is a member, nobody else's
    membership has changed, adding again changes nothing, the owner is
    never put into [members] and no member is listed twice; a user who
    was no member makes [memberCount] one more, a user who was one leaves
    the board as it is. *)
Theorem addMember_adds_once this userId :
  let b := boardMethods.addMember this userId in
  boardSchema.isMember b userId = true
  /\ (forall v, v <> userId -> boardSchema.isMember b v = boardSchema.isMember this v)
  /\ boardMethods.addMember b userId = b
  /\ (NoDup (boardMethods.getAllMembers this) -> NoDup (boardMethods.getAllMembers b))
  /\ (boardSchema.isMember this userId = false ->
      boardMethods.memberCount b = boardMethods.memberCount this + 1)
  /\ (boardSchema.isMember this userId = true -> b = this).
Proof.
  unfold boardMethods.addMember, boardSchema.isMember, boardMethods.getAllMembers,
    boardMethods.memberCount.
  destruct (String.eqb_spec (BoardDoc.ownerId this) userId) as [Eo|Eo]; simpl.
  - rewrite (proj2 (String.eqb_eq _ _) Eo). simpl. repeat split; auto; discriminate.
  - destruct (existsb (fun memberId => memberId =? userId)%string
                (BoardDoc.members this)) eqn:Em; simpl.
    + destruct (String.eqb_spec (BoardDoc.ownerId this) userId); [contradiction|].
      rewrite Em. simpl. repeat split; auto; discriminate.
    + destruct (String.eqb_spec (BoardDoc.ownerId this) userId); [contradiction|].
      rewrite !existsb_app. simpl. rewrite String.eqb_refl, orb_true_r. simpl.
      repeat split; try discriminate.
      * intros v Hv. rewrite existsb_app. simpl.
        destruct (String.eqb_spec userId v); [congruence|].
        now rewrite !orb_false_r.
      * intros N.
        pose proof (boardMethodsFacts.addMember_NoDup this userId N) as N'.
        unfold boardMethods.addMember, boardMethods.getAllMembers in N'.
        destruct (String.eqb_spec (BoardDoc.ownerId this) userId); [contradiction|].
        rewrite Em in N'. exact N'.
      * intros _. rewrite length_app. simpl. lia.
Qed.

Lemma addMember_adds_once_witness :
  NoDup (boardMethods.getAllMembers (boardMethods.addMember Samples.board1 "carol"))
  /\ boardMethods.memberCount (boardMethods.addMember Samples.board1 "carol")
     = boardMethods.memberCount Samples.board1 + 1.
Proof.
  destruct (addMember_adds_once Samples.board1 "carol") as (_ & _ & _ & H4 & H5 & _).
  split.
  - apply H4. repeat constructor; simpl; intuition discriminate.
  - apply H5. reflexivity.
Defined.

(** X15. [removeMember]: afterwards the user is a member only if they
    own the board (the owner cannot be removed), nobody else's membership
    has changed, and removing again changes nothing; removing a user who
    was just added to a board they were no member of gives the board
    back. *)
Theorem removeMember_removes this userId :
  let b := boardMethods.removeMember this userId in
  boardSchema.isMember b userId = boardSchema.isOwner this userId
  /\ (forall v, v <> userId -> boardSchema.isMember b v = boardSchema.isMember this v)
  /\ boardMethods.removeMember b userId = b
  /\ (NoDup (boardMethods.getAllMembers this) -> NoDup (boardMethods.getAllMembers b))
  /\ (boardSchema.isMember this userId = false ->
      boardMethods.removeMember (boardMethods.addMember this userId) userId = this).
Proof.
  unfold boardMethods.removeMember, boardSchema.isMember, boardSchema.isOwner,
    boardMethods.getAllMembers. simpl.
  split; [|split; [|split; [|split]]].
  - rewrite boardMethodsFacts.existsb_without, String.eqb_refl. simpl.
    apply orb_false_r.
  - intros v Hv. rewrite boardMethodsFacts.existsb_without.
    destruct (String.eqb_spec v userId); [contradiction | reflexivity].
  - unfold boardMethods.setMembers. simpl. f_equal.
    apply boardMethodsFacts.filter_absent. intros H. apply filter_In in H.
    destruct H as [_ H]. rewrite String.eqb_refl in H. discriminate.
  - apply (boardMethodsFacts.removeMember_NoDup this userId).
  - intros H. apply orb_false_elim in H. destruct H as [Ho Hm].
    unfold boardMethods.addMember. rewrite Ho, Hm.
    unfold boardMethods.setMembers. simpl.
    rewrite filter_app. simpl. rewrite String.eqb_refl. simpl.
    rewrite app_nil_r, boardMethodsFacts.filter_absent.
    + apply boardMethodsFacts.board_eta.
    + apply boardMethodsFacts.existsb_not_In. exact Hm.
Qed.

Lemma removeMember_removes_witness :
  NoDup (boardMethods.getAllMembers (boardMethods.removeMember Samples.board1 "bob"))
  /\ boardMethods.removeMember (boardMethods.addMember Samples.board1 "carol") "carol"
     = Samples.board1.
Proof.
  split.
  - apply (removeMember_removes Samples.board1 "bob").
    repeat constructor; simpl; intuition discriminate.
  - apply (removeMember_removes Samples.board1 "carol"). reflexivity.
Defined.

(** X16. [getAllMembers] lists exactly the users for whom [isMember]
    holds, and [memberCount] is its length; the [pre('save')] hook changes
    nobody's membership and takes the owner out of [members], so that
    after it [memberCount] counts every member once when [members] had no
    duplicates. *)
Theorem members_listed_and_counted this :
  (forall u, boardSchema.isMember this u = true <-> In u (boardMethods.getAllMembers this))
  /\ boardMethods.memberCount this
     = Z.of_nat (length (boardMethods.getAllMembers this))
  /\ (forall u, boardSchema.isMember (boardMethods.pre_save this) u
                = boardSchema.isMember this u)
  /\ ~ In (BoardDoc.ownerId this) (BoardDoc.members (boardMethods.pre_save this))
  /\ (NoDup (BoardDoc.members this) ->
      NoDup (boardMethods.getAllMembers (boardMethods.pre_save this)))
  /\ boardMethods.pre_save (boardMethods.pre_save this) = boardMethods.pre_save this.
Proof.
  split; [|split; [|split; [|split; [|split]]]].
  - intros u. apply boardMethodsFacts.isMember_In.
  - unfold boardMethods.memberCount, boardMethods.getAllMembers. simpl length. lia.
  - apply boardMethodsFacts.pre_save_isMember.
  - rewrite boardMethodsFacts.pre_save_members. intros H. apply filter_In in H.
    destruct H as [_ H]. rewrite String.eqb_refl in H. discriminate.
  - apply boardMethodsFacts.pre_save_NoDup.
  - apply boardMethodsFacts.pre_save_fixed.
    rewrite (proj2 (boardMethodsFacts.pre_save_ids this)),
      boardMethodsFacts.pre_save_members.
    intros H. apply filter_In in H. destruct H as [_ H].
    rewrite String.eqb_refl in H. discriminate.
Qed.

Lemma members_listed_and_counted_witness :
  NoDup (boardMethods.getAllMembers
           (boardMethods.pre_save (BoardDoc.mk "board3" "alice" ["alice"; "bob"]))).
Proof.
  apply (members_listed_and_counted (BoardDoc.mk "board3" "alice" ["alice"; "bob"])).
  repeat constructor; simpl; intuition discriminate.
Defined.

(** ** The member handlers *)

Lemma findById_updateMany {A} (docId : A -> ObjectId) id (u : A -> A) l c :
  (forall d, docId (u d) = docId d) ->
  Query.findById docId id l = Some c ->
  Query.findById docId id (Query.updateMany (fun d => docId d =? id)%string u l)
  = Some (u c).
Proof.
  intros Hu. unfold Query.findById, Query.updateMany.
  induction l as [|d l IH]; simpl; [discriminate|].
  destruct (String.eqb_spec (docId d) id) as [E|E]; simpl.
  - rewrite Hu, E, String.eqb_refl. congruence.
  - destruct (String.eqb_spec (docId d) id); [contradiction | exact IH].
Qed.

Lemma save_members this board db :
  Query.findById BoardDoc._id (BoardDoc._id board) (boards db) = Some board ->
  BoardDoc._id this = BoardDoc._id board ->
  BoardDoc.ownerId this = BoardDoc.ownerId board ->
  boardMethods.save this db
  = (inr (boardMethods.pre_save this),
     setBoards
       (Query.updateMany (fun b => BoardDoc._id b =? BoardDoc._id board)%string
          (boardMethods.setMembers (BoardDoc.members (boardMethods.pre_save this)))
          (boards db)) db)
    /\ Query.findById BoardDoc._id (BoardDoc._id board)
         (Query.updateMany (fun b => BoardDoc._id b =? BoardDoc._id board)%string
            (boardMethods.setMembers (BoardDoc.members (boardMethods.pre_save this)))
            (boards db))
       = Some (boardMethods.pre_save this).
Proof.
  intros F Hid Ho. unfold boardMethods.save.
  destruct (boardMethodsFacts.pre_save_ids this) as [E1 E2].
  rewrite E1, Hid. rewrite (findById_hasId BoardDoc._id _ _ board F). split.
  - reflexivity.
  - rewrite (findById_updateMany BoardDoc._id _ _ _ board) by (reflexivity || exact F).
    f_equal. unfold boardMethods.setMembers. rewrite <- Hid, <- Ho, <- E1, <- E2.
    apply boardMethodsFacts.board_eta.
Qed.

(** The stored boards after [board.save()] with the members [ms]. *)
Lemma addMember_cases userId boardId userToAdd db :
  let r := memberController.addMember userId boardId userToAdd db in
  (memberController.boardStatus (fst r) <> 200 /\ snd r = db)
  \/ (exists board u,
        Query.findById BoardDoc._id boardId (boards db) = Some board
        /\ boardSchema.isOwner board userId = true
        /\ userToAdd = Some u
        /\ boardSchema.isMember board u = false
        /\ r = (memberController.boardJson 200 "Member added successfully"
                  (Some (boardMethods.pre_save (boardMethods.addMember board u))),
                setBoards
                  (Query.updateMany (fun b => BoardDoc._id b =? boardId)%string
                     (boardMethods.setMembers
                        (BoardDoc.members
                           (boardMethods.pre_save (boardMethods.addMember board u))))
                     (boards db)) db)
        /\ Query.findById BoardDoc._id boardId
             (Query.updateMany (fun b => BoardDoc._id b =? boardId)%string
                (boardMethods.setMembers
                   (BoardDoc.members
                      (boardMethods.pre_save (boardMethods.addMember board u))))
                (boards db))
           = Some (boardMethods.pre_save (boardMethods.addMember board u))).
Proof.
  unfold memberController.addMember, memberController.try_catch. run_async.
  destruct (Query.findById BoardDoc._id boardId (boards db)) as [board|] eqn:F;
    [|left; simpl; split; [discriminate | reflexivity]].
  destruct (boardSchema.isOwner board userId) eqn:O; simpl;
    [|left; split; [discriminate | reflexivity]].
  destruct userToAdd as [u|]; [|left; simpl; split; [discriminate | reflexivity]].
  destruct (boardSchema.isMember board u) eqn:M; simpl;
    [left; split; [discriminate | reflexivity]|].
  pose proof (findById_some BoardDoc._id _ _ _ F) as [Hin Hid]. subst boardId.
  assert (Hid' : BoardDoc._id (boardMethods.addMember board u) = BoardDoc._id board
                 /\ BoardDoc.ownerId (boardMethods.addMember board u)
                    = BoardDoc.ownerId board).
  { unfold boardMethods.addMember.
    destruct (BoardDoc.ownerId board =? u)%string; [auto|].
    destruct (existsb (fun memberId => memberId =? u)%string
                (BoardDoc.members board)); auto. }
  destruct (save_members (boardMethods.addMember board u) board db F
              (proj1 Hid') (proj2 Hid')) as [S1 S2].
  rewrite S1. simpl. right. exists board, u. auto 10.
Qed.

Lemma removeMember_cases userId boardId memberIdToRemove db :
  let r := memberController.removeMember userId boardId memberIdToRemove db in
  (memberController.boardStatus (fst r) <> 200 /\ snd r = db)
  \/ (exists board,
        Query.findById BoardDoc._id boardId (boards db) = Some board
        /\ (boardSchema.isOwner board userId = true \/ userId = memberIdToRemove)
        /\ boardSchema.isOwner board memberIdToRemove = false
        /\ r = (memberController.boardJson 200 "Member removed successfully" None,
                setBoards
                  (Query.updateMany (fun b => BoardDoc._id b =? boardId)%string
                     (boardMethods.setMembers
                        (BoardDoc.members
                           (boardMethods.pre_save
                              (boardMethods.removeMember board memberIdToRemove))))
                     (boards db)) db)
        /\ Query.findById BoardDoc._id boardId
             (Query.updateMany (fun b => BoardDoc._id b =? boardId)%string
                (boardMethods.setMembers
                   (BoardDoc.members
                      (boardMethods.pre_save
                         (boardMethods.removeMember board memberIdToRemove))))
                (boards db))
           = Some (boardMethods.pre_save
                     (boardMethods.removeMember board memberIdToRemove))).
Proof.
  unfold memberController.removeMember, memberController.try_catch. run_async.
  destruct (Query.findById BoardDoc._id boardId (boards db)) as [board|] eqn:F;
    [|left; simpl; split; [discriminate | reflexivity]].
  destruct (negb (boardSchema.isOwner board userId)
            && negb (userId =? memberIdToRemove)%string)
    eqn:A; simpl; [left; split; [discriminate | reflexivity]|].
  destruct (boardSchema.isOwner board memberIdToRemove) eqn:O; simpl;
    [left; split; [discriminate | reflexivity]|].
  pose proof (findById_some BoardDoc._id _ _ _ F) as [Hin Hid]. subst boardId.
  destruct (save_members (boardMethods.removeMember board memberIdToRemove) board db F
              eq_refl eq_refl) as [S1 S2].
  rewrite S1. simpl. right. exists board. repeat split; auto.
  apply andb_false_iff in A. destruct A as [A|A].
  - left. now apply negb_false_iff in A.
  - right. apply negb_false_iff in A. now apply String.eqb_eq in A.
Qed.

Lemma in_updateMany_other {A} (docId : A -> ObjectId) id (u : A -> A) l b :
  In b l -> docId b <> id ->
  In b (Query.updateMany (fun d => docId d =? id)%string u l).
Proof.
  intros Hb Hne. apply in_updateMany. exists b. split; [exact Hb|].
  destruct (String.eqb_spec (docId b) id); [contradiction | reflexivity].
Qed.

(** X17. [addMember] and [removeMember] requests. Anything but a 200
    leaves the database as it is. A 200 from [addMember] means that the
    requester owns the board and that the user found was no member; a 200
    from [removeMember] means that the requester owns the board or
    removes themself, and that the user removed is not the owner. Then
    the stored board differs in the membership of that one user only, and
    the other boards, the lists and the cards are as they were. *)
Theorem member_requests :
  (forall userId boardId userToAdd db,
      let r := memberController.addMember userId boardId userToAdd db in
      (memberController.boardStatus (fst r) <> 200 -> snd r = db)
      /\ (memberController.boardStatus (fst r) = 200 ->
          exists board u board',
            Query.findById BoardDoc._id boardId (boards db) = Some board
            /\ boardSchema.isOwner board userId = true
            /\ userToAdd = Some u
            /\ boardSchema.isMember board u = false
            /\ lists (snd r) = lists db /\ cards (snd r) = cards db
            /\ (forall b, In b (boards db) -> BoardDoc._id b <> boardId ->
                          In b (boards (snd r)))
            /\ memberController.boardData (fst r) = Some board'
            /\ Query.findById BoardDoc._id boardId (boards (snd r)) = Some board'
            /\ BoardDoc.ownerId board' = BoardDoc.ownerId board
            /\ forall v, boardSchema.isMember board' v
                         = (v =? u)%string || boardSchema.isMember board v))
  /\ (forall userId boardId memberIdToRemove db,
         let r := memberController.removeMember userId boardId memberIdToRemove db in
         (memberController.boardStatus (fst r) <> 200 -> snd r = db)
         /\ (memberController.boardStatus (fst r) = 200 ->
             exists board board',
               Query.findById BoardDoc._id boardId (boards db) = Some board
               /\ (boardSchema.isOwner board userId = true \/ userId = memberIdToRemove)
               /\ boardSchema.isOwner board memberIdToRemove = false
               /\ lists (snd r) = lists db /\ cards (snd r) = cards db
               /\ (forall b, In b (boards db) -> BoardDoc._id b <> boardId ->
                             In b (boards (snd r)))
               /\ Query.findById BoardDoc._id boardId (boards (snd r)) = Some board'
               /\ BoardDoc.ownerId board' = BoardDoc.ownerId board
               /\ forall v, boardSchema.isMember board' v
                            = negb (v =? memberIdToRemove)%string
                              && boardSchema.isMember board v)).
Proof.
  split.
  - intros userId boardId userToAdd db r. subst r.
    destruct (addMember_cases userId boardId userToAdd db)
      as [[Hs ->]|(board & u & F & O & -> & M & E & F')].
    + split; [reflexivity | contradiction].
    + rewrite E. simpl. split; [congruence|]. intros _.
      exists board, u, (boardMethods.pre_save (boardMethods.addMember board u)).
      repeat split; auto.
      * intros b. apply in_updateMany_other.
      * rewrite (proj2 (boardMethodsFacts.pre_save_ids _)).
        unfold boardMethods.addMember.
        destruct (BoardDoc.ownerId board =? u)%string; [reflexivity|].
        destruct (existsb (fun memberId => memberId =? u)%string
                    (BoardDoc.members board)); reflexivity.
      * intros v. rewrite boardMethodsFacts.pre_save_isMember.
        apply boardMethodsFacts.addMember_isMember.
  - intros userId boardId member db r. subst r.
    destruct (removeMember_cases userId boardId member db)
      as [[Hs ->]|(board & F & A & O & E & F')].
    + split; [reflexivity | contradiction].
    + rewrite E. simpl. split; [congruence|]. intros _.
      exists board, (boardMethods.pre_save (boardMethods.removeMember board member)).
      repeat split; auto.
      * intros b. apply in_updateMany_other.
      * rewrite (proj2 (boardMethodsFacts.pre_save_ids _)). reflexivity.
      * intros v. rewrite boardMethodsFacts.pre_save_isMember,
          boardMethodsFacts.removeMember_isMember.
        unfold boardSchema.isOwner, boardSchema.isMember in *.
        destruct (String.eqb_spec v member) as [->|]; simpl.
        -- rewrite O. reflexivity.
        -- destruct (BoardDoc.ownerId board =? v)%string; reflexivity.
Qed.

Lemma member_requests_witness :
  snd (memberController.removeMember "bob" "board1" "alice" Samples.dbTwoLists)
  = Samples.dbTwoLists.
Proof.
  apply (proj1 (proj2 member_requests "bob" "board1" "alice" Samples.dbTwoLists)).
  vm_compute. discriminate.
Defined.

(** ** Membership decides access *)




(** ** The members of every board stay distinct *)

(** X19. When board ids are unique and the members of every stored board
    are distinct and do not include its owner, this is still so after an
    [addMember] or a [removeMember] request, whatever it answers. *)
Theorem member_requests_keep_membersDistinct db :
  NoDup (map BoardDoc._id (boards db)) -> membersDistinct db ->
  (forall userId boardId userToAdd,
      membersDistinct (snd (memberController.addMember userId boardId userToAdd db)))
  /\ (forall userId boardId memberIdToRemove,
         membersDistinct
           (snd (memberController.removeMember userId boardId memberIdToRemove db))).
Proof.
  intros N D.
  assert (K : forall boardId board this,
             Query.findById BoardDoc._id boardId (boards db) = Some board ->
             BoardDoc.ownerId this = BoardDoc.ownerId board ->
             NoDup (boardMethods.getAllMembers this) ->
             membersDistinct
               (setBoards
                  (Query.updateMany (fun b => BoardDoc._id b =? boardId)%string
                     (boardMethods.setMembers
                        (BoardDoc.members (boardMethods.pre_save this)))
                     (boards db)) db)).
  { intros boardId board this F Ho Nd b' Hb'. simpl in Hb'.
    apply in_updateMany in Hb'. destruct Hb' as (b & Hb & ->).
    destruct (String.eqb_spec (BoardDoc._id b) boardId) as [E|E]; [|auto].
    pose proof (findById_some BoardDoc._id _ _ _ F) as [Hin Hid].
    assert (b = board)
      by (apply (same_id_same_doc BoardDoc._id (boards db)); congruence).
    subst b.
    pose proof (boardMethodsFacts.pre_save_NoDup this) as P.
    unfold boardMethods.getAllMembers in *. simpl.
    rewrite (proj2 (boardMethodsFacts.pre_save_ids this)), Ho in P.
    apply P. now inversion Nd. }
  split.
  - intros userId boardId userToAdd.
    destruct (addMember_cases userId boardId userToAdd db)
      as [[_ ->]|(board & u & F & O & _ & M & E & _)]; [exact D|].
    rewrite E. simpl. apply (K boardId board); [exact F| |].
    + unfold boardMethods.addMember.
      destruct (BoardDoc.ownerId board =? u)%string; [reflexivity|].
      destruct (existsb (fun memberId => memberId =? u)%string
                  (BoardDoc.members board)); reflexivity.
    + apply boardMethodsFacts.addMember_NoDup. apply D.
      apply (findById_some BoardDoc._id _ _ _ F).
  - intros userId boardId member.
    destruct (removeMember_cases userId boardId member db)
      as [[_ ->]|(board & F & _ & O & E & _)]; [exact D|].
    rewrite E. simpl. apply (K boardId board); [exact F | reflexivity |].
    apply boardMethodsFacts.removeMember_NoDup. apply D.
    apply (findById_some BoardDoc._id _ _ _ F).
Qed.

Lemma member_requests_keep_membersDistinct_witness :
  membersDistinct
    (snd (memberController.addMember "alice" "board1" (Some "carol") Samples.dbTwoLists)).
Proof.
  apply (member_requests_keep_membersDistinct Samples.dbTwoLists).
  - repeat constructor; simpl; intuition discriminate.
  - intros b [<-|[]]. repeat constructor; simpl; intuition discriminate.
Defined.

(** ** Sorting by position *)

Module PositionSortFacts.
Import PositionSort.

Section ByPosition.
Context {A : Type}.
Variable pos : A -> Z.

Lemma insertBy_perm x l : Permutation (insertBy pos x l) (x :: l).
Proof.
  induction l as [|y l IH]; simpl; [reflexivity|].
  destruct (pos x <=? pos y); [reflexivity|].
  rewrite IH. apply perm_swap.
Qed.

Lemma sortBy_perm l : Permutation (sortBy pos l) l.
Proof.
  induction l as [|x l IH]; simpl; [reflexivity|].
  rewrite insertBy_perm. now constructor.
Qed.

Lemma insertBy_sorted x l :
  StronglySorted Z.le (map pos l) -> StronglySorted Z.le (map pos (insertBy pos x l)).
Proof.
  induction l as [|y l IH]; simpl; intros S.
  - repeat constructor.
  - inversion S as [|? ? S' Hall]; subst.
    destruct (Z.leb_spec (pos x) (pos y)) as [Hle|Hgt]; simpl.
    + constructor; [exact S|]. constructor; [exact Hle|].
      eapply Forall_impl; [|exact Hall]. intros z Hz. simpl in Hz. lia.
    + constructor; [apply IH; exact S'|].
      apply (Permutation_Forall
               (Permutation_sym (Permutation_map pos (insertBy_perm x l)))).
      simpl. constructor; [lia | exact Hall].
Qed.

Lemma sortBy_sorted l : StronglySorted Z.le (map pos (sortBy pos l)).
Proof.
  induction l as [|x l IH]; simpl; [constructor|]. apply insertBy_sorted. exact IH.
Qed.
End ByPosition.

Lemma sortByPosition_sortBy cs : sortByPosition cs = sortBy CardDoc.position cs.
Proof.
  unfold sortByPosition, sortBy. induction cs as [|c cs IH]; simpl; [reflexivity|].
  rewrite IH. generalize (fold_right (insertBy CardDoc.position) [] cs).
  intros l. induction l as [|d l IHl]; simpl; [reflexivity|].
  rewrite IHl. reflexivity.
Qed.

Lemma sorted_lt_unique l1 :
  forall l2, StronglySorted Z.lt l1 -> StronglySorted Z.lt l2 ->
             (forall z, In z l1 <-> In z l2) -> l1 = l2.
Proof.
  induction l1 as [|a l1 IH]; intros [|b l2] S1 S2 H.
  - reflexivity.
  - exfalso. apply (H b). left. reflexivity.
  - exfalso. apply (H a). left. reflexivity.
  - inversion S1 as [|? ? S1' F1]; inversion S2 as [|? ? S2' F2]; subst.
    pose proof (proj1 (Forall_forall _ _) F1) as H1.
    pose proof (proj1 (Forall_forall _ _) F2) as H2.
    assert (a = b).
    { destruct (proj1 (H a) (or_introl eq_refl)) as [E|E]; [auto|].
      destruct (proj2 (H b) (or_introl eq_refl)) as [E'|E']; [auto|].
      specialize (H1 b E'). specialize (H2 a E). lia. }
    subst b. f_equal. apply IH; auto.
    intros z. split; intros Hz.
    + destruct (proj1 (H z) (or_intror Hz)) as [E|E]; [|exact E].
      specialize (H1 z Hz). lia.
    + destruct (proj2 (H z) (or_intror Hz)) as [E|E]; [|exact E].
      specialize (H2 z Hz). lia.
Qed.

Lemma seq_sorted n : forall k, StronglySorted Z.lt (map Z.of_nat (seq k n)).
Proof.
  induction n as [|n IH]; intros k; simpl; constructor; [apply IH|].
  apply Forall_forall. intros z Hz. apply in_map_iff in Hz.
  destruct Hz as (m & <- & Hm). apply in_seq in Hm. lia.
Qed.

Lemma in_countUp n z : In z (countUp n) <-> 0 <= z < Z.of_nat n.
Proof.
  unfold countUp. rewrite in_map_iff. split.
  - intros (m & <- & Hm). apply in_seq in Hm. lia.
  - intros Hz. exists (Z.to_nat z). split; [lia|]. apply in_seq. lia.
Qed.

Lemma sorted_le_lt ps :
  NoDup ps -> StronglySorted Z.le ps -> StronglySorted Z.lt ps.
Proof.
  induction ps as [|p ps IH]; intros N S; [constructor|].
  inversion N as [|? ? Hn N']; inversion S as [|? ? S' Hall]; subst.
  constructor; [auto|]. rewrite Forall_forall in Hall. apply Forall_forall.
  intros z Hz. specialize (Hall z Hz).
  assert (z <> p) by (intros ->; contradiction). lia.
Qed.

(** Sorted positions that are dense are 0, 1, ..., n-1 in this order. *)
Lemma sorted_dense_countUp ps :
  StronglySorted Z.le ps -> Positions.dense ps -> ps = countUp (length ps).
Proof.
  intros S [N D]. apply sorted_lt_unique.
  - apply sorted_le_lt; assumption.
  - apply seq_sorted.
  - intros z. rewrite in_countUp. apply D.
Qed.
End PositionSortFacts.

(** ** What a client reads *)

Lemma dense_perm ps ps' : Permutation ps ps' -> Positions.dense ps -> Positions.dense ps'.
Proof.
  intros P D. apply PositionsFacts.bounded_dense.
  apply (PositionsFacts.bounded_perm ps); [exact P|].
  apply PositionsFacts.dense_bounded. exact D.
Qed.

(** X20. [getWithCards] returns the non-archived lists of the board, each
    once, by ascending position, each with its non-archived cards, each
    once, by ascending position. Under I1 the list at index k of the
    answer has position k, and the card at index k of a list has position
    k. *)
Theorem getWithCards_in_order boardId db :
  let r := listStatics.getWithCards boardId db in
  Permutation (map fst r) (filter (liveInBoard boardId) (lists db))
  /\ StronglySorted Z.le (map ListDoc.position (map fst r))
  /\ (I1_lists boardId db ->
      map ListDoc.position (map fst r) = PositionSort.countUp (length r))
  /\ (forall l cs, In (l, cs) r ->
        Permutation cs (filter (liveInList (ListDoc._id l)) (cards db))
        /\ StronglySorted Z.le (map CardDoc.position cs)
        /\ (I1_cards (ListDoc._id l) db ->
            map CardDoc.position cs = PositionSort.countUp (length cs))).
Proof.
  intros r. subst r. unfold listStatics.getWithCards.
  set (S := PositionSort.sortBy ListDoc.position
              (filter (liveInBoard boardId) (lists db))).
  assert (E : map fst (map (fun l => (l, listStatics.populateCards l db)) S) = S)
    by (rewrite map_map; apply map_id).
  rewrite E.
  pose proof (PositionSortFacts.sortBy_perm ListDoc.position
                (filter (liveInBoard boardId) (lists db))) as P.
  pose proof (PositionSortFacts.sortBy_sorted ListDoc.position
                (filter (liveInBoard boardId) (lists db))) as Sd.
  fold S in P, Sd.
  split; [exact P|]. split; [exact Sd|]. split.
  - intros D. rewrite length_map, <- (length_map ListDoc.position S).
    apply PositionSortFacts.sorted_dense_countUp; [exact Sd|].
    apply (dense_perm (listPositions boardId db)); [|exact D].
    unfold listPositions. apply Permutation_map. symmetry. exact P.
  - intros l cs Hin. apply in_map_iff in Hin. destruct Hin as (l' & Heq & _).
    injection Heq as <- <-. unfold listStatics.populateCards.
    rewrite PositionSortFacts.sortByPosition_sortBy.
    pose proof (PositionSortFacts.sortBy_perm CardDoc.position
                  (filter (liveInList (ListDoc._id l')) (cards db))) as Pc.
    pose proof (PositionSortFacts.sortBy_sorted CardDoc.position
                  (filter (liveInList (ListDoc._id l')) (cards db))) as Sc.
    split; [exact Pc|]. split; [exact Sc|].
    intros D. rewrite <- (length_map CardDoc.position).
    apply PositionSortFacts.sorted_dense_countUp; [exact Sc|].
    apply (dense_perm (cardPositions (ListDoc._id l') db)); [|exact D].
    unfold cardPositions. apply Permutation_map. symmetry. exact Pc.
Qed.

Lemma getWithCards_in_order_witness :
  map ListDoc.position (map fst (listStatics.getWithCards "board1" Samples.dbTwoLists))
  = PositionSort.countUp (length (listStatics.getWithCards "board1" Samples.dbTwoLists)).
Proof.
  apply (getWithCards_in_order "board1" Samples.dbTwoLists).
  apply PositionsFacts.bounded_dense. split.
  - repeat constructor; simpl; intuition discriminate.
  - simpl. intros z [<-|[<-|[]]]; lia.
Defined.

(** ** Renumbering the lists of a board *)

Module listStaticsFacts.
Import listStatics.

Lemma updateOne_updateMany {A} (docId : A -> ObjectId) id (q : A -> bool) (u : A -> A)
      coll :
  NoDup (map docId coll) -> (forall d, q d = true -> docId d = id) ->
  updateOne q u coll = Query.updateMany q u coll.
Proof.
  intros N Hq. induction coll as [|d rest IH]; [reflexivity|].
  inversion N as [|? ? Hn N']; subst. simpl.
  destruct (q d) eqn:Q.
  - f_equal. symmetry. apply updateMany_none. intros c Hc.
    destruct (q c) eqn:Qc; [|reflexivity].
    exfalso. apply Hn. rewrite (Hq d Q), <- (Hq c Qc). apply in_map. exact Hc.
  - f_equal. apply IH. exact N'.
Qed.

Lemma indexOf_range id order : forall k i,
  indexOf id order k = Some i -> k <= i < k + Z.of_nat (length order) /\ In id order.
Proof.
  induction order as [|x rest IH]; simpl; intros k i H; [discriminate|].
  destruct (String.eqb_spec x id) as [->|Hne].
  - injection H as <-. split; [lia | auto].
  - apply IH in H. split; [lia | tauto].
Qed.

Lemma indexOf_none id order : forall k, ~ In id order -> indexOf id order k = None.
Proof.
  induction order as [|x rest IH]; simpl; intros k H; [reflexivity|].
  destruct (String.eqb_spec x id) as [->|Hne]; [tauto|]. apply IH. tauto.
Qed.

Lemma indexOf_some id order : forall k, In id order -> exists i, indexOf id order k = Some i.
Proof.
  induction order as [|x rest IH]; simpl; intros k H; [contradiction|].
  destruct (String.eqb_spec x id) as [->|Hne]; [eauto|].
  apply IH. destruct H; [contradiction | assumption].
Qed.

Lemma indexOf_inj a b order : forall k i,
  indexOf a order k = Some i -> indexOf b order k = Some i -> a = b.
Proof.
  induction order as [|x rest IH]; simpl; intros k i Ha Hb; [discriminate|].
  destruct (String.eqb_spec x a) as [Ea|Na]; destruct (String.eqb_spec x b) as [Eb|Nb].
  - congruence.
  - injection Ha as <-. apply indexOf_range in Hb. lia.
  - injection Hb as <-. apply indexOf_range in Ha. lia.
  - apply (IH (k + 1) i); assumption.
Qed.

Lemma indexOf_order order : forall k,
  NoDup order ->
  map (fun id => indexOf id order k) order
  = map (fun i => Some (k + Z.of_nat i)) (seq 0 (length order)).
Proof.
  induction order as [|x rest IH]; intros k N; [reflexivity|].
  inversion N as [|? ? Hn N']; subst. simpl. rewrite String.eqb_refl.
  f_equal; [f_equal; lia|].
  rewrite <- seq_shift, map_map.
  rewrite <- (map_ext (fun i => Some (k + 1 + Z.of_nat i))) by (intros; f_equal; lia).
  rewrite <- (IH (k + 1) N'). apply map_ext_in. intros id Hid.
  destruct (String.eqb_spec x id) as [->|]; [contradiction | reflexivity].
Qed.

(** The lists after the bulk write: each list of the board that
    [listOrder] names has its index as position. *)
Lemma bulkWrite_renumbers boardId order : forall k coll,
  NoDup (map ListDoc._id coll) -> NoDup order ->
  fold_left (fun coll op => updateOne (op_filter op) (op_update op) coll)
    (bulkOps boardId k order) coll
  = map (fun l => if inBoard boardId l
                  then match indexOf (ListDoc._id l) order k with
                       | Some index => ListDoc.setPosition index l
                       | None => l
                       end
                  else l) coll.
Proof.
  induction order as [|x rest IH]; intros k coll N No; simpl.
  - symmetry. apply map_fixed. intros l _. destruct (inBoard boardId l); reflexivity.
  - inversion No as [|? ? Hn No']; subst.
    rewrite (updateOne_updateMany ListDoc._id x) by
      (auto; intros d Hd; apply andb_prop in Hd; apply String.eqb_eq; apply Hd).
    rewrite IH; [|unfold Query.updateMany; apply (NoDup_ids_map ListDoc._id);
                  [intros c; destruct (_ && _); reflexivity | exact N] | exact No'].
    unfold Query.updateMany. rewrite map_map. apply map_ext. intros l.
    unfold inBoard.
    destruct (String.eqb_spec (ListDoc._id l) x) as [E|E];
      destruct (String.eqb_spec (ListDoc.boardId l) boardId) as [Eb|Eb]; simpl.
    + rewrite (proj2 (String.eqb_eq _ _) Eb).
      rewrite E, String.eqb_refl. rewrite (indexOf_none x rest (k + 1) Hn).
      reflexivity.
    + destruct (String.eqb_spec (ListDoc.boardId l) boardId); [contradiction|].
      reflexivity.
    + rewrite (proj2 (String.eqb_eq _ _) Eb).
      destruct (String.eqb_spec x (ListDoc._id l)); [congruence | reflexivity].
    + destruct (String.eqb_spec (ListDoc.boardId l) boardId); [contradiction|].
      reflexivity.
Qed.

Lemma reorderInBoard_result boardId order db :
  NoDup (map ListDoc._id (lists db)) -> NoDup order ->
  reorderInBoard boardId order db
  = (inr tt, setLists (map (renumbered boardId order) (lists db)) db).
Proof.
  intros N No. unfold reorderInBoard, bulkWrite.
  rewrite (bulkWrite_renumbers boardId order 0 (lists db) N No). reflexivity.
Qed.

Lemma renumbered_fields boardId order l :
  ListDoc._id (renumbered boardId order l) = ListDoc._id l
  /\ ListDoc.boardId (renumbered boardId order l) = ListDoc.boardId l
  /\ ListDoc.archived (renumbered boardId order l) = ListDoc.archived l
  /\ ListDoc.cardLimit (renumbered boardId order l) = ListDoc.cardLimit l.
Proof.
  unfold renumbered. destruct (inBoard boardId l); [|auto].
  destruct (indexOf (ListDoc._id l) order 0); auto.
Qed.

Lemma map_inj_some {A} (f : A -> option Z) l1 :
  forall l2,
    (forall a, In a l1 -> f a <> None) ->
    (forall a b i, f a = Some i -> f b = Some i -> a = b) ->
    map f l1 = map f l2 -> l1 = l2.
Proof.
  induction l1 as [|a l1 IH]; intros [|b l2] Hs Hi E; try discriminate;
    [reflexivity|].
  simpl in E. injection E as E1 E2.
  destruct (f a) as [i|] eqn:Fa; [|exfalso; apply (Hs a); auto; left; reflexivity].
  f_equal.
  - apply (Hi a b i); congruence.
  - apply IH; auto. intros c Hc. apply Hs. right. exact Hc.
Qed.

Lemma filter_map_comm {A} (q : A -> bool) (F : A -> A) l :
  (forall c, q (F c) = q c) -> filter q (map F l) = map F (filter q l).
Proof.
  intros H. induction l as [|a l IH]; [reflexivity|]. simpl.
  rewrite H. destruct (q a); simpl; rewrite IH; reflexivity.
Qed.
End listStaticsFacts.

(** X21. [reorderInBoard(boardId, listOrder)], for a [listOrder] without
    duplicates: every list of the board that [listOrder] names gets its
    index in [listOrder] as position, and every other list, every card
    and every board stays as it is. When [listOrder] names exactly the
    lists of the board, their positions are then 0..n-1 and, read by
    ascending position, the lists come in the order of [listOrder]; so
    does the answer of [getWithCards] when the board has no archived
    list. *)
Theorem reorderInBoard_renumbers boardId listOrder db :
  NoDup (map ListDoc._id (lists db)) -> NoDup listOrder ->
  let db' := snd (listStatics.reorderInBoard boardId listOrder db) in
  boards db' = boards db /\ cards db' = cards db
  /\ lists db' = map (listStatics.renumbered boardId listOrder) (lists db)
  /\ (forall l index, In l (lists db) -> ListDoc.boardId l = boardId ->
                      listStatics.indexOf (ListDoc._id l) listOrder 0 = Some index ->
                      In (ListDoc.setPosition index l) (lists db'))
  /\ (forall l, In l (lists db) ->
                ListDoc.boardId l <> boardId \/ ~ In (ListDoc._id l) listOrder ->
                In l (lists db'))
  /\ ((forall l, In l (lists db) -> ListDoc.boardId l = boardId ->
                 In (ListDoc._id l) listOrder) ->
      (forall id, In id listOrder ->
                  exists l, In l (lists db) /\ ListDoc._id l = id
                            /\ ListDoc.boardId l = boardId) ->
      listsDense boardId db'
      /\ map ListDoc._id
           (PositionSort.sortBy ListDoc.position (filter (inBoard boardId) (lists db')))
         = listOrder
      /\ (noArchivedList boardId db ->
          map (fun x => ListDoc._id (fst x)) (listStatics.getWithCards boardId db')
          = listOrder)).
Proof.
  intros N No db'. subst db'.
  rewrite (listStaticsFacts.reorderInBoard_result boardId listOrder db N No).
  cbn [snd]. unfold setLists. cbn [boards lists cards].
  set (G := listStatics.renumbered boardId listOrder).
  split; [reflexivity|]. split; [reflexivity|]. split; [reflexivity|].
  split; [|split].
  - intros l index Hl Hb Hi. apply in_map_iff. exists l. split; [|exact Hl].
    unfold G, listStatics.renumbered.
    rewrite (proj2 (inBoard_true _ _) Hb), Hi. reflexivity.
  - intros l Hl H. apply in_map_iff. exists l. split; [|exact Hl].
    unfold G, listStatics.renumbered. destruct (inBoard boardId l) eqn:Q; [|reflexivity].
    apply inBoard_true in Q. destruct H as [H|H]; [contradiction|].
    rewrite (listStaticsFacts.indexOf_none _ _ 0 H). reflexivity.
  - intros Hall Hex.
    set (L := filter (inBoard boardId) (lists db)).
    assert (EL : filter (inBoard boardId) (map G (lists db)) = map G L).
    { apply listStaticsFacts.filter_map_comm. intros c. apply inBoard_same.
      apply listStaticsFacts.renumbered_fields. }
    assert (NL : NoDup (map ListDoc._id L))
      by (apply (NoDup_ids_filter ListDoc._id); exact N).
    assert (InL : forall l, In l L -> In (ListDoc._id l) listOrder).
    { intros l Hl. apply filter_In in Hl. destruct Hl as [Hl Q].
      apply inBoard_true in Q. auto. }
    assert (PL : Permutation (map ListDoc._id L) listOrder).
    { apply NoDup_Permutation; [exact NL | exact No|]. intros id. split.
      - intros H. apply in_map_iff in H. destruct H as (l & <- & Hl). auto.
      - intros H. destruct (Hex id H) as (l & Hl & <- & Hb).
        apply in_map. apply filter_In. split; [exact Hl|].
        apply inBoard_true. exact Hb. }
    assert (Len : length L = length listOrder)
      by (rewrite <- (length_map ListDoc._id L); apply Permutation_length; exact PL).
    assert (Pos : forall l, In l L ->
                   listStatics.indexOf (ListDoc._id l) listOrder 0
                   = Some (ListDoc.position (G l))).
    { intros l Hl. destruct (listStaticsFacts.indexOf_some _ _ 0 (InL l Hl)) as [i Hi].
      rewrite Hi. unfold G, listStatics.renumbered.
      apply filter_In in Hl. destruct Hl as [_ Q]. rewrite Q, Hi. reflexivity. }
    assert (D : Positions.dense (map ListDoc.position (map G L))).
    { apply PositionsFacts.bounded_dense. split.
      - rewrite map_map. apply NoDup_map_NoDup_ForallPairs.
        + intros a b Ha Hb E.
          apply (same_id_same_doc ListDoc._id L); auto.
          apply (listStaticsFacts.indexOf_inj _ _ listOrder 0
                   (ListDoc.position (G a))); [apply Pos; exact Ha|].
          rewrite E. apply Pos. exact Hb.
        + apply (NoDup_map_inv ListDoc._id). exact NL.
      - intros z Hz. rewrite map_map in Hz. apply in_map_iff in Hz.
        destruct Hz as (l & <- & Hl).
        pose proof (listStaticsFacts.indexOf_range _ _ _ _ (Pos l Hl)) as R.
        rewrite !length_map. lia. }
    assert (Read : map ListDoc._id (PositionSort.sortBy ListDoc.position (map G L))
                   = listOrder).
    { pose proof (PositionSortFacts.sortBy_perm ListDoc.position (map G L)) as P.
      pose proof (PositionSortFacts.sortBy_sorted ListDoc.position (map G L)) as S.
      set (R := PositionSort.sortBy ListDoc.position (map G L)) in *.
      assert (InR : forall l', In l' R ->
                      listStatics.indexOf (ListDoc._id l') listOrder 0
                      = Some (ListDoc.position l')).
      { intros l' Hl'. apply (Permutation_in _ P) in Hl'.
        apply in_map_iff in Hl'. destruct Hl' as (l & <- & Hl).
        pose proof (proj1 (listStaticsFacts.renumbered_fields boardId listOrder l))
          as Ei.
        fold G in Ei. rewrite Ei. apply Pos. exact Hl. }
      apply (listStaticsFacts.map_inj_some
               (fun id => listStatics.indexOf id listOrder 0)).
      - intros id Hid. apply in_map_iff in Hid. destruct Hid as (l' & <- & Hl').
        rewrite (InR l' Hl'). discriminate.
      - intros a b i. apply listStaticsFacts.indexOf_inj.
      - rewrite (listStaticsFacts.indexOf_order listOrder 0 No).
        rewrite map_map.
        rewrite (map_ext_in _ (fun l' => Some (ListDoc.position l')) R InR).
        rewrite <- (map_map ListDoc.position Some).
        rewrite (PositionSortFacts.sorted_dense_countUp (map ListDoc.position R) S).
        + unfold PositionSort.countUp. rewrite !length_map.
          rewrite (Permutation_length P), length_map, Len.
          rewrite map_map. apply map_ext. intros i. f_equal.
        + apply (dense_perm (map ListDoc.position (map G L))); [|exact D].
          apply Permutation_map. symmetry. exact P. }
    split; [|split].
    + unfold listsDense, allListPositions. cbn [lists]. rewrite EL. exact D.
    + rewrite EL. exact Read.
    + intros NA. unfold listStatics.getWithCards. cbn [lists].
      rewrite map_map. cbn [fst].
      replace (filter (liveInBoard boardId) (map G (lists db)))
        with (filter (inBoard boardId) (map G (lists db))).
      * rewrite EL. exact Read.
      * apply filter_ext_in. intros l' Hl'. unfold liveInBoard.
        destruct (inBoard boardId l') eqn:Q; [|reflexivity].
        apply in_map_iff in Hl'. destruct Hl' as (l & <- & Hl).
        destruct (listStaticsFacts.renumbered_fields boardId listOrder l)
          as (_ & Eb & Ea & _).
        fold G in Ea, Eb. rewrite Ea.
        apply inBoard_true in Q. rewrite Eb in Q.
        rewrite (NA l Hl Q). reflexivity.
Qed.

Lemma reorderInBoard_renumbers_witness :
  map (fun x => ListDoc._id (fst x))
      (listStatics.getWithCards "board1"
         (snd (listStatics.reorderInBoard "board1" ["L2"; "L0"; "L3"; "L1"]
                 Samples.dbFourLists)))
  = ["L2"; "L0"; "L3"; "L1"].
Proof.
  apply (reorderInBoard_renumbers "board1" ["L2"; "L0"; "L3"; "L1"] Samples.dbFourLists).
  - repeat constructor; simpl; intuition discriminate.
  - repeat constructor; simpl; intuition discriminate.
  - simpl. intros l [<-|[<-|[<-|[<-|[]]]]] _; simpl; auto.
  - simpl. intros id [<-|[<-|[<-|[<-|[]]]]];
      [exists (ListDoc.mk "L2" "board1" 2 false None)
      |exists Samples.L0
      |exists (ListDoc.mk "L3" "board1" 3 false None)
      |exists (ListDoc.mk "L1" "board1" 1 false None)]; simpl; auto 6.
  - simpl. intros l [<-|[<-|[<-|[<-|[]]]]] _; reflexivity.
Defined.

(** ** Login attempts and the account lock *)

Module userSchemaFacts.
Import UserDoc userSchema.

Lemma find_updated (q : t -> bool) (f : t -> t) users user :
  NoDup (map _id users) ->
  find q users = Some user -> q (f user) = true ->
  find q (Query.updateMany (fun u => _id u =? _id user)%string f users)
  = Some (f user).
Proof.
  intros N F Q. unfold Query.updateMany.
  induction users as [|d rest IH]; simpl in *; [discriminate|].
  inversion N as [|? ? Hn N']; subst.
  destruct (q d) eqn:Qd.
  - injection F as ->. rewrite String.eqb_refl, Q. reflexivity.
  - assert (Hin : In user rest) by (apply find_some in F; apply F).
    destruct (String.eqb_spec (_id d) (_id user)) as [E|E].
    + exfalso. apply Hn. rewrite E. apply in_map. exact Hin.
    + rewrite Qd. apply IH; assumption.
Qed.

Lemma updated_others (f : t -> t) users user u :
  In u (Query.updateMany (fun d => _id d =? _id user)%string f users) ->
  (forall d, In d users -> _id d = _id user -> d = user) ->
  In user users ->
  u = f user \/ (In u users /\ _id u <> _id user).
Proof.
  intros Hu Huniq Hin. apply in_updateMany in Hu. destruct Hu as (d & Hd & ->).
  destruct (String.eqb_spec (_id d) (_id user)) as [E|E].
  - left. f_equal. apply Huniq; assumption.
  - right. auto.
Qed.

Lemma incLoginAttempts_keeps now this users :
  NoDup (map _id users) -> In this users ->
  (forall u, In u users -> lockMatchesAttempts u) ->
  forall u, In u (incLoginAttempts now this users) -> lockMatchesAttempts u.
Proof.
  intros N Hin HI u Hu. unfold incLoginAttempts, updateOne in Hu.
  assert (K : forall f,
             In u (Query.updateMany (fun d => _id d =? _id this)%string f users) ->
             lockMatchesAttempts (f this) -> lockMatchesAttempts u).
  { intros f H1 H2. apply in_updateMany in H1. destruct H1 as (d & Hd & ->).
    destruct (String.eqb_spec (_id d) (_id this)) as [E|E]; [|apply HI; exact Hd].
    replace d with this; [exact H2|].
    apply (same_id_same_doc _id users); auto. }
  destruct (HI this Hin) as [I0 [I1 I2]]. unfold maxAttempts in *.
  unfold isLocked in Hu.
  destruct (lockUntil this) as [l|] eqn:L.
  - assert (A5 : 5 <= loginAttempts this) by (apply I2; discriminate).
    destruct (Z.ltb_spec l now) as [He|He].
    + apply (K _ Hu). unfold lockMatchesAttempts, maxAttempts. simpl.
      split; [lia|]. split; [lia | congruence].
    + destruct (Z.leb_spec 5 (loginAttempts this + 1)) as [H5|H5]; [|lia].
      destruct (Z.ltb_spec now l) as [Hl|Hl]; simpl in Hu; apply (K _ Hu);
        unfold lockMatchesAttempts, maxAttempts; simpl; rewrite ?L;
        (split; [lia|]); (split; [discriminate | lia]).
  - assert (A5 : loginAttempts this < 5).
    { destruct (Z.lt_ge_cases (loginAttempts this) 5) as [|G]; [assumption|].
      exfalso. apply (I1 G). reflexivity. }
    destruct (Z.leb_spec 5 (loginAttempts this + 1)) as [H5|H5]; simpl in Hu;
      apply (K _ Hu); unfold lockMatchesAttempts, maxAttempts; simpl; rewrite ?L;
      (split; [lia|]); split; intros; try discriminate; try lia; try congruence.
Qed.
End userSchemaFacts.

(** X22. An account carries a lock date exactly when it has five or more
    failed attempts on record: when this is so for every stored user (ids
    unique), it is still so after any login attempt, whatever the
    credentials, the time and the outcome. *)
Theorem login_keeps_lockMatchesAttempts toLowerCase compare now email password users :
  NoDup (map UserDoc._id users) ->
  (forall u, In u users -> userSchema.lockMatchesAttempts u) ->
  forall u,
    In u (snd (userSchema.login toLowerCase compare now email password users)) ->
    userSchema.lockMatchesAttempts u.
Proof.
  intros N HI u. unfold userSchema.login, userSchema.findByCredentials.
  destruct ((email =? "")%string || (password =? "")%string); [apply HI|].
  destruct (find (fun u0 => (UserDoc.email u0 =? toLowerCase email)%string) users)
    as [user|] eqn:F; [|apply HI].
  destruct (userSchema.isLocked now user); [apply HI|].
  destruct (negb (UserDoc.isActive user)); [apply HI|].
  assert (Hin : In user users) by (apply find_some in F; apply F).
  destruct (negb (userSchema.comparePassword compare user password)).
  - simpl. apply userSchemaFacts.incLoginAttempts_keeps; assumption.
  - simpl. unfold userSchema.updateOne. intros Hu.
    apply in_updateMany in Hu. destruct Hu as (d & Hd & ->).
    destruct (UserDoc._id d =? _)%string; [|apply HI; exact Hd].
    unfold userSchema.lockMatchesAttempts, userSchema.maxAttempts. simpl.
    split; [lia|]. split; [lia | congruence].
Qed.

Lemma login_keeps_lockMatchesAttempts_witness :
  Forall userSchema.lockMatchesAttempts
    (snd (userSchema.login (fun s => s) String.eqb 1000 "ann@example.com" "wrong"
            [UserDoc.mk "u1" "ann@example.com" "secret" true 4 None None])).
Proof.
  apply Forall_forall. apply login_keeps_lockMatchesAttempts.
  - repeat constructor; simpl; intuition discriminate.
  - intros u [<-|[]]. unfold userSchema.lockMatchesAttempts, userSchema.maxAttempts.
    simpl. split; [lia|]. split; [lia | congruence].
Defined.

(** X23. The lockout. A failed login of an active user who is found, has
    no lock date and has n failed attempts on record answers 401 and
    records n+1 attempts; below five the account stays without a lock
    date; at five it is locked until thirty minutes after that attempt,
    and until then every login for that account, with the right password
    too, answers 401 and changes nothing. A successful login answers 200,
    resets the attempts to 0 and removes the lock date; a failed login
    after the lock date has passed restarts the count at 1 and removes
    the lock date. *)
Theorem login_lockout toLowerCase compare now email password users user :
  NoDup (map UserDoc._id users) ->
  email <> "" -> password <> "" ->
  find (fun u => UserDoc.email u =? toLowerCase email)%string users = Some user ->
  UserDoc.isActive user = true ->
  userSchema.isLocked now user = false ->
  let r := userSchema.login toLowerCase compare now email password users in
  let stored := find (fun u => UserDoc.email u =? toLowerCase email)%string (snd r) in
  (compare password (UserDoc.password user) = true ->
   fst r = (200, "Login successful")
   /\ stored = Some (UserDoc.setLockUntil None
                       (UserDoc.setLoginAttempts 0
                          (UserDoc.setLastLogin (Some now) user))))
  /\ (compare password (UserDoc.password user) = false ->
      fst r = (401, "Invalid login credentials")
      /\ (UserDoc.lockUntil user = None ->
          UserDoc.loginAttempts user + 1 < userSchema.maxAttempts ->
          stored = Some (UserDoc.setLoginAttempts (UserDoc.loginAttempts user + 1) user))
      /\ (UserDoc.lockUntil user = None ->
          userSchema.maxAttempts <= UserDoc.loginAttempts user + 1 ->
          stored = Some (UserDoc.setLockUntil (Some (now + userSchema.lockTime))
                           (UserDoc.setLoginAttempts (UserDoc.loginAttempts user + 1)
                              user))
          /\ forall compare' later password',
               now <= later < now + userSchema.lockTime ->
               userSchema.login toLowerCase compare' later email password' (snd r)
               = ((401, "Invalid login credentials"), snd r))
      /\ (forall l, UserDoc.lockUntil user = Some l -> l < now ->
            stored = Some (UserDoc.setLockUntil None (UserDoc.setLoginAttempts 1 user)))).
Proof.
  intros N He Hp F Ha Hl r stored. subst stored r.
  unfold userSchema.login, userSchema.findByCredentials.
  destruct (String.eqb_spec email "") as [|_]; [contradiction|].
  destruct (String.eqb_spec password "") as [|_]; [contradiction|].
  simpl. rewrite F, Hl, Ha. simpl.
  unfold userSchema.comparePassword.
  destruct (String.eqb_spec password "") as [|_]; [contradiction|].
  assert (Hin : In user users) by (apply find_some in F; apply F).
  assert (Q : (UserDoc.email user =? toLowerCase email)%string = true)
    by (apply find_some in F; apply F).
  destruct (compare password (UserDoc.password user)); simpl.
  - split; [|discriminate]. intros _. split; [reflexivity|].
    unfold userSchema.updateOne. simpl.
    exact (userSchemaFacts.find_updated _
             (fun u => UserDoc.setLockUntil None
                         (UserDoc.setLoginAttempts 0
                            (UserDoc.setLastLogin (Some now) u)))
             users user N F Q).
  - split; [discriminate|]. intros _. split; [reflexivity|].
    unfold userSchema.incLoginAttempts, userSchema.updateOne, userSchema.isLocked in *.
    split; [|split].
    + intros L H5. rewrite L. unfold userSchema.maxAttempts in *.
      destruct (Z.leb_spec 5 (UserDoc.loginAttempts user + 1)) as [|_]; [lia|]. simpl.
      exact (userSchemaFacts.find_updated _
               (fun u => UserDoc.setLoginAttempts (UserDoc.loginAttempts u + 1) u)
               users user N F Q).
    + intros L H5. rewrite L. unfold userSchema.maxAttempts in *.
      destruct (Z.leb_spec 5 (UserDoc.loginAttempts user + 1)) as [_|]; [|lia]. simpl.
      set (f := fun u => UserDoc.setLockUntil (Some (now + userSchema.lockTime))
                           (UserDoc.setLoginAttempts (UserDoc.loginAttempts u + 1) u)).
      pose proof (userSchemaFacts.find_updated _ f users user N F Q) as F'.
      split; [exact F'|].
      intros compare' later password' Hlater.
      destruct (password' =? "")%string; [reflexivity|].
      rewrite F'. simpl.
      destruct (Z.ltb_spec later (now + userSchema.lockTime)) as [_|]; [|lia].
      reflexivity.
    + intros l L Hexp. rewrite L.
      destruct (Z.ltb_spec l now) as [_|]; [|lia].
      exact (userSchemaFacts.find_updated _
               (fun u => UserDoc.setLockUntil None (UserDoc.setLoginAttempts 1 u))
               users user N F Q).
Qed.

Lemma login_lockout_witness :
  let users := [UserDoc.mk "u1" "ann@example.com" "secret" true 4 None None] in
  let r := userSchema.login (fun s => s) String.eqb 1000 "ann@example.com" "wrong" users in
  fst r = (401, "Invalid login credentials")
  /\ userSchema.login (fun s => s) String.eqb 2000 "ann@example.com" "secret" (snd r)
     = ((401, "Invalid login credentials"), snd r).
Proof.
  intros users r.
  destruct (login_lockout (fun s => s) String.eqb 1000 "ann@example.com" "wrong" users
              (UserDoc.mk "u1" "ann@example.com" "secret" true 4 None None))
    as [_ H]; try reflexivity; try discriminate.
  - repeat constructor; simpl; intuition discriminate.
  - destruct (H eq_refl) as (H1 & _ & H3 & _). split; [exact H1|].
    apply H3; [reflexivity | unfold userSchema.maxAttempts; simpl; lia|].
    unfold userSchema.lockTime. lia.
Defined.

(** ** The checklist and the assignees of a card *)

Module cardMethodsFacts.
Import CardContent cardMethods.

Lemma countUp_succ n :
  PositionSort.countUp (S n) = (PositionSort.countUp n ++ [Z.of_nat n])%list.
Proof.
  unfold PositionSort.countUp. rewrite seq_S, map_app. reflexivity.
Qed.

Lemma toggleFirst_fields itemId items :
  map ChecklistItem._id (toggleFirst itemId items) = map ChecklistItem._id items
  /\ map ChecklistItem.text (toggleFirst itemId items) = map ChecklistItem.text items
  /\ map ChecklistItem.position (toggleFirst itemId items)
     = map ChecklistItem.position items
  /\ length (toggleFirst itemId items) = length items.
Proof.
  induction items as [|i rest (IH1 & IH2 & IH3 & IH4)]; simpl; [auto|].
  destruct (ChecklistItem._id i =? itemId)%string; simpl; [auto|].
  rewrite IH1, IH2, IH3, IH4. auto.
Qed.

Lemma toggleFirst_twice itemId items :
  toggleFirst itemId (toggleFirst itemId items) = items.
Proof.
  induction items as [|i rest IH]; simpl; [reflexivity|].
  destruct (ChecklistItem._id i =? itemId)%string eqn:E; simpl; rewrite E.
  - rewrite negb_involutive. destruct i; reflexivity.
  - rewrite IH. reflexivity.
Qed.

Lemma toggleFirst_absent itemId items :
  ~ In itemId (map ChecklistItem._id items) -> toggleFirst itemId items = items.
Proof.
  induction items as [|i rest IH]; simpl; intros H; [reflexivity|].
  destruct (String.eqb_spec (ChecklistItem._id i) itemId) as [E|E]; [tauto|].
  rewrite IH; tauto.
Qed.

Lemma addChecklistItem_indexed this newId text this' :
  addChecklistItem this newId text = inr this' -> indexed this -> indexed this'.
Proof.
  unfold addChecklistItem, indexed.
  destruct (itemError _); [discriminate|]. intros H. injection H as <-. simpl.
  intros I. rewrite map_app, length_app, I. simpl.
  rewrite Nat.add_1_r, countUp_succ. reflexivity.
Qed.

Lemma toggleChecklistItem_indexed this itemId :
  indexed this -> indexed (toggleChecklistItem this itemId).
Proof.
  unfold indexed, toggleChecklistItem. simpl.
  destruct (toggleFirst_fields itemId (checklist this)) as (_ & _ & -> & ->). auto.
Qed.
End cardMethodsFacts.

(** X24. The checklist of a card keeps its positions equal to the
    indices 0, 1, ..., n-1 under any sequence of [addChecklistItem] and
    [toggleChecklistItem] calls (no method removes an item): a saved
    [addChecklistItem] appends one item, not completed, with the trimmed
    text, at position n, and leaves the others as they are;
    [toggleChecklistItem] changes no id, text or position, changes nothing
    when no item has that id, flips [completed] of that item only, and
    undoes itself when called twice. *)
Theorem checklist_positions_are_indices :
  (forall calls this,
      cardMethods.indexed this -> cardMethods.indexed (cardMethods.afterCalls calls this))
  /\ (forall this newId text this',
         cardMethods.addChecklistItem this newId text = inr this' ->
         CardContent.assignedTo this' = CardContent.assignedTo this
         /\ CardContent.checklist this'
            = (CardContent.checklist this
               ++ [ChecklistItem.mk newId (Text.trim text) false
                     (Z.of_nat (length (CardContent.checklist this)))])%list
         /\ Text.trim text <> "")
  /\ (forall this itemId,
         let this' := cardMethods.toggleChecklistItem this itemId in
         CardContent.assignedTo this' = CardContent.assignedTo this
         /\ map ChecklistItem._id (CardContent.checklist this')
            = map ChecklistItem._id (CardContent.checklist this)
         /\ map ChecklistItem.text (CardContent.checklist this')
            = map ChecklistItem.text (CardContent.checklist this)
         /\ map ChecklistItem.position (CardContent.checklist this')
            = map ChecklistItem.position (CardContent.checklist this)
         /\ cardMethods.toggleChecklistItem this' itemId = this
         /\ (~ In itemId (map ChecklistItem._id (CardContent.checklist this)) ->
             this' = this)
         /\ (forall i, In i (CardContent.checklist this) ->
                       NoDup (map ChecklistItem._id (CardContent.checklist this)) ->
                       In (if (ChecklistItem._id i =? itemId)%string
                           then ChecklistItem.setCompleted
                                  (negb (ChecklistItem.completed i)) i
                           else i)
                          (CardContent.checklist this'))).
Proof.
  split; [|split].
  - induction calls as [|[newId text|itemId] rest IH]; intros this I; simpl.
    + exact I.
    + destruct (cardMethods.addChecklistItem this newId text) as [e|this'] eqn:E.
      * apply IH. exact I.
      * apply IH. apply (cardMethodsFacts.addChecklistItem_indexed this newId text);
          assumption.
    + apply IH. apply cardMethodsFacts.toggleChecklistItem_indexed. exact I.
  - intros this newId text this'. unfold cardMethods.addChecklistItem.
    destruct (cardMethods.itemError _) eqn:E; [discriminate|].
    intros H. injection H as <-. simpl. repeat split.
    intros T. unfold cardMethods.itemError in E. simpl in E. rewrite T in E.
    simpl in E. discriminate.
  - intros this itemId this'. subst this'. unfold cardMethods.toggleChecklistItem.
    simpl.
    destruct (cardMethodsFacts.toggleFirst_fields itemId (CardContent.checklist this))
      as (E1 & E2 & E3 & _).
    repeat split; auto.
    + rewrite cardMethodsFacts.toggleFirst_twice. destruct this; reflexivity.
    + intros H. rewrite cardMethodsFacts.toggleFirst_absent by exact H.
      destruct this; reflexivity.
    + intros i Hi N. clear E1 E2 E3.
      induction (CardContent.checklist this) as [|j rest IH]; [contradiction|].
      simpl in *. inversion N as [|? ? Hn N']; subst.
      destruct Hi as [->|Hi].
      * destruct (ChecklistItem._id i =? itemId)%string; left; reflexivity.
      * destruct (String.eqb_spec (ChecklistItem._id j) itemId) as [Ej|Ej].
        -- right. destruct (String.eqb_spec (ChecklistItem._id i) itemId) as [Ei|Ei];
             [|exact Hi].
           exfalso. apply Hn. rewrite Ej, <- Ei. apply in_map. exact Hi.
        -- right. apply IH; assumption.
Qed.

Lemma checklist_positions_are_indices_witness :
  cardMethods.indexed
    (cardMethods.afterCalls
       [cardMethods.AddChecklistItem "i0" " write the tests ";
        cardMethods.AddChecklistItem "i1" "   ";
        cardMethods.ToggleChecklistItem "i0";
        cardMethods.AddChecklistItem "i2" "review"]
       (CardContent.mk [] [])).
Proof.
  apply (proj1 checklist_positions_are_indices). reflexivity.
Defined.

Module assigneeFacts.
Import CardContent cardMethods.

Lemma assignUser_assigned this u v :
  existsb (fun id => id =? v)%string (assignedTo (assignUser this u))
  = (v =? u)%string || existsb (fun id => id =? v)%string (assignedTo this).
Proof.
  unfold assignUser.
  destruct (existsb (fun id => id =? u)%string (assignedTo this)) eqn:E; simpl.
  - destruct (String.eqb_spec v u) as [->|]; [|reflexivity]. now rewrite E.
  - rewrite existsb_app. simpl. rewrite orb_false_r, (String.eqb_sym u v).
    apply orb_comm.
Qed.

Lemma assignUser_NoDup this u :
  NoDup (assignedTo this) -> NoDup (assignedTo (assignUser this u)).
Proof.
  unfold assignUser.
  destruct (existsb (fun id => id =? u)%string (assignedTo this)) eqn:E; simpl;
    [auto|].
  intros N. apply NoDup_app; [exact N | repeat constructor; simpl; tauto|].
  intros m Hm [<-|[]]. apply boardMethodsFacts.existsb_not_In in E. contradiction.
Qed.

Lemma unassignUser_twice this u :
  unassignUser (unassignUser this u) u = unassignUser this u.
Proof.
  unfold unassignUser, setAssignedTo. simpl. f_equal.
  apply boardMethodsFacts.filter_absent. intros H. apply filter_In in H.
  destruct H as [_ H]. rewrite String.eqb_refl in H. discriminate.
Qed.
End assigneeFacts.

(** X25. [assignUser] and [unassignUser]: after [assignUser] the user is
    assigned, assigning again changes nothing and no user is listed
    twice; after [unassignUser] the user is not assigned and unassigning
    again changes nothing; neither changes who else is assigned, nor the
    checklist; unassigning a user right after assigning them to a card
    they were not assigned to gives the card back. *)
Theorem assignUser_unassignUser this userId :
  let assigned c u := existsb (fun id => id =? u)%string (CardContent.assignedTo c) in
  let a := cardMethods.assignUser this userId in
  let b := cardMethods.unassignUser this userId in
  (assigned a userId = true
   /\ (forall v, v <> userId -> assigned a v = assigned this v)
   /\ cardMethods.assignUser a userId = a
   /\ CardContent.checklist a = CardContent.checklist this
   /\ (NoDup (CardContent.assignedTo this) -> NoDup (CardContent.assignedTo a)))
  /\ (assigned b userId = false
      /\ (forall v, v <> userId -> assigned b v = assigned this v)
      /\ cardMethods.unassignUser b userId = b
      /\ CardContent.checklist b = CardContent.checklist this
      /\ (NoDup (CardContent.assignedTo this) -> NoDup (CardContent.assignedTo b)))
  /\ (assigned this userId = false -> cardMethods.unassignUser a userId = this).
Proof.
  intros assigned a b. subst assigned a b. split; [|split].
  - split; [|split; [|split; [|split]]].
    + rewrite assigneeFacts.assignUser_assigned, String.eqb_refl. reflexivity.
    + intros v Hv. rewrite assigneeFacts.assignUser_assigned.
      destruct (String.eqb_spec v userId); [contradiction | reflexivity].
    + unfold cardMethods.assignUser at 1.
      rewrite assigneeFacts.assignUser_assigned, String.eqb_refl. reflexivity.
    + unfold cardMethods.assignUser.
      destruct (negb _); reflexivity.
    + apply assigneeFacts.assignUser_NoDup.
  - unfold cardMethods.unassignUser at 1 2. simpl.
    split; [|split; [|split; [|split]]].
    + rewrite boardMethodsFacts.existsb_without, String.eqb_refl. reflexivity.
    + intros v Hv. rewrite boardMethodsFacts.existsb_without.
      destruct (String.eqb_spec v userId); [contradiction | reflexivity].
    + apply assigneeFacts.unassignUser_twice.
    + reflexivity.
    + apply NoDup_filter.
  - intros E. unfold cardMethods.assignUser. rewrite E. simpl.
    unfold cardMethods.unassignUser, CardContent.setAssignedTo. simpl.
    rewrite filter_app. simpl. rewrite String.eqb_refl. simpl.
    rewrite app_nil_r, boardMethodsFacts.filter_absent.
    + destruct this; reflexivity.
    + apply boardMethodsFacts.existsb_not_In. exact E.
Qed.

Lemma assignUser_unassignUser_witness :
  NoDup (CardContent.assignedTo
           (cardMethods.assignUser (CardContent.mk ["alice"] []) "bob"))
  /\ cardMethods.unassignUser
       (cardMethods.assignUser (CardContent.mk ["alice"] []) "bob") "bob"
     = CardContent.mk ["alice"] [].
Proof.
  destruct (assignUser_unassignUser (CardContent.mk ["alice"] []) "bob")
    as ((_ & _ & _ & _ & H1) & _ & H2).
  split.
  - apply H1. repeat constructor; simpl; intuition discriminate.
  - apply H2. reflexivity.
Defined.

(** ** The board middleware *)

Lemma isBoardOwner_result userId boardId db :
  middleware.isBoardOwner userId boardId db
  = match Query.findById BoardDoc._id boardId (boards db) with
    | None => Some (json 404 "Board not found" NoData)
    | Some board =>
        if boardSchema.isOwner board userId then None
        else Some (json 403 "Access denied. Only board owner can perform this action."
                     NoData)
    end.
Proof.
  unfold middleware.isBoardOwner, middleware.orError, boardSchema.isOwner. run_async.
  destruct (Query.findById BoardDoc._id boardId (boards db)) as [board|];
    [|reflexivity].
  destruct (BoardDoc.ownerId board =? userId)%string; reflexivity.
Qed.

Lemma isBoardMember_result userId boardId db :
  middleware.isBoardMember userId boardId db
  = match Query.findById BoardDoc._id boardId (boards db) with
    | None => Some (json 404 "Board not found" NoData)
    | Some board =>
        if boardSchema.isMember board userId then None
        else Some (json 403 "Access denied. You are not a member of this board." NoData)
    end.
Proof.
  unfold middleware.isBoardMember, middleware.orError, boardSchema.isMember. run_async.
  destruct (Query.findById BoardDoc._id boardId (boards db)) as [board|];
    [|reflexivity].
  destruct (BoardDoc.ownerId board =? userId)%string,
    (existsb (fun memberId => memberId =? userId)%string (BoardDoc.members board));
    reflexivity.
Qed.

Lemma deleteBoard_result userId boardId db board :
  Query.findById BoardDoc._id boardId (boards db) = Some board ->
  boardSchema.isOwner board userId = true ->
  boardController.deleteBoard userId boardId db
  = (json 200 "Board deleted successfully" NoData, snd (boardSchema.deleteOne board db)).
Proof.
  intros F O. unfold boardController.deleteBoard, try_catch. run_async.
  rewrite F, O. unfold boardSchema.deleteOne, boardSchema.pre_deleteOne. run_async.
  reflexivity.
Qed.

(** X26. The board middleware agrees with the model methods that it
    repeats inline: [isBoardMember] calls [next()] exactly when the board
    is stored and [board.isMember] holds of the user, [isBoardOwner]
    exactly when it is stored and [board.isOwner] holds. So the route
    [DELETE /api/boards/:id] answers 404 for a missing board and 403 for a
    user who is not the owner, both without a change, and otherwise
    deletes the board with its lists and cards; the rejections of
    [deleteBoard] itself are never what the route answers. *)
Theorem board_middleware userId boardId db :
  (middleware.isBoardMember userId boardId db = None
   <-> exists board, Query.findById BoardDoc._id boardId (boards db) = Some board
                     /\ boardSchema.isMember board userId = true)
  /\ (middleware.isBoardOwner userId boardId db = None
      <-> exists board, Query.findById BoardDoc._id boardId (boards db) = Some board
                        /\ boardSchema.isOwner board userId = true)
  /\ match Query.findById BoardDoc._id boardId (boards db) with
     | None =>
         middleware.delete_board userId boardId db
         = (json 404 "Board not found" NoData, db)
     | Some board =>
         if boardSchema.isOwner board userId
         then middleware.delete_board userId boardId db
              = (json 200 "Board deleted successfully" NoData,
                 snd (boardSchema.deleteOne board db))
         else middleware.delete_board userId boardId db
              = (json 403 "Access denied. Only board owner can perform this action."
                   NoData, db)
     end
  /\ message (fst (middleware.delete_board userId boardId db))
     <> "Only board owner can delete the board".
Proof.
  split; [|split; [|split]].
  - rewrite isBoardMember_result.
    destruct (Query.findById BoardDoc._id boardId (boards db)) as [board|].
    + destruct (boardSchema.isMember board userId) eqn:M.
      * split; [intros _; exists board; auto | reflexivity].
      * split; [discriminate|].
        intros (b & Hb & H). injection Hb as <-. congruence.
    + split; [discriminate|]. intros (b & Hb & _). discriminate.
  - rewrite isBoardOwner_result.
    destruct (Query.findById BoardDoc._id boardId (boards db)) as [board|].
    + destruct (boardSchema.isOwner board userId) eqn:O.
      * split; [intros _; exists board; auto | reflexivity].
      * split; [discriminate|].
        intros (b & Hb & H). injection Hb as <-. congruence.
    + split; [discriminate|]. intros (b & Hb & _). discriminate.
  - unfold middleware.delete_board. rewrite isBoardOwner_result.
    destruct (Query.findById BoardDoc._id boardId (boards db)) as [board|] eqn:F;
      [|reflexivity].
    destruct (boardSchema.isOwner board userId) eqn:O; [|reflexivity].
    apply deleteBoard_result; assumption.
  - unfold middleware.delete_board. rewrite isBoardOwner_result.
    destruct (Query.findById BoardDoc._id boardId (boards db)) as [board|] eqn:F;
      [|simpl; discriminate].
    destruct (boardSchema.isOwner board userId) eqn:O; [|simpl; discriminate].
    rewrite (deleteBoard_result userId boardId db board F O). simpl. discriminate.
Qed.
